(** * WhatToDo? (expo-app): a shallow embedding of the screen controllers

    The application is a set of React Native screens over a hosted row
    store.  This development embeds the parts of the screens that carry
    logic: the signup password validator, the derived section builders of
    the list screens, and the event handlers of the list, create and edit
    screens, the latter as programs over an explicit signature of remote
    calls and user-interface effects.

    Part I holds the definitions, Part II the theorems. *)

From Stdlib Require Import String Ascii DecimalString.
From Stdlib Require Import ZArith NArith List Bool Lia.
From Stdlib Require Import Permutation Sorted.
From Stdlib Require Import Floats.SpecFloat.
Import ListNotations.

Set Implicit Arguments.
Local Open Scope Z_scope.

(* ===================================================================== *)
(** * Part I: definitions                                                 *)
(* ===================================================================== *)

(** ** JavaScript strings

    A JavaScript string is a sequence of UTF-16 code units.  Literals of
    the source are ASCII and are written with [lit]. *)

Definition jsstring := list N.

Fixpoint lit (s : string) : jsstring :=
  match s with
  | EmptyString => []
  | String c s' => N_of_ascii c :: lit s'
  end.

Definition code_unit (c : ascii) : N := N_of_ascii c.

Definition jsstring_eqb (a b : jsstring) : bool :=
  if list_eq_dec N.eq_dec a b then true else false.

(** [ToBoolean] of a string: the empty string is the only falsy one. *)
Definition truthy_string (s : jsstring) : bool :=
  match s with [] => false | _ :: _ => true end.

(** [ToBoolean] of an optional string field ([undefined]/[null] are falsy). *)
Definition truthy_opt (o : option jsstring) : bool :=
  match o with None => false | Some s => truthy_string s end.

(** ** Regular expressions (the fragment the source uses)

    A backtracking matcher in continuation-passing style, after the
    ECMAScript pattern semantics: a matcher takes the index reached, the
    input that remains and a continuation.  Quantifiers range over terms
    that consume exactly one code unit, which is all the source needs. *)

Module RegExp.

Inductive atom :=
  | CRange (lo hi : ascii)   (* a-z *)
  | CChar (c : ascii)        (* a single listed character *)
  | CDigit.                  (* \d *)

Inductive cterm :=
  | Any                      (* .      *)
  | Class (cs : list atom).  (* [...]  *)

Inductive regex :=
  | Empty
  | Bol                            (* ^       *)
  | Eol                            (* $       *)
  | Chr (c : cterm)                (* a single-unit term *)
  | Star (c : cterm)               (* c*  (greedy) *)
  | Repeat (n : nat) (c : cterm)   (* c{n}    *)
  | Lookahead (r : regex)          (* (?=r)   *)
  | Seq (r1 r2 : regex).

Definition line_terminator (x : N) : bool :=
    (N.eqb x 10 || N.eqb x 13 || N.eqb x 8232 || N.eqb x 8233)%bool.

Definition amatch (a : atom) (x : N) : bool :=
    match a with
    | CRange lo hi => (N.leb (code_unit lo) x && N.leb x (code_unit hi))%bool
    | CChar c => N.eqb x (code_unit c)
    | CDigit => (N.leb (code_unit "0") x && N.leb x (code_unit "9"))%bool
    end.

Definition cmatch (c : cterm) (x : N) : bool :=
    match c with
    | Any => negb (line_terminator x)
    | Class cs => existsb (fun a => amatch a x) cs
    end.

Definition cont := nat -> jsstring -> bool.

Fixpoint star (c : cterm) (i : nat) (s : jsstring) (k : cont) {struct s} : bool :=
    match s with
    | x :: s' => ((cmatch c x && star c (S i) s' k) || k i s)%bool
    | [] => k i s
    end.

Fixpoint rep (c : cterm) (n : nat) (i : nat) (s : jsstring) (k : cont) {struct n} : bool :=
    match n with
    | O => k i s
    | S n' =>
        match s with
        | x :: s' => (cmatch c x && rep c n' (S i) s' k)%bool
        | [] => false
        end
    end.

Fixpoint m (r : regex) (i : nat) (s : jsstring) (k : cont) {struct r} : bool :=
    match r with
    | Empty => k i s
    | Bol => (Nat.eqb i 0 && k i s)%bool
    | Eol => match s with [] => k i s | _ :: _ => false end
    | Chr c => match s with x :: s' => (cmatch c x && k (S i) s')%bool | [] => false end
    | Star c => star c i s k
    | Repeat n c => rep c n i s k
    | Lookahead r' => (m r' i s (fun _ _ => true) && k i s)%bool
    | Seq r1 r2 => m r1 i s (fun i' s' => m r2 i' s' k)
    end.

  (** [RegExp.prototype.test] for a pattern without the [g] and [y] flags:
      a match is tried at every start index, from the left. *)
Fixpoint exec_from (r : regex) (i : nat) (s : jsstring) {struct s} : bool :=
    (m r i s (fun _ _ => true) ||
     match s with
     | _ :: s' => exec_from r (S i) s'
     | [] => false
     end)%bool.

Definition test (r : regex) (s : jsstring) : bool := exec_from r 0 s.

Fixpoint seq (rs : list regex) : regex :=
    match rs with
    | [] => Empty
    | r :: rs' => Seq r (seq rs')
    end.

End RegExp.

(** ** Signup screen: [validatePassword] *)

Module SignupScreen.
Import RegExp.

  (** The class [[A-Za-z\d@$!%*?&]]. *)
Definition allowed : list atom :=
    [CRange "A" "Z"; CRange "a" "z"; CDigit;
     CChar "@"; CChar "$"; CChar "!"; CChar "%"; CChar "*"; CChar "?"; CChar "&"].

  (** The class [[@$!%*?&]]. *)
Definition symbols : list atom :=
    [CChar "@"; CChar "$"; CChar "!"; CChar "%"; CChar "*"; CChar "?"; CChar "&"].

  (** [/^(?=.*[a-z])(?=.*[A-Z])(?=.*\d)(?=.*[@$!%*?&])[A-Za-z\d@$!%*?&]{10}$/] *)
Definition passwordRegex : regex :=
    seq [ Bol;
          Lookahead (Seq (Star Any) (Chr (Class [CRange "a" "z"])));
          Lookahead (Seq (Star Any) (Chr (Class [CRange "A" "Z"])));
          Lookahead (Seq (Star Any) (Chr (Class [CDigit])));
          Lookahead (Seq (Star Any) (Chr (Class symbols)));
          Repeat 10 (Class allowed);
          Eol ].

Definition validatePassword (password : jsstring) : bool :=
    test passwordRegex password.

End SignupScreen.

(** The rule of the specification, stated directly on the code units. *)
Module PasswordRule.

Definition is_upper (x : N) : bool := (N.leb (code_unit "A") x && N.leb x (code_unit "Z"))%bool.
Definition is_lower (x : N) : bool := (N.leb (code_unit "a") x && N.leb x (code_unit "z"))%bool.
Definition is_digit (x : N) : bool := (N.leb (code_unit "0") x && N.leb x (code_unit "9"))%bool.
Definition is_symbol (x : N) : bool :=
    existsb (N.eqb x) (lit "@$!%*?&").
Definition is_allowed (x : N) : bool :=
    (is_upper x || is_lower x || is_digit x || is_symbol x)%bool.

Definition accepts (s : jsstring) : bool :=
    (Nat.eqb (length s) 10 && forallb is_allowed s &&
     existsb is_upper s && existsb is_lower s &&
     existsb is_digit s && existsb is_symbol s)%bool.

End PasswordRule.

(** ** JavaScript numbers

    A number is an IEEE 754 binary64 value; [SpecFloat] gives the format
    and its correctly rounded operations over [Z]. *)

Definition number := spec_float.
Definition prec : Z := 53.
Definition emax : Z := 1024.

Definition NaN : number := S754_nan.
Definition pos_zero : number := S754_zero false.

(** The number value of an integer (rounded to nearest, ties to even). *)
Definition number_of_Z (z : Z) : number := binary_normalize prec emax z 0 false.

Definition isNaN (x : number) : bool :=
  match x with S754_nan => true | _ => false end.

(** [ToBoolean] of a number: [NaN], [+0] and [-0] are falsy. *)
Definition truthy_number (x : number) : bool :=
  match x with S754_nan | S754_zero _ => false | _ => true end.

(** [x >= y] and [x < y] on numbers; every comparison with [NaN] is false. *)
Definition num_geb (x y : number) : bool := SFleb y x.
Definition num_ltb (x y : number) : bool := SFltb x y.

(** ** White space and [String.prototype.trim]

    The code units of [WhiteSpace] and [LineTerminator]. *)

Definition is_white_space (x : N) : bool :=
  (N.eqb x 9 || N.eqb x 10 || N.eqb x 11 || N.eqb x 12 || N.eqb x 13 ||
   N.eqb x 32 || N.eqb x 160 || N.eqb x 5760 ||
   (N.leb 8192 x && N.leb x 8202) ||
   N.eqb x 8232 || N.eqb x 8233 || N.eqb x 8239 || N.eqb x 8287 ||
   N.eqb x 12288 || N.eqb x 65279)%bool.

Fixpoint trimStart (s : jsstring) : jsstring :=
  match s with
  | x :: s' => if is_white_space x then trimStart s' else s
  | [] => []
  end.

Definition trimEnd (s : jsstring) : jsstring := rev (trimStart (rev s)).

Definition trim (s : jsstring) : jsstring := trimEnd (trimStart s).

(** ** Numeric literals in strings: [parseFloat] and [Number]

    [StrDecimalLiteral] is read as a sign, the digits of the mantissa and a
    decimal exponent; its number value is the binary64 value nearest to
    [mant * 10 ^ exp10], ties to even. *)

Inductive literal :=
| LInfinity (neg : bool)
| LDecimal (neg : bool) (mant : Z) (exp10 : Z).

Definition is_decimal_digit (x : N) : bool := (N.leb 48 x && N.leb x 57)%bool.

(** The longest run of decimal digits at the head of [s], and what follows. *)
Fixpoint span_digits (s : jsstring) : list N * jsstring :=
  match s with
  | x :: s' =>
      if is_decimal_digit x
      then let '(ds, rest) := span_digits s' in (x :: ds, rest)
      else ([], s)
  | [] => ([], [])
  end.

Definition digits_value (ds : list N) : Z :=
  fold_left (fun acc x => 10 * acc + (Z.of_N x - 48)) ds 0.

(** An optional sign: [true] for [-]. *)
Definition read_sign (s : jsstring) : bool * jsstring :=
  match s with
  | 43%N :: s' => (false, s')
  | 45%N :: s' => (true, s')
  | _ => (false, s)
  end.

Fixpoint strip_prefix (p s : jsstring) : option jsstring :=
  match p, s with
  | [], _ => Some s
  | a :: p', b :: s' => if N.eqb a b then strip_prefix p' s' else None
  | _ :: _, [] => None
  end.

(** [ExponentPart], when one is there: [e] or [E], an optional sign and at
    least one digit. *)
Definition read_exponent (s : jsstring) : Z * jsstring :=
  match s with
  | x :: s1 =>
      if (N.eqb x 101 || N.eqb x 69)%bool then
        let '(neg, s2) := read_sign s1 in
        match span_digits s2 with
        | ([], _) => (0, s)
        | (ds, rest) => ((if neg then - digits_value ds else digits_value ds), rest)
        end
      else (0, s)
  | [] => (0, s)
  end.

(** The longest prefix of [s] that is a [StrDecimalLiteral], with the rest
    of [s]; [None] when no prefix is one. *)
Definition read_StrDecimalLiteral (s : jsstring) : option (literal * jsstring) :=
  let '(neg, s1) := read_sign s in
  match strip_prefix (lit "Infinity") s1 with
  | Some rest => Some (LInfinity neg, rest)
  | None =>
      let '(ip, s2) := span_digits s1 in
      let mantissa :=
        match s2 with
        | 46%N :: s2' =>
            let '(fp, s3) := span_digits s2' in
            match ip, fp with
            | [], [] => None
            | _, _ => Some (fp, s3)
            end
        | _ => match ip with [] => None | _ :: _ => Some ([], s2) end
        end in
      match mantissa with
      | None => None
      | Some (fp, s3) =>
          let '(e, rest) := read_exponent s3 in
          Some (LDecimal neg (digits_value (ip ++ fp)) (e - Z.of_nat (length fp)), rest)
      end
  end.

(** The number value of [(-1)^neg * mant * 10 ^ exp10]: an integer is
    rounded by [binary_round], a quotient [mant / 10 ^ k] by the division
    core of [SpecFloat], which keeps the remainder for the rounding. *)
Definition number_of_decimal (neg : bool) (mant exp10 : Z) : number :=
  if 0 <=? exp10 then
    match mant * 10 ^ exp10 with
    | Zpos p => binary_round prec emax neg p 0
    | _ => S754_zero neg
    end
  else
    match mant with
    | Zpos _ =>
        let '(q, e, l) := SFdiv_core_binary prec emax mant 0 (10 ^ (- exp10)) 0 in
        binary_round_aux prec emax neg q e l
    | _ => S754_zero neg
    end.

Definition literal_value (l : literal) : number :=
  match l with
  | LInfinity neg => S754_infinity neg
  | LDecimal neg mant exp10 => number_of_decimal neg mant exp10
  end.

(** [parseFloat(s)] *)
Definition parseFloat (s : jsstring) : number :=
  match read_StrDecimalLiteral (trimStart s) with
  | Some (l, _) => literal_value l
  | None => NaN
  end.

(** Digits of a [NonDecimalIntegerLiteral] in the given radix. *)
Definition radix_digit (radix : Z) (x : N) : option Z :=
  let v :=
    if (N.leb 48 x && N.leb x 57)%bool then Some (Z.of_N x - 48)
    else if (N.leb 97 x && N.leb x 102)%bool then Some (Z.of_N x - 87)
    else if (N.leb 65 x && N.leb x 70)%bool then Some (Z.of_N x - 55)
    else None in
  match v with
  | Some d => if d <? radix then Some d else None
  | None => None
  end.

Fixpoint radix_value (radix : Z) (acc : Z) (s : jsstring) : option Z :=
  match s with
  | [] => Some acc
  | x :: s' =>
      match radix_digit radix x with
      | Some d => radix_value radix (radix * acc + d) s'
      | None => None
      end
  end.

Definition read_NonDecimalIntegerLiteral (s : jsstring) : option Z :=
  match s with
  | 48%N :: p :: ((_ :: _) as ds) =>
      if (N.eqb p 120 || N.eqb p 88)%bool then radix_value 16 0 ds
      else if (N.eqb p 111 || N.eqb p 79)%bool then radix_value 8 0 ds
      else if (N.eqb p 98 || N.eqb p 66)%bool then radix_value 2 0 ds
      else None
  | _ => None
  end.

(** [Number(s)] for a string [s]: [StringToNumber]. *)
Definition Number (s : jsstring) : number :=
  match trim s with
  | [] => pos_zero
  | t =>
      match read_StrDecimalLiteral t with
      | Some (l, []) => literal_value l
      | _ =>
          match read_NonDecimalIntegerLiteral t with
          | Some z => number_of_Z z
          | None => NaN
          end
      end
  end.

(** [x || 0] for a number [x]. *)
Definition or_zero (x : number) : number :=
  if truthy_number x then x else pos_zero.

(** ** Rows of the two collections *)

Inductive ItemType := income | outcome.

Definition ItemType_eqb (a b : ItemType) : bool :=
  match a, b with
  | income, income | outcome, outcome => true
  | _, _ => false
  end.

Record Task := {
  task_id : jsstring;
  task_title : jsstring;
  task_description : option jsstring;
  task_completed : bool;
  task_category : option jsstring;
  task_deadline : option jsstring;
  task_created_at : jsstring
}.

Record BudgetItem := {
  item_id : jsstring;
  item_title : jsstring;
  item_amount : number;
  item_type : ItemType;
  item_currency : jsstring;
  item_created_at : jsstring
}.

(** A section of a [SectionList]. *)
Record ListSection (A : Type) := {
  section_title : jsstring;
  section_data : list A
}.

(** ** Dates

    [new Date(s).getTime()] is an integral number of milliseconds or
    [NaN]; it is modelled as [option Z], [None] being [NaN].  Which
    strings the [Date] constructor accepts beyond the ECMAScript format is
    left to the engine, so the constructor is a parameter of the definitions
    that use it. *)

Definition msPerDay : Z := 1000 * 60 * 60 * 24.

(** [Math.ceil(x / d)] for an integral [x] and a positive [d]. *)
Definition ceil_div (x d : Z) : Z := - ((- x) / d).

(** Comparisons of a possibly-[NaN] integral number with a constant. *)
Definition nan_leb (x : option Z) (n : Z) : bool :=
  match x with Some v => v <=? n | None => false end.
Definition nan_gtb (x : option Z) (n : Z) : bool :=
  match x with Some v => v >? n | None => false end.

(** Days since 1970-01-01 of a civil date (proleptic Gregorian). *)
Definition days_from_civil (y m d : Z) : Z :=
  let y' := if m <=? 2 then y - 1 else y in
  let era := y' / 400 in
  let yoe := y' - era * 400 in
  let mp := if m >? 2 then m - 3 else m + 9 in
  let doy := (153 * mp + 2) / 5 + d - 1 in
  let doe := yoe * 365 + yoe / 4 - yoe / 100 + doy in
  era * 146097 + doe - 719468.

Definition is_leap (y : Z) : bool :=
  ((y mod 4 =? 0) && (negb (y mod 100 =? 0) || (y mod 400 =? 0)))%bool.

Definition days_in_month (y m : Z) : Z :=
  if m =? 2 then (if is_leap y then 29 else 28)
  else if ((m =? 4) || (m =? 6) || (m =? 9) || (m =? 11))%bool then 30 else 31.

Definition digit_val (x : N) : option Z :=
  if is_decimal_digit x then Some (Z.of_N x - 48) else None.

Fixpoint digits_val (acc : Z) (s : jsstring) : option Z :=
  match s with
  | [] => Some acc
  | x :: s' =>
      match digit_val x with
      | Some v => digits_val (10 * acc + v) s'
      | None => None
      end
  end.

(** An instance of the constructor for the date-only form [YYYY-MM-DD] of
    the ECMAScript format, which denotes midnight UTC of that day.  Every
    other string is an invalid date in this instance; it serves the concrete
    runs below, the general theorems hold for any constructor. *)
Definition Date_parse (s : jsstring) : option Z :=
  match s with
  | [y1; y2; y3; y4; 45%N; m1; m2; 45%N; d1; d2] =>
      match digits_val 0 [y1; y2; y3; y4], digits_val 0 [m1; m2], digits_val 0 [d1; d2] with
      | Some y, Some m, Some d =>
          if ((1 <=? m) && (m <=? 12) && (1 <=? d) && (d <=? days_in_month y m))%bool
          then Some (days_from_civil y m d * msPerDay)
          else None
      | _, _, _ => None
      end
  | _ => None
  end.

(** ** The remote store client and the user-interface effects

    The screens talk to the store through the query builder of
    [../lib/supabase]; every awaited query resolves to a reply with a
    [data] and an [error] member.  The requests the screens issue are
    listed here with the payload they carry; what the store answers is left
    to the world a program runs in. *)

Record User := { user_id : jsstring }.

(** A reply [{ data, error }]; [error] carries the message. *)
Record Reply (A : Type) := {
  data : option A;
  error : option jsstring
}.

(** The object literal of an insert into [tasks]. *)
Record TaskInsert := {
  ti_title : jsstring;
  ti_category : option jsstring;
  ti_optional : bool;
  ti_deadline : jsstring;
  ti_user_id : jsstring
}.

(** The object literal of an insert into [budget_items]. *)
Record BudgetInsert := {
  bi_title : jsstring;
  bi_amount : number;
  bi_type : ItemType;
  bi_currency : jsstring;
  bi_user_id : jsstring
}.

(** The object literal of a partial update: a field is [Some] when the
    literal names it. *)
Record TaskPatch := {
  tp_title : option jsstring;
  tp_completed : option bool;
  tp_category : option jsstring
}.

Record BudgetPatch := {
  bp_title : option jsstring;
  bp_amount : option number;
  bp_type : option ItemType;
  bp_currency : option jsstring
}.

Inductive request : Type -> Type :=
| auth_getUser : request (option User)
    (* supabase.auth.getUser() *)
| select_tasks : request (Reply (list Task))
    (* from('tasks').select('*').order('created_at', { ascending: false }) *)
| select_budget_items : request (Reply (list BudgetItem))
    (* from('budget_items').select('*').order('created_at', { ascending: false }) *)
| select_task_single (id : jsstring) : request (Reply Task)
    (* from('tasks').select('*').eq('id', id).single() *)
| select_budget_item_single (id : jsstring) : request (Reply BudgetItem)
    (* from('budget_items').select('*').eq('id', id).single() *)
| insert_task (row : TaskInsert) : request (Reply unit)
| insert_budget_item (row : BudgetInsert) : request (Reply unit)
| update_task (patch : TaskPatch) (id : jsstring) : request (Reply unit)
    (* from('tasks').update(patch).eq('id', id) *)
| update_budget_item (patch : BudgetPatch) (id : jsstring) : request (Reply unit)
| delete_task (id : jsstring) : request (Reply unit)
    (* from('tasks').delete().eq('id', id) *)
| delete_budget_item (id : jsstring) : request (Reply unit).

(** The callbacks handed to [setTimeout]. *)
Inductive callback :=
| cb_router_back      (* () => router.back() *)
| cb_clear_error.     (* () => setError('') *)

Inductive ui :=
| console_error (label : jsstring)
| Alert_alert (title message : jsstring)
| router_back
| router_replace (href : jsstring)
| setTimeout (cb : callback) (ms : Z).

Inductive effect : Type -> Type :=
| Remote (X : Type) (r : request X) : effect X
| AsyncStorage_setItem (key value : jsstring) : effect bool
    (* [true]: the promise resolved; [false]: it rejected *)
| UI (u : ui) : effect unit.

(** Programs: a handler performs effects in sequence and returns. *)
Inductive prog (A : Type) : Type :=
| Ret (a : A)
| Do (X : Type) (e : effect X) (k : X -> prog A).

Arguments Ret {A} a.
Arguments Do {A X} e k.
Arguments Remote {X} r.

Fixpoint bind (A B : Type) (p : prog A) (f : A -> prog B) : prog B :=
  match p with
  | Ret a => f a
  | Do e k => Do e (fun x => bind (k x) f)
  end.

Definition call (X : Type) (r : request X) : prog X := Do (Remote r) Ret.
Definition storage_setItem (key value : jsstring) : prog bool :=
  Do (AsyncStorage_setItem key value) Ret.
Definition perform (u : ui) : prog unit := Do (UI u) Ret.

Declare Scope prog_scope.
Delimit Scope prog_scope with prog.
Notation "x <- p ;; q" := (bind p (fun x => q))
  (at level 61, p at next level, right associativity) : prog_scope.
Notation "p ;; q" := (bind p (fun _ => q))
  (at level 61, right associativity) : prog_scope.

(** What a run leaves behind, in order. *)
Inductive event :=
| Net (X : Type) (r : request X)
| Sto (key value : jsstring)
| Out (u : ui).

Arguments Net {X} r.

Definition is_net (e : event) : bool :=
  match e with Net _ => true | _ => false end.

(** The network calls of a trace. *)
Definition network (tr : list event) : list event := filter is_net tr.

(** The effects of a trace that the user can observe. *)
Definition outputs (tr : list event) : list ui :=
  flat_map (fun e => match e with Out u => [u] | _ => [] end) tr.

(** A world answers the requests and the writes to the local store. *)
Record World := {
  wstate : Type;
  remote : forall X : Type, request X -> wstate -> X * wstate;
  storage_set : jsstring -> jsstring -> wstate -> bool * wstate
}.

Fixpoint run (W : World) (A : Type) (p : prog A) (w : wstate W)
  : A * wstate W * list event :=
  match p with
  | Ret a => (a, w, [])
  | Do e k =>
      match e in effect X return (X -> prog A) -> A * wstate W * list event with
      | Remote r => fun k =>
          let '(x, w1) := remote W r w in
          let '(a, w2, tr) := run W (k x) w1 in
          (a, w2, Net r :: tr)
      | AsyncStorage_setItem key value => fun k =>
          let '(ok, w1) := storage_set W key value w in
          let '(a, w2, tr) := run W (k ok) w1 in
          (a, w2, Sto key value :: tr)
      | UI u => fun k =>
          let '(a, w2, tr) := run W (k tt) w in
          (a, w2, Out u :: tr)
      end k
  end.

Definition result (W : World) (A : Type) (r : A * wstate W * list event) : A :=
  fst (fst r).
Definition world_after (W : World) (A : Type) (r : A * wstate W * list event)
  : wstate W := snd (fst r).
Definition trace (W : World) (A : Type) (r : A * wstate W * list event)
  : list event := snd r.

Arguments run W {A} p w.
Arguments result {W A} r.
Arguments world_after {W A} r.
Arguments trace {W A} r.

(** [data || []] *)
Definition data_or_empty (A : Type) (r : Reply (list A)) : list A :=
  match data r with Some rows => rows | None => [] end.

(** ** Task list screen *)

Module TaskList.

Section Sections.
(** [new Date(s).getTime()] and the clock reading [new Date().getTime()];
    one derivation of the sections reads the clock at a single instant. *)
Variable Date_getTime : jsstring -> option Z.
Variable now : Z.

Definition getDaysRemaining (deadline : jsstring) : option Z :=
  match Date_getTime deadline with
  | Some dueDate =>
      let diffTime := dueDate - now in
      Some (ceil_div diffTime msPerDay)
  | None => None
  end.

(** [task.deadline && getDaysRemaining(task.deadline) <= 3] *)
Definition isUrgentDeadline (task : Task) : bool :=
  match task_deadline task with
  | Some d => (truthy_string d && nan_leb (getDaysRemaining d) 3)%bool
  | None => false
  end.

(** [!task.deadline || getDaysRemaining(task.deadline) > 3] *)
Definition isOngoingDeadline (task : Task) : bool :=
  match task_deadline task with
  | Some d => (negb (truthy_string d) || nan_gtb (getDaysRemaining d) 3)%bool
  | None => true
  end.

(** The deadline text of a task, when there is one, is a date. *)
Definition deadline_is_date (t : Task) : Prop :=
  forall d, task_deadline t = Some d -> d <> [] -> Date_getTime d <> None.

Definition ongoingTasks (tasks : list Task) : list Task :=
  filter (fun task => negb (task_completed task)) tasks.

Definition completedTasks (tasks : list Task) : list Task :=
  filter (fun task => task_completed task) tasks.

Definition taskSections (tasks : list Task) : list (ListSection Task) :=
  [ {| section_title := lit "Urgent";
       section_data := filter isUrgentDeadline (ongoingTasks tasks) |};
    {| section_title := lit "Ongoing";
       section_data := filter isOngoingDeadline (ongoingTasks tasks) |};
    {| section_title := lit "Done";
       section_data := completedTasks tasks |} ].

End Sections.

Definition incomeItems (budgetItems : list BudgetItem) : list BudgetItem :=
  filter (fun item => ItemType_eqb (item_type item) income) budgetItems.

Definition outcomeItems (budgetItems : list BudgetItem) : list BudgetItem :=
  filter (fun item => ItemType_eqb (item_type item) outcome) budgetItems.

Definition budgetSections (budgetItems : list BudgetItem) : list (ListSection BudgetItem) :=
  [ {| section_title := lit "Income"; section_data := incomeItems budgetItems |};
    {| section_title := lit "Outcome"; section_data := outcomeItems budgetItems |} ].

Inductive Tab := tab_tasks | tab_budget.

Record State := {
  activeTab : Tab;
  tasks : list Task;
  budgetItems : list BudgetItem;
  isDark : bool
}.

Definition setTasks (v : list Task) (st : State) : State :=
  {| activeTab := activeTab st; tasks := v;
     budgetItems := budgetItems st; isDark := isDark st |}.

Definition setBudgetItems (v : list BudgetItem) (st : State) : State :=
  {| activeTab := activeTab st; tasks := tasks st;
     budgetItems := v; isDark := isDark st |}.

Definition fetchTasks (st : State) : prog State :=
  (r <- call select_tasks ;;
   match error r with
   | Some _ => perform (console_error (lit "Error fetching tasks:")) ;; Ret st
   | None => Ret (setTasks (data_or_empty r) st)
   end)%prog.

Definition fetchBudgetItems (st : State) : prog State :=
  (r <- call select_budget_items ;;
   match error r with
   | Some _ => perform (console_error (lit "Error fetching budget items:")) ;; Ret st
   | None => Ret (setBudgetItems (data_or_empty r) st)
   end)%prog.

Definition toggleTaskCompletion (taskId : jsstring) (completed : bool) (st : State)
  : prog State :=
  (r <- call (update_task {| tp_title := None;
                             tp_completed := Some (negb completed);
                             tp_category := None |} taskId) ;;
   match error r with
   | Some _ => perform (console_error (lit "Error updating task:")) ;; Ret st
   | None => fetchTasks st
   end)%prog.

Definition toggleBudgetItemType (id : jsstring) (currentType : ItemType) (st : State)
  : prog State :=
  (r <- call (update_budget_item
                {| bp_title := None; bp_amount := None;
                   bp_type := Some (if ItemType_eqb currentType income
                                    then outcome else income);
                   bp_currency := None |} id) ;;
   match error r with
   | Some _ => perform (console_error (lit "Error updating budget item:")) ;; Ret st
   | None => fetchBudgetItems st
   end)%prog.

Definition deleteTask (taskId : jsstring) (st : State) : prog State :=
  (r <- call (delete_task taskId) ;;
   match error r with
   | Some _ => perform (console_error (lit "Error deleting task:")) ;; Ret st
   | None =>
       Ret (setTasks
              (filter (fun task => negb (jsstring_eqb (task_id task) taskId)) (tasks st))
              st)
   end)%prog.

Definition deleteBudgetItem (id : jsstring) (st : State) : prog State :=
  (r <- call (delete_budget_item id) ;;
   match error r with
   | Some _ => perform (console_error (lit "Error deleting budget item:")) ;; Ret st
   | None =>
       Ret (setBudgetItems
              (filter (fun item => negb (jsstring_eqb (item_id item) id)) (budgetItems st))
              st)
   end)%prog.

End TaskList.

(** ** Budget screen *)

Module BudgetScreen.

Definition incomeItems (items : list BudgetItem) : list BudgetItem :=
  filter (fun item => ItemType_eqb (item_type item) income) items.

Definition outcomeItems (items : list BudgetItem) : list BudgetItem :=
  filter (fun item => ItemType_eqb (item_type item) outcome) items.

Definition sections (items : list BudgetItem) : list (ListSection BudgetItem) :=
  [ {| section_title := lit "Income"; section_data := incomeItems items |};
    {| section_title := lit "Outcome"; section_data := outcomeItems items |} ].

Record State := {
  items : list BudgetItem;
  isDark : bool;
  userCurrency : jsstring
}.

Definition setItems (v : list BudgetItem) (st : State) : State :=
  {| items := v; isDark := isDark st; userCurrency := userCurrency st |}.

Definition fetchBudgetItems (st : State) : prog State :=
  (r <- call select_budget_items ;;
   match error r with
   | Some _ => perform (console_error (lit "Error fetching items:")) ;; Ret st
   | None => Ret (setItems (data_or_empty r) st)
   end)%prog.

Definition toggleItemType (id : jsstring) (currentType : ItemType) (st : State)
  : prog State :=
  (r <- call (update_budget_item
                {| bp_title := None; bp_amount := None;
                   bp_type := Some (if ItemType_eqb currentType income
                                    then outcome else income);
                   bp_currency := None |} id) ;;
   match error r with
   | Some _ => Ret st
   | None => fetchBudgetItems st
   end)%prog.

Definition deleteItem (id : jsstring) (st : State) : prog State :=
  (r <- call (delete_budget_item id) ;;
   match error r with
   | Some _ => Ret st
   | None =>
       Ret (setItems
              (filter (fun item => negb (jsstring_eqb (item_id item) id)) (items st))
              st)
   end)%prog.

End BudgetScreen.


(** ** Add-task screen *)

Module AddTaskScreen.

Record State := {
  title : jsstring;
  category : jsstring;
  optional : bool;
  deadline : jsstring;
  loading : bool;
  isDark : bool
}.

Definition setLoading (v : bool) (st : State) : State :=
  {| title := title st; category := category st; optional := optional st;
     deadline := deadline st; loading := v; isDark := isDark st |}.

(** [setTitle(''); setCategory(''); setOptional(false); setDeadline('')] *)
Definition resetForm (st : State) : State :=
  {| title := []; category := []; optional := false;
     deadline := []; loading := loading st; isDark := isDark st |}.

(** [category || null] *)
Definition category_or_null (category : jsstring) : option jsstring :=
  if truthy_string category then Some category else None.

Definition handleAddTask (st : State) : prog State :=
  (if negb (truthy_string (trim (title st))) then
     perform (Alert_alert (lit "Error") (lit "Task title cannot be empty")) ;;
     Ret st
   else
     let st1 := setLoading true st in
     user <- call auth_getUser ;;
     match user with
     | None =>
         perform (Alert_alert (lit "Error") (lit "Not authenticated")) ;;
         Ret (setLoading false st1)
     | Some user =>
         r <- call (insert_task {| ti_title := title st;
                                   ti_category := category_or_null (category st);
                                   ti_optional := optional st;
                                   ti_deadline := deadline st;
                                   ti_user_id := user_id user |}) ;;
         match error r with
         | Some message =>
             perform (Alert_alert (lit "Error") message) ;;
             Ret (setLoading false st1)
         | None =>
             perform router_back ;;
             Ret (setLoading false (resetForm st1))
         end
     end)%prog.

End AddTaskScreen.

(** ** Add-budget screen *)

Module AddBudgetScreen.

Record Currency := {
  code : jsstring;
  symbol : jsstring;
  name : jsstring
}.

Record State := {
  title : jsstring;
  amount : jsstring;
  type : ItemType;
  currency : Currency;
  isDark : bool;
  loading : bool;
  error_ : jsstring;
  showCurrencyPicker : bool
}.

Definition setError (v : jsstring) (st : State) : State :=
  {| title := title st; amount := amount st; type := type st;
     currency := currency st; isDark := isDark st; loading := loading st;
     error_ := v; showCurrencyPicker := showCurrencyPicker st |}.

Definition setLoading (v : bool) (st : State) : State :=
  {| title := title st; amount := amount st; type := type st;
     currency := currency st; isDark := isDark st; loading := v;
     error_ := error_ st; showCurrencyPicker := showCurrencyPicker st |}.

(** [setTitle(''); setAmount('')] *)
Definition resetForm (st : State) : State :=
  {| title := []; amount := []; type := type st;
     currency := currency st; isDark := isDark st; loading := loading st;
     error_ := error_ st; showCurrencyPicker := showCurrencyPicker st |}.

(** The two local checks of [handleAddBudgetItem]. *)
Definition titleMissing (st : State) : bool :=
  negb (truthy_string (trim (title st))).

Definition amountInvalid (st : State) : bool :=
  (negb (truthy_string (amount st)) || isNaN (Number (amount st)))%bool.

Definition handleAddBudgetItem (st : State) : prog State :=
  (let st0 := setError [] st in
   if titleMissing st then
     Ret (setError (lit "Please enter a title") st0)
   else if amountInvalid st then
     Ret (setError (lit "Please enter a valid amount") st0)
   else
     let st1 := setLoading true st0 in
     user <- call auth_getUser ;;
     match user with
     | None =>
         Ret (setLoading false (setError (lit "Not authenticated") st1))
     | Some user =>
         r <- call (insert_budget_item {| bi_title := title st;
                                          bi_amount := parseFloat (amount st);
                                          bi_type := type st;
                                          bi_currency := code (currency st);
                                          bi_user_id := user_id user |}) ;;
         match error r with
         | Some message => Ret (setLoading false (setError message st1))
         | None =>
             perform (router_replace (lit "/(tabs)")) ;;
             Ret (setLoading false (resetForm st1))
         end
     end)%prog.

End AddBudgetScreen.

(** ** Edit-budget screen (the form with inline messages) *)

Module EditBudgetScreen.

Record State := {
  isDark : bool;
  title : jsstring;
  amount : jsstring;
  type : ItemType;
  loading : bool;
  error_ : jsstring;
  success : jsstring
}.

Definition setError (v : jsstring) (st : State) : State :=
  {| isDark := isDark st; title := title st; amount := amount st; type := type st;
     loading := loading st; error_ := v; success := success st |}.

Definition setSuccess (v : jsstring) (st : State) : State :=
  {| isDark := isDark st; title := title st; amount := amount st; type := type st;
     loading := loading st; error_ := error_ st; success := v |}.

Definition setLoading (v : bool) (st : State) : State :=
  {| isDark := isDark st; title := title st; amount := amount st; type := type st;
     loading := v; error_ := error_ st; success := success st |}.

(** [setTitle(t); setAmount(a); setType(ty)] *)
Definition setForm (t a : jsstring) (ty : ItemType) (st : State) : State :=
  {| isDark := isDark st; title := t; amount := a; type := ty;
     loading := loading st; error_ := error_ st; success := success st |}.

Section Fetch.
(** [Number.prototype.toString], which the screen uses to show the amount
    it fetched. *)
Variable Number_toString : number -> jsstring.

Definition fetchItem (id : jsstring) (st : State) : prog State :=
  (r <- call (select_budget_item_single id) ;;
   match error r with
   | Some _ =>
       perform (console_error (lit "Error fetching item:")) ;;
       perform (setTimeout cb_router_back 1500) ;;
       Ret (setError (lit "Failed to fetch item details") st)
   | None =>
       match data r with
       | Some d =>
           Ret (setForm (item_title d) (Number_toString (item_amount d)) (item_type d) st)
       | None => Ret st
       end
   end)%prog.

End Fetch.

(** The two local checks of [handleSave]. *)
Definition fieldMissing (st : State) : bool :=
  (negb (truthy_string (trim (title st))) || negb (truthy_string (trim (amount st))))%bool.

Definition amountInvalid (st : State) : bool := isNaN (parseFloat (amount st)).

Definition handleSave (id : jsstring) (st : State) : prog State :=
  (if fieldMissing st then
     perform (setTimeout cb_clear_error 3000) ;;
     Ret (setError (lit "Please fill in all fields") st)
   else
     let amountValue := parseFloat (amount st) in
     if isNaN amountValue then
       perform (setTimeout cb_clear_error 3000) ;;
       Ret (setError (lit "Please enter a valid amount") st)
     else
       let st1 := setLoading true (setError [] st) in
       r <- call (update_budget_item {| bp_title := Some (title st);
                                        bp_amount := Some amountValue;
                                        bp_type := Some (type st);
                                        bp_currency := None |} id) ;;
       let st2 := setLoading false st1 in
       match error r with
       | Some _ =>
           perform (console_error (lit "Error updating item:")) ;;
           perform (setTimeout cb_clear_error 3000) ;;
           Ret (setError (lit "Failed to update item") st2)
       | None =>
           perform (setTimeout cb_router_back 1000) ;;
           Ret (setSuccess (lit "Changes saved successfully") st2)
       end)%prog.

End EditBudgetScreen.

(** What an edit screen with a loading flag renders. *)
Inductive view :=
| view_loading                      (* <Text>Loading...</Text> *)
| view_not_found (text : jsstring)  (* <Text>... not found</Text> *)
| view_form.

(** ** Edit-task screen *)

Module EditTask.

Record State := {
  task : option Task;
  loading : bool;
  isDark : bool;
  category : jsstring;
  categories : list jsstring
}.

Definition setTask (v : option Task) (st : State) : State :=
  {| task := v; loading := loading st; isDark := isDark st;
     category := category st; categories := categories st |}.

Definition setLoading (v : bool) (st : State) : State :=
  {| task := task st; loading := v; isDark := isDark st;
     category := category st; categories := categories st |}.

Definition setCategory (v : jsstring) (st : State) : State :=
  {| task := task st; loading := loading st; isDark := isDark st;
     category := v; categories := categories st |}.

(** [data.category || ''] *)
Definition category_or_empty (c : option jsstring) : jsstring :=
  match c with Some s => s | None => [] end.

Definition fetchTask (id : jsstring) (st : State) : prog State :=
  (r <- call (select_task_single id) ;;
   match error r, data r with
   | None, Some d =>
       Ret (setLoading false (setCategory (category_or_empty (task_category d))
                                          (setTask (Some d) st)))
   | _, _ => Ret (setLoading false st)
   end)%prog.

Definition handleSave (id : jsstring) (st : State) : prog State :=
  (match task st with
   | None => Ret st
   | Some t =>
       r <- call (update_task {| tp_title := Some (task_title t);
                                 tp_completed := Some (task_completed t);
                                 tp_category := Some (category st) |} id) ;;
       match error r with
       | Some _ => Ret st
       | None => perform router_back ;; Ret st
       end
   end)%prog.

Definition render (st : State) : view :=
  if loading st then view_loading
  else match task st with
       | None => view_not_found (lit "Task not found")
       | Some _ => view_form
       end.

End EditTask.

(** ** Edit-budget-item screen (route [edit-budget/[id]]) *)

Module EditBudgetItem.

Record State := {
  item : option BudgetItem;
  loading : bool;
  isDark : bool;
  showCurrencyPicker : bool
}.

Definition setItem (v : option BudgetItem) (st : State) : State :=
  {| item := v; loading := loading st; isDark := isDark st;
     showCurrencyPicker := showCurrencyPicker st |}.

Definition setLoading (v : bool) (st : State) : State :=
  {| item := item st; loading := v; isDark := isDark st;
     showCurrencyPicker := showCurrencyPicker st |}.

(** [{ ...item, amount }] *)
Definition with_amount (amount : number) (it : BudgetItem) : BudgetItem :=
  {| item_id := item_id it; item_title := item_title it; item_amount := amount;
     item_type := item_type it; item_currency := item_currency it;
     item_created_at := item_created_at it |}.

Definition fetchItem (id : jsstring) (st : State) : prog State :=
  (r <- call (select_budget_item_single id) ;;
   match error r, data r with
   | None, Some d => Ret (setLoading false (setItem (Some d) st))
   | _, _ => Ret (setLoading false st)
   end)%prog.

(** The [onChangeText] of the amount input; the input exists only while an
    item is loaded. *)
Definition onChangeAmount (text : jsstring) (st : State) : State :=
  match item st with
  | Some it =>
      let amount := or_zero (parseFloat text) in
      setItem (Some (with_amount amount it)) st
  | None => st
  end.

Definition handleSave (id : jsstring) (st : State) : prog State :=
  (match item st with
   | None => Ret st
   | Some it =>
       r <- call (update_budget_item {| bp_title := Some (item_title it);
                                        bp_amount := Some (item_amount it);
                                        bp_type := Some (item_type it);
                                        bp_currency := Some (item_currency it) |} id) ;;
       match error r with
       | Some _ =>
           perform (console_error (lit "Error saving budget item:")) ;; Ret st
       | None =>
           ok <- storage_setItem (lit "currencyPreference") (item_currency it) ;;
           if ok : bool then perform (router_replace (lit "/(tabs)")) ;; Ret st
           else perform (console_error (lit "Failed to save budget item:")) ;; Ret st
       end
   end)%prog.

Definition render (st : State) : view :=
  if loading st then view_loading
  else match item st with
       | None => view_not_found (lit "Item not found")
       | Some _ => view_form
       end.

End EditBudgetItem.

(** ** Two worlds to run the screens in *)

(** Modelled from the spec: the remote store behind [../lib/supabase], a
    module of the repository that is not among the sources.  It holds the
    two collections [tasks] and [budget_items]; a row is created by an
    insert with a server-assigned identifier and timestamp, changed field
    by field by a partial update, removed by a delete; every operation is
    scoped to the authenticated session, and a select returns the rows
    newest first.  A single-row read of an identifier that is not there
    answers with an error. *)
Module Store.

Record state := {
  session : option User;
  task_rows : list (jsstring * Task);          (* owner, row; newest first *)
  budget_rows : list (jsstring * BudgetItem);  (* owner, row; newest first *)
  counter : nat                                (* identifiers and timestamps *)
}.

Definition decimal (n : nat) : jsstring := lit (NilEmpty.string_of_uint (Nat.to_uint n)).

Definition ok (A : Type) (d : option A) : Reply A := {| data := d; error := None |}.
Definition failed (A : Type) (message : string) : Reply A :=
  {| data := None; error := Some (lit message) |}.

Arguments failed {A} message%_string.

Definition owned_by (A : Type) (u : User) (r : jsstring * A) : bool :=
  jsstring_eqb (fst r) (user_id u).

Definition visible (A : Type) (st : state) (rows : list (jsstring * A)) : list A :=
  match session st with
  | Some u => map snd (filter (owned_by u) rows)
  | None => []
  end.

Definition find_by (A : Type) (id_of : A -> jsstring) (id : jsstring) (rows : list A)
  : option A :=
  find (fun r => jsstring_eqb (id_of r) id) rows.

Definition or_keep (A : Type) (o : option A) (old : A) : A :=
  match o with Some v => v | None => old end.

Definition patch_task (p : TaskPatch) (t : Task) : Task :=
  {| task_id := task_id t;
     task_title := or_keep (tp_title p) (task_title t);
     task_description := task_description t;
     task_completed := or_keep (tp_completed p) (task_completed t);
     task_category :=
       match tp_category p with Some c => Some c | None => task_category t end;
     task_deadline := task_deadline t;
     task_created_at := task_created_at t |}.

Definition patch_item (p : BudgetPatch) (it : BudgetItem) : BudgetItem :=
  {| item_id := item_id it;
     item_title := or_keep (bp_title p) (item_title it);
     item_amount := or_keep (bp_amount p) (item_amount it);
     item_type := or_keep (bp_type p) (item_type it);
     item_currency := or_keep (bp_currency p) (item_currency it);
     item_created_at := item_created_at it |}.

(** The rows of the session with the given identifier are rewritten by [f];
    [None] removes them. *)
Definition rewrite_rows (A : Type) (id_of : A -> jsstring) (st : state)
  (id : jsstring) (f : A -> option A) (rows : list (jsstring * A))
  : list (jsstring * A) :=
  match session st with
  | Some u =>
      flat_map (fun r =>
                  if (owned_by u r && jsstring_eqb (id_of (snd r)) id)%bool
                  then match f (snd r) with
                       | Some r' => [(fst r, r')]
                       | None => []
                       end
                  else [r]) rows
  | None => rows
  end.

Definition set_tasks (rows : list (jsstring * Task)) (st : state) : state :=
  {| session := session st; task_rows := rows;
     budget_rows := budget_rows st; counter := counter st |}.

Definition set_budget (rows : list (jsstring * BudgetItem)) (st : state) : state :=
  {| session := session st; task_rows := task_rows st;
     budget_rows := rows; counter := counter st |}.

Definition tick (st : state) : state :=
  {| session := session st; task_rows := task_rows st;
     budget_rows := budget_rows st; counter := S (counter st) |}.

Definition new_task (st : state) (row : TaskInsert) : Task :=
  {| task_id := decimal (counter st);
     task_title := ti_title row;
     task_description := None;
     task_completed := false;
     task_category := ti_category row;
     task_deadline := Some (ti_deadline row);
     task_created_at := decimal (counter st) |}.

Definition new_item (st : state) (row : BudgetInsert) : BudgetItem :=
  {| item_id := decimal (counter st);
     item_title := bi_title row;
     item_amount := bi_amount row;
     item_type := bi_type row;
     item_currency := bi_currency row;
     item_created_at := decimal (counter st) |}.

Definition respond (X : Type) (r : request X) (st : state) : X * state :=
  match r in request X return X * state with
  | auth_getUser => (session st, st)
  | select_tasks => (ok (Some (visible st (task_rows st))), st)
  | select_budget_items => (ok (Some (visible st (budget_rows st))), st)
  | select_task_single id =>
      match find_by task_id id (visible st (task_rows st)) with
      | Some t => (ok (Some t), st)
      | None => (failed "JSON object requested, multiple (or no) rows returned", st)
      end
  | select_budget_item_single id =>
      match find_by item_id id (visible st (budget_rows st)) with
      | Some it => (ok (Some it), st)
      | None => (failed "JSON object requested, multiple (or no) rows returned", st)
      end
  | insert_task row =>
      match session st with
      | Some _ =>
          (ok None, tick (set_tasks ((ti_user_id row, new_task st row) :: task_rows st) st))
      | None => (failed "new row violates row-level security policy", st)
      end
  | insert_budget_item row =>
      match session st with
      | Some _ =>
          (ok None,
           tick (set_budget ((bi_user_id row, new_item st row) :: budget_rows st) st))
      | None => (failed "new row violates row-level security policy", st)
      end
  | update_task patch id =>
      (ok None,
       set_tasks (rewrite_rows task_id st id (fun t => Some (patch_task patch t))
                    (task_rows st)) st)
  | update_budget_item patch id =>
      (ok None,
       set_budget (rewrite_rows item_id st id (fun it => Some (patch_item patch it))
                     (budget_rows st)) st)
  | delete_task id =>
      (ok None, set_tasks (rewrite_rows task_id st id (fun _ => None) (task_rows st)) st)
  | delete_budget_item id =>
      (ok None,
       set_budget (rewrite_rows item_id st id (fun _ => None) (budget_rows st)) st)
  end.

Definition world : World :=
  {| wstate := state;
     remote := respond;
     storage_set := fun _ _ st => (true, st) |}.

(** A store with one signed-in user and no rows. *)
Definition alice : User := {| user_id := lit "alice" |}.

Definition empty : state :=
  {| session := Some alice; task_rows := []; budget_rows := []; counter := 1 |}.

(** The same store with nobody signed in. *)
Definition signed_out : state :=
  {| session := None; task_rows := []; budget_rows := []; counter := 1 |}.

End Store.

(** A world in which the network is down: every query resolves to an
    error, no user is resolved, and the local store rejects writes. *)
Module Offline.

Definition down (A : Type) : Reply A :=
  {| data := None; error := Some (lit "Network request failed") |}.

Definition respond (X : Type) (r : request X) (w : unit) : X * unit :=
  match r in request X return X * unit with
  | auth_getUser => (None, w)
  | select_tasks => (down _, w)
  | select_budget_items => (down _, w)
  | select_task_single _ => (down _, w)
  | select_budget_item_single _ => (down _, w)
  | insert_task _ => (down _, w)
  | insert_budget_item _ => (down _, w)
  | update_task _ _ => (down _, w)
  | update_budget_item _ _ => (down _, w)
  | delete_task _ => (down _, w)
  | delete_budget_item _ => (down _, w)
  end.

Definition world : World :=
  {| wstate := unit;
     remote := respond;
     storage_set := fun _ _ w => (false, w) |}.

End Offline.

(** [succeeds W w r]: in world [W] at state [w], the store answers the
    request [r] without an error. *)
Definition succeeds (W : World) (w : wstate W) (A : Type) (r : request (Reply A)) : Prop :=
  error (fst (remote W r w)) = None.

Arguments succeeds W w {A} r.

(** [subseq l1 l2]: [l1] is [l2] with some elements left out, the others
    in their order. *)
Inductive subseq (A : Type) : list A -> list A -> Prop :=
| subseq_nil : subseq [] []
| subseq_skip x l1 l2 : subseq l1 l2 -> subseq l1 (x :: l2)
| subseq_take x l1 l2 : subseq l1 l2 -> subseq (x :: l1) (x :: l2).

(** [removes_exactly id_of k before after]: [after] is [before] without the
    rows whose identifier is [k], the other rows as they were and in their
    order. *)
Definition removes_exactly (A : Type) (id_of : A -> jsstring) (k : jsstring)
  (before after : list A) : Prop :=
  subseq after before /\
  Forall (fun r => id_of r <> k) after /\
  exists removed, Forall (fun r => id_of r = k) removed /\
                  Permutation before (after ++ removed).

(** The contract of a Delete on a list screen with state [S], read off the
    state the handler leaves: its rows are read by [rows] and its other
    fields by [rest].  One delete request and no other network call; when it
    succeeds the rows with identifier [k] are gone from the rows of the new
    state and the other fields are as before; when it fails the state
    stays. *)
Definition local_delete (W : World) (w : wstate W) (S A R : Type)
  (rows : S -> list A) (rest : S -> R) (id_of : A -> jsstring)
  (req : request (Reply unit)) (k : jsstring) (st : S)
  (out : S * wstate W * list event) : Prop :=
  network (trace out) = [Net req] /\
  (succeeds W w req ->
     removes_exactly id_of k (rows st) (rows (result out)) /\
     rest (result out) = rest st) /\
  (~ succeeds W w req -> result out = st).

(** The contract of a Toggle, read off the state the handler leaves: one
    partial update [upd]; when it succeeds, one select [sel] of the whole
    collection follows, and the rows of the new state are what that select
    returned (none for [null]; the rows from before when the select fails),
    the other fields as before; when the update fails there is no further
    call and the state stays. *)
Definition refetching_toggle (W : World) (w : wstate W) (S A R : Type)
  (rows : S -> list A) (rest : S -> R)
  (upd : request (Reply unit)) (sel : request (Reply (list A))) (st : S)
  (out : S * wstate W * list event) : Prop :=
  let w1 := snd (remote W upd w) in
  let fetched := fst (remote W sel w1) in
  (succeeds W w upd ->
     network (trace out) = [Net upd; Net sel] /\
     rows (result out) = match error fetched, data fetched with
                         | None, Some returned => returned
                         | None, None => []
                         | Some _, _ => rows st
                         end /\
     rest (result out) = rest st) /\
  (~ succeeds W w upd -> network (trace out) = [Net upd] /\ result out = st).

(** The partial updates of the toggles: exactly one field is named. *)
Definition completed_only (v : bool) : TaskPatch :=
  {| tp_title := None; tp_completed := Some v; tp_category := None |}.

Definition type_only (v : ItemType) : BudgetPatch :=
  {| bp_title := None; bp_amount := None; bp_type := Some v; bp_currency := None |}.

(** The update of the Save of the edit-budget-item screen. *)
Definition save_patch (it : BudgetItem) : BudgetPatch :=
  {| bp_title := Some (item_title it);
     bp_amount := Some (item_amount it);
     bp_type := Some (item_type it);
     bp_currency := Some (item_currency it) |}.

(** The update of the Save of the edit-budget screen with inline messages. *)
Definition form_patch (st : EditBudgetScreen.State) : BudgetPatch :=
  {| bp_title := Some (EditBudgetScreen.title st);
     bp_amount := Some (parseFloat (EditBudgetScreen.amount st));
     bp_type := Some (EditBudgetScreen.type st);
     bp_currency := None |}.

(** The update of the Save of the edit-task screen. *)
Definition task_patch (t : Task) (category : jsstring) : TaskPatch :=
  {| tp_title := Some (task_title t);
     tp_completed := Some (task_completed t);
     tp_category := Some category |}.

(** The rows the create screens insert for a resolved user. *)
Definition task_row (st : AddTaskScreen.State) (user : User) : TaskInsert :=
  {| ti_title := AddTaskScreen.title st;
     ti_category := AddTaskScreen.category_or_null (AddTaskScreen.category st);
     ti_optional := AddTaskScreen.optional st;
     ti_deadline := AddTaskScreen.deadline st;
     ti_user_id := user_id user |}.

Definition budget_row (st : AddBudgetScreen.State) (user : User) : BudgetInsert :=
  {| bi_title := AddBudgetScreen.title st;
     bi_amount := parseFloat (AddBudgetScreen.amount st);
     bi_type := AddBudgetScreen.type st;
     bi_currency := AddBudgetScreen.code (AddBudgetScreen.currency st);
     bi_user_id := user_id user |}.

Definition other_type (t : ItemType) : ItemType :=
  match t with income => outcome | outcome => income end.

(** The writes of a trace, by collection. *)
Definition budget_inserts (tr : list event) : list BudgetInsert :=
  flat_map (fun e => match e with
                     | Net r => match r with
                                | insert_budget_item row => [row]
                                | _ => []
                                end
                     | _ => []
                     end) tr.

Definition budget_updates (tr : list event) : list (BudgetPatch * jsstring) :=
  flat_map (fun e => match e with
                     | Net r => match r with
                                | update_budget_item patch id => [(patch, id)]
                                | _ => []
                                end
                     | _ => []
                     end) tr.

Definition task_inserts (tr : list event) : list TaskInsert :=
  flat_map (fun e => match e with
                     | Net r => match r with
                                | insert_task row => [row]
                                | _ => []
                                end
                     | _ => []
                     end) tr.

Definition task_updates (tr : list event) : list (TaskPatch * jsstring) :=
  flat_map (fun e => match e with
                     | Net r => match r with
                                | update_task patch id => [(patch, id)]
                                | _ => []
                                end
                     | _ => []
                     end) tr.

(** The number 42.5, that is 85 * 2^-1 with the mantissa normalised to 53
    bits. *)
Definition forty_two_and_a_half : number :=
  S754_finite false 5981343255101440 (-47).

(** The number -5. *)
Definition minus_five : number := S754_finite true 5629499534213120 (-50).

(** ** Forms and rows for the concrete runs *)

Module Samples.

Definition usd : AddBudgetScreen.Currency :=
  {| AddBudgetScreen.code := lit "USD";
     AddBudgetScreen.symbol := lit "$";
     AddBudgetScreen.name := lit "US Dollar" |}.

(** The add-budget form as the user filled it in. *)
Definition add_budget_form (title amount : string) (ty : ItemType)
  : AddBudgetScreen.State :=
  {| AddBudgetScreen.title := lit title;
     AddBudgetScreen.amount := lit amount;
     AddBudgetScreen.type := ty;
     AddBudgetScreen.currency := usd;
     AddBudgetScreen.isDark := false;
     AddBudgetScreen.loading := false;
     AddBudgetScreen.error_ := [];
     AddBudgetScreen.showCurrencyPicker := false |}.

(** The add-task form with a title and nothing else. *)
Definition add_task_form (title : string) : AddTaskScreen.State :=
  {| AddTaskScreen.title := lit title;
     AddTaskScreen.category := [];
     AddTaskScreen.optional := false;
     AddTaskScreen.deadline := [];
     AddTaskScreen.loading := false;
     AddTaskScreen.isDark := false |}.

Definition lunch : BudgetItem :=
  {| item_id := lit "7";
     item_title := lit "Lunch";
     item_amount := forty_two_and_a_half;
     item_type := outcome;
     item_currency := lit "USD";
     item_created_at := lit "2025-01-01T12:00:00+00:00" |}.

(** The edit-budget-item screen before and after its item arrived. *)
Definition edit_item_mounting : EditBudgetItem.State :=
  {| EditBudgetItem.item := None;
     EditBudgetItem.loading := true;
     EditBudgetItem.isDark := false;
     EditBudgetItem.showCurrencyPicker := false |}.

Definition edit_item_loaded : EditBudgetItem.State :=
  {| EditBudgetItem.item := Some lunch;
     EditBudgetItem.loading := false;
     EditBudgetItem.isDark := false;
     EditBudgetItem.showCurrencyPicker := false |}.

(** The edit-task screen before its task arrived, and with a task whose
    title the user has cleared. *)
Definition edit_task_mounting : EditTask.State :=
  {| EditTask.task := None;
     EditTask.loading := true;
     EditTask.isDark := false;
     EditTask.category := [];
     EditTask.categories := [] |}.

Definition untitled : Task :=
  {| task_id := lit "3";
     task_title := [];
     task_description := None;
     task_completed := false;
     task_category := None;
     task_deadline := None;
     task_created_at := lit "2025-01-01T09:00:00+00:00" |}.

Definition edit_task_cleared : EditTask.State :=
  {| EditTask.task := Some untitled;
     EditTask.loading := false;
     EditTask.isDark := false;
     EditTask.category := lit "Work";
     EditTask.categories := [lit "Work"; lit "Personal"; lit "Urgent"; lit "Shopping"] |}.

(** The budget list screen with nothing fetched yet. *)
Definition budget_screen_empty : BudgetScreen.State :=
  {| BudgetScreen.items := [];
     BudgetScreen.isDark := false;
     BudgetScreen.userCurrency := lit "USD" |}.

(** The task list screen showing two tasks. *)
Definition task_a : Task :=
  {| task_id := lit "1"; task_title := lit "Pay rent"; task_description := None;
     task_completed := false; task_category := None; task_deadline := None;
     task_created_at := lit "2" |}.

Definition task_b : Task :=
  {| task_id := lit "2"; task_title := lit "Call home"; task_description := None;
     task_completed := true; task_category := None; task_deadline := None;
     task_created_at := lit "1" |}.

Definition task_list_two : TaskList.State :=
  {| TaskList.activeTab := TaskList.tab_tasks;
     TaskList.tasks := [task_a; task_b];
     TaskList.budgetItems := [];
     TaskList.isDark := false |}.

(** The store holding these two tasks for the signed-in user. *)
Definition store_two : Store.state :=
  {| Store.session := Some Store.alice;
     Store.task_rows := [(lit "alice", task_a); (lit "alice", task_b)];
     Store.budget_rows := [];
     Store.counter := 3 |}.

End Samples.

(** The task of the failing run of the sections: not completed, with a
    deadline text that is not a date. *)
Definition task_tomorrow : Task :=
  {| task_id := lit "1";
     task_title := lit "Pay rent";
     task_description := None;
     task_completed := false;
     task_category := None;
     task_deadline := Some (lit "tomorrow");
     task_created_at := lit "2025-01-01T09:00:00+00:00" |}.

(** ** The rest of the device: reads of the local preference store, the
    authentication calls, and the navigation and dialogue calls the handlers
    above do not use

    The signature [effect] is extended, not changed: a program of [prog] is
    a program of [xprog] through [lift]. *)

Inductive xeffect : Type -> Type :=
| Base (X : Type) (e : effect X) : xeffect X
| AsyncStorage_getItem (key : jsstring) : xeffect (option (option jsstring))
    (* [None]: the promise rejected; [Some v]: it resolved with [v], a
       string or [null] *)
| auth_signUp (email password : jsstring) : xeffect (option jsstring)
    (* supabase.auth.signUp({ email, password }); the answer is [error],
       with its message *)
| auth_signInWithPassword (email password : jsstring) : xeffect (option jsstring)
| router_push (pathname : jsstring) (params : list (string * jsstring)) : xeffect unit
| alert (message : jsstring) : xeffect unit.

Arguments Base {X} e.

Inductive xprog (A : Type) : Type :=
| XRet (a : A)
| XDo (X : Type) (e : xeffect X) (k : X -> xprog A).

Arguments XRet {A} a.
Arguments XDo {A X} e k.

Fixpoint xbind (A B : Type) (p : xprog A) (f : A -> xprog B) : xprog B :=
  match p with
  | XRet a => f a
  | XDo e k => XDo e (fun x => xbind (k x) f)
  end.

Fixpoint lift (A : Type) (p : prog A) : xprog A :=
  match p with
  | Ret a => XRet a
  | Do e k => XDo (Base e) (fun x => lift (k x))
  end.

Definition xdo (X : Type) (e : xeffect X) : xprog X := XDo e XRet.

Declare Scope xprog_scope.
Delimit Scope xprog_scope with xprog.
Notation "x <- p ;; q" := (xbind p (fun x => q))
  (at level 61, p at next level, right associativity) : xprog_scope.
Notation "p ;; q" := (xbind p (fun _ => q))
  (at level 61, right associativity) : xprog_scope.

Inductive xevent :=
| Ev (e : event)
| Get (key : jsstring)
| SignUp (email password : jsstring)
| SignIn (email password : jsstring)
| Push (pathname : jsstring) (params : list (string * jsstring))
| Alert (message : jsstring).

(** The network calls of an extended trace: the requests to the store and
    the two authentication calls. *)
Definition is_xnet (e : xevent) : bool :=
  match e with
  | Ev e' => is_net e'
  | SignUp _ _ | SignIn _ _ => true
  | _ => false
  end.

Definition xnetwork (tr : list xevent) : list xevent := filter is_xnet tr.

Record XWorld := {
  xstate : Type;
  xremote : forall X : Type, request X -> xstate -> X * xstate;
  xstorage_set : jsstring -> jsstring -> xstate -> bool * xstate;
  xstorage_get : jsstring -> xstate -> option (option jsstring) * xstate;
  xsign_up : jsstring -> jsstring -> xstate -> option jsstring * xstate;
  xsign_in : jsstring -> jsstring -> xstate -> option jsstring * xstate
}.

(** The part of an extended world that the programs of [prog] see. *)
Definition base_of (W : XWorld) : World :=
  {| wstate := xstate W; remote := xremote W; storage_set := xstorage_set W |}.

Fixpoint xrun (W : XWorld) (A : Type) (p : xprog A) (w : xstate W)
  : A * xstate W * list xevent :=
  match p with
  | XRet a => (a, w, [])
  | XDo e k =>
      match e in xeffect X return (X -> xprog A) -> A * xstate W * list xevent with
      | Base e0 => fun k =>
          match e0 in effect X0
                return (X0 -> xprog A) -> A * xstate W * list xevent with
          | Remote r => fun k =>
              let '(x, w1) := xremote W r w in
              let '(a, w2, tr) := xrun W (k x) w1 in
              (a, w2, Ev (Net r) :: tr)
          | AsyncStorage_setItem key value => fun k =>
              let '(ok, w1) := xstorage_set W key value w in
              let '(a, w2, tr) := xrun W (k ok) w1 in
              (a, w2, Ev (Sto key value) :: tr)
          | UI u => fun k =>
              let '(a, w2, tr) := xrun W (k tt) w in
              (a, w2, Ev (Out u) :: tr)
          end k
      | AsyncStorage_getItem key => fun k =>
          let '(x, w1) := xstorage_get W key w in
          let '(a, w2, tr) := xrun W (k x) w1 in
          (a, w2, Get key :: tr)
      | auth_signUp email password => fun k =>
          let '(x, w1) := xsign_up W email password w in
          let '(a, w2, tr) := xrun W (k x) w1 in
          (a, w2, SignUp email password :: tr)
      | auth_signInWithPassword email password => fun k =>
          let '(x, w1) := xsign_in W email password w in
          let '(a, w2, tr) := xrun W (k x) w1 in
          (a, w2, SignIn email password :: tr)
      | router_push pathname params => fun k =>
          let '(a, w2, tr) := xrun W (k tt) w in
          (a, w2, Push pathname params :: tr)
      | alert message => fun k =>
          let '(a, w2, tr) := xrun W (k tt) w in
          (a, w2, Alert message :: tr)
      end k
  end.

Arguments xrun W {A} p w.

Definition xresult (W : XWorld) (A : Type) (r : A * xstate W * list xevent) : A :=
  fst (fst r).
Definition xworld_after (W : XWorld) (A : Type) (r : A * xstate W * list xevent)
  : xstate W := snd (fst r).
Definition xtrace (W : XWorld) (A : Type) (r : A * xstate W * list xevent)
  : list xevent := snd r.

Arguments xresult {W A} r.
Arguments xworld_after {W A} r.
Arguments xtrace {W A} r.

(** A device to run the extended programs on: the store of [Store], a
    key-value preference store that keeps what was written, and an account
    list for the authentication calls.  It serves the concrete runs; the
    general theorems hold for any extended world. *)
Module Device.

Record state := {
  store : Store.state;
  prefs : list (jsstring * jsstring);      (* newest first *)
  accounts : list (jsstring * jsstring)    (* email, password *)
}.

Definition lookup (key : jsstring) (l : list (jsstring * jsstring)) : option jsstring :=
  match find (fun kv => jsstring_eqb (fst kv) key) l with
  | Some kv => Some (snd kv)
  | None => None
  end.

Definition respond (X : Type) (r : request X) (d : state) : X * state :=
  let '(x, s) := Store.respond r (store d) in
  (x, {| store := s; prefs := prefs d; accounts := accounts d |}).

Definition set (key value : jsstring) (d : state) : bool * state :=
  (true, {| store := store d; prefs := (key, value) :: prefs d;
            accounts := accounts d |}).

Definition get (key : jsstring) (d : state) : option (option jsstring) * state :=
  (Some (lookup key (prefs d)), d).

Definition sign_up (email password : jsstring) (d : state) : option jsstring * state :=
  match lookup email (accounts d) with
  | Some _ => (Some (lit "User already registered"), d)
  | None =>
      (None, {| store := store d; prefs := prefs d;
                accounts := (email, password) :: accounts d |})
  end.

Definition sign_in (email password : jsstring) (d : state) : option jsstring * state :=
  match lookup email (accounts d) with
  | Some p =>
      if jsstring_eqb p password then (None, d)
      else (Some (lit "Invalid login credentials"), d)
  | None => (Some (lit "Invalid login credentials"), d)
  end.

Definition world : XWorld :=
  {| xstate := state;
     xremote := respond;
     xstorage_set := set;
     xstorage_get := get;
     xsign_up := sign_up;
     xsign_in := sign_in |}.

(** A fresh device: one signed-in user, no rows, no preferences, no
    accounts. *)
Definition fresh : state :=
  {| store := Store.empty; prefs := []; accounts := [] |}.

(** A device whose preference store rejects every read and write. *)
Definition broken_storage : XWorld :=
  {| xstate := state;
     xremote := respond;
     xstorage_set := fun _ _ d => (false, d);
     xstorage_get := fun _ d => (None, d);
     xsign_up := sign_up;
     xsign_in := sign_in |}.

End Device.

(** ** The table of currencies

    The task list screen, the add-budget screen and the edit-budget-item
    screen each declare the same [CURRENCIES]. *)

Definition currency_entry (code symbol : jsstring) (name : string)
  : AddBudgetScreen.Currency :=
  {| AddBudgetScreen.code := code;
     AddBudgetScreen.symbol := symbol;
     AddBudgetScreen.name := lit name |}.

Definition CURRENCIES : list AddBudgetScreen.Currency :=
  [ currency_entry (lit "USD") (lit "$") "US Dollar";
    currency_entry (lit "EUR") [8364%N] "Euro";
    currency_entry (lit "GBP") [163%N] "British Pound";
    currency_entry (lit "JPY") [165%N] "Japanese Yen";
    currency_entry (lit "CAD") (lit "$") "Canadian Dollar";
    currency_entry (lit "AUD") (lit "$") "Australian Dollar";
    currency_entry (lit "INR") [8377%N] "Indian Rupee";
    currency_entry (lit "CNY") [165%N] "Chinese Yuan" ].

(** [CURRENCIES[0]] *)
Definition CURRENCIES_0 : AddBudgetScreen.Currency :=
  currency_entry (lit "USD") (lit "$") "US Dollar".

(** [CURRENCIES.find(c => c.code === code)] *)
Definition find_currency (code : jsstring) : option AddBudgetScreen.Currency :=
  find (fun c => jsstring_eqb (AddBudgetScreen.code c) code) CURRENCIES.

(** [newTheme ? 'dark' : 'light'] *)
Definition theme_name (dark : bool) : jsstring :=
  if dark then lit "dark" else lit "light".

(** The [loadThemePreference] that the screens share, over the state of the
    screen and its [setIsDark]. *)
Definition loadThemePreference (S : Type) (setIsDark : bool -> S -> S) (st : S)
  : xprog S :=
  (savedTheme <- xdo (AsyncStorage_getItem (lit "themePreference")) ;;
   match savedTheme with
   | Some savedTheme =>
       if truthy_opt savedTheme
       then XRet (setIsDark
                    (match savedTheme with
                     | Some t => jsstring_eqb t (lit "dark")
                     | None => false
                     end) st)
       else XRet st
   | None =>
       lift (perform (console_error (lit "Failed to load theme preference"))) ;;
       XRet st
   end)%xprog.

(** ** Signup screen: the handlers *)

Module Signup.

Record State := {
  email : jsstring;
  password : jsstring;
  loading : bool;
  passwordError : jsstring
}.

Definition setLoading (v : bool) (st : State) : State :=
  {| email := email st; password := password st; loading := v;
     passwordError := passwordError st |}.

Definition setPasswordError (v : jsstring) (st : State) : State :=
  {| email := email st; password := password st; loading := loading st;
     passwordError := v |}.

Definition passwordHint : jsstring :=
  lit "Password must be 10 characters long, with at least one uppercase letter, one lowercase letter, one number, and one special character.".

Definition handleSignup (st : State) : xprog State :=
  (if negb (SignupScreen.validatePassword (password st)) then
     XRet (setPasswordError passwordHint st)
   else
     let st1 := setLoading true (setPasswordError [] st) in
     error <- xdo (auth_signUp (email st) (password st)) ;;
     match error with
     | Some message => XRet (setLoading false (setPasswordError message st1))
     | None =>
         lift (perform (router_replace (lit "/(auth)/login"))) ;;
         XRet (setLoading false st1)
     end)%xprog.

Definition handleLoginRedirect (st : State) : xprog State :=
  (xdo (router_push (lit "/(auth)/login") []) ;; XRet st)%xprog.

End Signup.

(** ** Login screen *)

Module LoginScreen.

Record State := {
  email : jsstring;
  password : jsstring;
  loading : bool
}.

Definition setLoading (v : bool) (st : State) : State :=
  {| email := email st; password := password st; loading := v |}.

Definition handleLogin (st : State) : xprog State :=
  (let st1 := setLoading true st in
   error <- xdo (auth_signInWithPassword (email st) (password st)) ;;
   match error with
   | Some message => xdo (alert message) ;; XRet (setLoading false st1)
   | None =>
       lift (perform (router_replace (lit "/(tabs)"))) ;;
       XRet (setLoading false st1)
   end)%xprog.

Definition handleSignUp (st : State) : xprog State :=
  (xdo (router_push (lit "/signup") []) ;; XRet st)%xprog.

End LoginScreen.

(** ** Task list screen: the other handlers and the row renderers *)

Module TaskListHandlers.

Definition setIsDark (v : bool) (st : TaskList.State) : TaskList.State :=
  {| TaskList.activeTab := TaskList.activeTab st; TaskList.tasks := TaskList.tasks st;
     TaskList.budgetItems := TaskList.budgetItems st; TaskList.isDark := v |}.

Definition setActiveTab (v : TaskList.Tab) (st : TaskList.State) : TaskList.State :=
  {| TaskList.activeTab := v; TaskList.tasks := TaskList.tasks st;
     TaskList.budgetItems := TaskList.budgetItems st;
     TaskList.isDark := TaskList.isDark st |}.

Definition Tab_eqb (a b : TaskList.Tab) : bool :=
  match a, b with
  | TaskList.tab_tasks, TaskList.tab_tasks
  | TaskList.tab_budget, TaskList.tab_budget => true
  | _, _ => false
  end.

(** The effect on [activeTab]: it runs at mount and after each change of
    the tab. *)
Definition activeTabEffect (st : TaskList.State) : prog TaskList.State :=
  match TaskList.activeTab st with
  | TaskList.tab_tasks => TaskList.fetchTasks st
  | TaskList.tab_budget => TaskList.fetchBudgetItems st
  end.

(** A press on a tab of the tab bar: [setActiveTab(tab)]; the state and so
    the effect are left alone when the tab is the active one. *)
Definition pressTab (tab : TaskList.Tab) (st : TaskList.State) : prog TaskList.State :=
  if Tab_eqb tab (TaskList.activeTab st) then Ret st
  else activeTabEffect (setActiveTab tab st).

Definition toggleTheme (st : TaskList.State) : prog TaskList.State :=
  (let newTheme := negb (TaskList.isDark st) in
   let st1 := setIsDark newTheme st in
   ok <- storage_setItem (lit "themePreference") (theme_name newTheme) ;;
   if ok : bool then Ret st1
   else perform (console_error (lit "Failed to save theme preference")) ;; Ret st1)%prog.

(** The pathname of [navigateToEdit]:
    [`/(tabs)/${type === 'task' ? '' : 'edit-budget'}/${id}`]. *)
Inductive EditKind := kind_task | kind_budget.

Definition editPathname (id : jsstring) (type : EditKind) : jsstring :=
  lit "/(tabs)/"
  ++ (match type with kind_task => [] | kind_budget => lit "edit-budget" end)
  ++ lit "/" ++ id.

Definition navigateToEdit (id : jsstring) (type : EditKind) (st : TaskList.State)
  : xprog TaskList.State :=
  (xdo (router_push (editPathname id type)
          [("theme"%string, theme_name (TaskList.isDark st))]) ;;
   XRet st)%xprog.


End TaskListHandlers.

(** ** Task list screen: the sections and the rows against the clock

    [getDaysRemaining] builds a [new Date()] in every call, so the clock is
    read once for every task with a deadline in each of the two filters of
    [taskSections], and once more for every row with a deadline that
    [renderTaskItem] draws.  A clock is the sequence of its readings; a
    computation takes the number of readings made before it and returns the
    number made after it. *)

Module TimedTaskList.

Definition timed (A : Type) : Type := nat -> A * nat.

Section Clock.
Variable Date_getTime : jsstring -> option Z.
Variable clock : nat -> Z.

Definition getDaysRemaining (deadline : jsstring) : timed (option Z) :=
  fun n => (TaskList.getDaysRemaining Date_getTime (clock n) deadline, S n).

(** [task => task.deadline && getDaysRemaining(task.deadline) <= 3] *)
Definition urgentFilter (task : Task) : timed bool :=
  fun n =>
    match task_deadline task with
    | Some d =>
        if truthy_string d
        then let '(days, n1) := getDaysRemaining d n in (nan_leb days 3, n1)
        else (false, n)
    | None => (false, n)
    end.

(** [task => !task.deadline || getDaysRemaining(task.deadline) > 3] *)
Definition ongoingFilter (task : Task) : timed bool :=
  fun n =>
    match task_deadline task with
    | Some d =>
        if negb (truthy_string d) then (true, n)
        else let '(days, n1) := getDaysRemaining d n in (nan_gtb days 3, n1)
    | None => (true, n)
    end.

(** [Array.prototype.filter]: the callback runs once on each element, in the
    order of the array. *)
Fixpoint filter_timed (A : Type) (f : A -> timed bool) (l : list A) : timed (list A) :=
  fun n =>
    match l with
    | [] => ([], n)
    | x :: l' =>
        let '(keep, n1) := f x n in
        let '(kept, n2) := filter_timed f l' n1 in
        (if keep then x :: kept else kept, n2)
    end.

Definition taskSections (tasks : list Task) : timed (list (ListSection Task)) :=
  fun n =>
    let ongoingTasks := TaskList.ongoingTasks tasks in
    let completedTasks := TaskList.completedTasks tasks in
    let '(urgent, n1) := filter_timed urgentFilter ongoingTasks n in
    let '(ongoing, n2) := filter_timed ongoingFilter ongoingTasks n1 in
    ([ {| section_title := lit "Urgent"; section_data := urgent |};
       {| section_title := lit "Ongoing"; section_data := ongoing |};
       {| section_title := lit "Done"; section_data := completedTasks |} ],
     n2).

(** The truth value of [isUrgent] in [renderTaskItem]:
    [item.deadline && getDaysRemaining(item.deadline) <= 3 && !item.completed]. *)
Definition isUrgent (item : Task) : timed bool :=
  fun n =>
    match task_deadline item with
    | Some d =>
        if truthy_string d
        then let '(days, n1) := getDaysRemaining d n in
             ((nan_leb days 3 && negb (task_completed item))%bool, n1)
        else (false, n)
    | None => (false, n)
    end.

End Clock.

End TimedTaskList.

(** ** Budget screen: the other handlers *)

Module BudgetScreenHandlers.

Definition setIsDark (v : bool) (st : BudgetScreen.State) : BudgetScreen.State :=
  {| BudgetScreen.items := BudgetScreen.items st; BudgetScreen.isDark := v;
     BudgetScreen.userCurrency := BudgetScreen.userCurrency st |}.

Definition setUserCurrency (v : jsstring) (st : BudgetScreen.State) : BudgetScreen.State :=
  {| BudgetScreen.items := BudgetScreen.items st;
     BudgetScreen.isDark := BudgetScreen.isDark st;
     BudgetScreen.userCurrency := v |}.

(** [if (themePref) setIsDark(themePref === 'dark')] *)
Definition applyThemePref (themePref : option jsstring) (st : BudgetScreen.State)
  : BudgetScreen.State :=
  match themePref with
  | Some t => if truthy_string t then setIsDark (jsstring_eqb t (lit "dark")) st else st
  | None => st
  end.

(** [if (currencyPref) setUserCurrency(currencyPref)] *)
Definition applyCurrencyPref (currencyPref : option jsstring) (st : BudgetScreen.State)
  : BudgetScreen.State :=
  match currencyPref with
  | Some c => if truthy_string c then setUserCurrency c st else st
  | None => st
  end.

(** [loadData]: both reads are started, then awaited together. *)
Definition loadData (st : BudgetScreen.State) : xprog BudgetScreen.State :=
  (themePref <- xdo (AsyncStorage_getItem (lit "themePreference")) ;;
   currencyPref <- xdo (AsyncStorage_getItem (lit "currencyPreference")) ;;
   match themePref, currencyPref with
   | Some themePref, Some currencyPref =>
       lift (BudgetScreen.fetchBudgetItems
               (applyCurrencyPref currencyPref (applyThemePref themePref st)))
   | _, _ =>
       lift (perform (console_error (lit "Error loading data:"))) ;; XRet st
   end)%xprog.

(** [toggleTheme]: the write is awaited outside any [try]; when it rejects
    the handler ends there. *)
Definition toggleTheme (st : BudgetScreen.State) : prog BudgetScreen.State :=
  (let newTheme := negb (BudgetScreen.isDark st) in
   let st1 := setIsDark newTheme st in
   storage_setItem (lit "themePreference") (theme_name newTheme) ;;
   Ret st1)%prog.

(** [updateCurrency]: the re-fetch follows the write; when the write rejects
    the handler ends before it. *)
Definition updateCurrency (currency : jsstring) (st : BudgetScreen.State)
  : prog BudgetScreen.State :=
  (let st1 := setUserCurrency currency st in
   ok <- storage_setItem (lit "currencyPreference") currency ;;
   if ok : bool then BudgetScreen.fetchBudgetItems st1 else Ret st1)%prog.

End BudgetScreenHandlers.

(** ** Add-task screen: the theme *)

Module AddTaskHandlers.

Definition setIsDark (v : bool) (st : AddTaskScreen.State) : AddTaskScreen.State :=
  {| AddTaskScreen.title := AddTaskScreen.title st;
     AddTaskScreen.category := AddTaskScreen.category st;
     AddTaskScreen.optional := AddTaskScreen.optional st;
     AddTaskScreen.deadline := AddTaskScreen.deadline st;
     AddTaskScreen.loading := AddTaskScreen.loading st;
     AddTaskScreen.isDark := v |}.

Definition toggleTheme (st : AddTaskScreen.State) : prog AddTaskScreen.State :=
  (let newTheme := negb (AddTaskScreen.isDark st) in
   let st1 := setIsDark newTheme st in
   ok <- storage_setItem (lit "themePreference") (theme_name newTheme) ;;
   if ok : bool then Ret st1
   else perform (console_error (lit "Failed to save theme preference")) ;; Ret st1)%prog.

End AddTaskHandlers.

(** ** Add-budget screen: the preferences *)

Module AddBudgetHandlers.

Definition setIsDark (v : bool) (st : AddBudgetScreen.State) : AddBudgetScreen.State :=
  {| AddBudgetScreen.title := AddBudgetScreen.title st;
     AddBudgetScreen.amount := AddBudgetScreen.amount st;
     AddBudgetScreen.type := AddBudgetScreen.type st;
     AddBudgetScreen.currency := AddBudgetScreen.currency st;
     AddBudgetScreen.isDark := v;
     AddBudgetScreen.loading := AddBudgetScreen.loading st;
     AddBudgetScreen.error_ := AddBudgetScreen.error_ st;
     AddBudgetScreen.showCurrencyPicker := AddBudgetScreen.showCurrencyPicker st |}.

Definition setCurrency (v : AddBudgetScreen.Currency) (st : AddBudgetScreen.State)
  : AddBudgetScreen.State :=
  {| AddBudgetScreen.title := AddBudgetScreen.title st;
     AddBudgetScreen.amount := AddBudgetScreen.amount st;
     AddBudgetScreen.type := AddBudgetScreen.type st;
     AddBudgetScreen.currency := v;
     AddBudgetScreen.isDark := AddBudgetScreen.isDark st;
     AddBudgetScreen.loading := AddBudgetScreen.loading st;
     AddBudgetScreen.error_ := AddBudgetScreen.error_ st;
     AddBudgetScreen.showCurrencyPicker := AddBudgetScreen.showCurrencyPicker st |}.

Definition setShowCurrencyPicker (v : bool) (st : AddBudgetScreen.State)
  : AddBudgetScreen.State :=
  {| AddBudgetScreen.title := AddBudgetScreen.title st;
     AddBudgetScreen.amount := AddBudgetScreen.amount st;
     AddBudgetScreen.type := AddBudgetScreen.type st;
     AddBudgetScreen.currency := AddBudgetScreen.currency st;
     AddBudgetScreen.isDark := AddBudgetScreen.isDark st;
     AddBudgetScreen.loading := AddBudgetScreen.loading st;
     AddBudgetScreen.error_ := AddBudgetScreen.error_ st;
     AddBudgetScreen.showCurrencyPicker := v |}.

(** The initial state of the screen: [useState(CURRENCIES[0])] and empty
    fields. *)
Definition initial : AddBudgetScreen.State :=
  {| AddBudgetScreen.title := [];
     AddBudgetScreen.amount := [];
     AddBudgetScreen.type := income;
     AddBudgetScreen.currency := CURRENCIES_0;
     AddBudgetScreen.isDark := false;
     AddBudgetScreen.loading := false;
     AddBudgetScreen.error_ := [];
     AddBudgetScreen.showCurrencyPicker := false |}.

(** The part of [loadPreferences] after the currency preference is read. *)
Definition applySavedCurrency (savedCurrency : option jsstring)
  (st : AddBudgetScreen.State) : AddBudgetScreen.State :=
  if truthy_opt savedCurrency then
    match savedCurrency with
    | Some code =>
        match find_currency code with
        | Some preferredCurrency => setCurrency preferredCurrency st
        | None => st
        end
    | None => st
    end
  else st.

(** [if (savedTheme) setIsDark(savedTheme === 'dark')] *)
Definition applySavedTheme (savedTheme : option jsstring)
  (st : AddBudgetScreen.State) : AddBudgetScreen.State :=
  match savedTheme with
  | Some t => if truthy_string t then setIsDark (jsstring_eqb t (lit "dark")) st else st
  | None => st
  end.

(** [loadPreferences]: the theme is read and applied, then the currency;
    a read that rejects ends it with a log. *)
Definition loadPreferences (st : AddBudgetScreen.State) : xprog AddBudgetScreen.State :=
  (savedTheme <- xdo (AsyncStorage_getItem (lit "themePreference")) ;;
   match savedTheme with
   | None =>
       lift (perform (console_error (lit "Failed to load preferences"))) ;; XRet st
   | Some savedTheme =>
       let st1 := applySavedTheme savedTheme st in
       savedCurrency <- xdo (AsyncStorage_getItem (lit "currencyPreference")) ;;
       match savedCurrency with
       | None =>
           lift (perform (console_error (lit "Failed to load preferences"))) ;;
           XRet st1
       | Some savedCurrency => XRet (applySavedCurrency savedCurrency st1)
       end
   end)%xprog.

(** [handleCurrencyChange]: the write is not awaited, its outcome is not
    looked at. *)
Definition handleCurrencyChange (currencyCode : jsstring) (st : AddBudgetScreen.State)
  : prog AddBudgetScreen.State :=
  (let selectedCurrency :=
     match find_currency currencyCode with
     | Some c => c
     | None => CURRENCIES_0
     end in
   let st1 := setShowCurrencyPicker false (setCurrency selectedCurrency st) in
   storage_setItem (lit "currencyPreference") currencyCode ;;
   Ret st1)%prog.

End AddBudgetHandlers.

(** ** Edit-budget screen with inline messages: type and delete *)

Module EditBudgetScreenHandlers.

Definition setType (v : ItemType) (st : EditBudgetScreen.State) : EditBudgetScreen.State :=
  {| EditBudgetScreen.isDark := EditBudgetScreen.isDark st;
     EditBudgetScreen.title := EditBudgetScreen.title st;
     EditBudgetScreen.amount := EditBudgetScreen.amount st;
     EditBudgetScreen.type := v;
     EditBudgetScreen.loading := EditBudgetScreen.loading st;
     EditBudgetScreen.error_ := EditBudgetScreen.error_ st;
     EditBudgetScreen.success := EditBudgetScreen.success st |}.

(** [setType(prev => prev === 'income' ? 'outcome' : 'income')] *)
Definition toggleType (st : EditBudgetScreen.State) : EditBudgetScreen.State :=
  setType (if ItemType_eqb (EditBudgetScreen.type st) income then outcome else income) st.

Definition handleDelete (id : jsstring) (st : EditBudgetScreen.State)
  : prog EditBudgetScreen.State :=
  (let st1 := EditBudgetScreen.setLoading true st in
   r <- call (delete_budget_item id) ;;
   let st2 := EditBudgetScreen.setLoading false st1 in
   match error r with
   | Some _ =>
       perform (console_error (lit "Error deleting item:")) ;;
       perform (setTimeout cb_clear_error 3000) ;;
       Ret (EditBudgetScreen.setError (lit "Failed to delete item") st2)
   | None =>
       perform (setTimeout cb_router_back 1000) ;;
       Ret (EditBudgetScreen.setSuccess (lit "Item deleted successfully") st2)
   end)%prog.

End EditBudgetScreenHandlers.

(** ** Edit-task screen: the inputs *)

Module EditTaskHandlers.

(** [{ ...task, title: text }] *)
Definition with_title (text : jsstring) (t : Task) : Task :=
  {| task_id := task_id t; task_title := text;
     task_description := task_description t; task_completed := task_completed t;
     task_category := task_category t; task_deadline := task_deadline t;
     task_created_at := task_created_at t |}.

(** [{ ...task, completed: value }] *)
Definition with_completed (value : bool) (t : Task) : Task :=
  {| task_id := task_id t; task_title := task_title t;
     task_description := task_description t; task_completed := value;
     task_category := task_category t; task_deadline := task_deadline t;
     task_created_at := task_created_at t |}.

(** The inputs exist only while a task is loaded. *)
Definition onChangeTitle (text : jsstring) (st : EditTask.State) : EditTask.State :=
  match EditTask.task st with
  | Some t => EditTask.setTask (Some (with_title text t)) st
  | None => st
  end.

Definition onCompletedChange (value : bool) (st : EditTask.State) : EditTask.State :=
  match EditTask.task st with
  | Some t => EditTask.setTask (Some (with_completed value t)) st
  | None => st
  end.

Definition onCategoryChange (itemValue : jsstring) (st : EditTask.State) : EditTask.State :=
  EditTask.setCategory itemValue st.

End EditTaskHandlers.

(** ** Edit-budget-item screen: type, title and currency *)

Module EditBudgetItemHandlers.

(** [{ ...item, type: ... }], [{ ...item, title: text }],
    [{ ...item, currency: currencyCode }] *)
Definition with_type (v : ItemType) (it : BudgetItem) : BudgetItem :=
  {| item_id := item_id it; item_title := item_title it; item_amount := item_amount it;
     item_type := v; item_currency := item_currency it;
     item_created_at := item_created_at it |}.

Definition with_title (text : jsstring) (it : BudgetItem) : BudgetItem :=
  {| item_id := item_id it; item_title := text; item_amount := item_amount it;
     item_type := item_type it; item_currency := item_currency it;
     item_created_at := item_created_at it |}.

Definition with_currency (v : jsstring) (it : BudgetItem) : BudgetItem :=
  {| item_id := item_id it; item_title := item_title it; item_amount := item_amount it;
     item_type := item_type it; item_currency := v;
     item_created_at := item_created_at it |}.

Definition toggleType (st : EditBudgetItem.State) : EditBudgetItem.State :=
  match EditBudgetItem.item st with
  | Some it =>
      EditBudgetItem.setItem
        (Some (with_type (if ItemType_eqb (item_type it) income
                          then outcome else income) it)) st
  | None => st
  end.

Definition onChangeTitle (text : jsstring) (st : EditBudgetItem.State)
  : EditBudgetItem.State :=
  match EditBudgetItem.item st with
  | Some it => EditBudgetItem.setItem (Some (with_title text it)) st
  | None => st
  end.

(** [CURRENCIES.find(c => c.code === item.currency) || CURRENCIES[0]] *)
Definition currentCurrency (it : BudgetItem) : AddBudgetScreen.Currency :=
  match find_currency (item_currency it) with
  | Some c => c
  | None => CURRENCIES_0
  end.

(** [handleCurrencyChange]: the item in memory takes the new code first; the
    update of the row follows, and a failed update puts the item of the
    closure back. *)
Definition handleCurrencyChange (id currencyCode : jsstring) (st : EditBudgetItem.State)
  : prog EditBudgetItem.State :=
  (match EditBudgetItem.item st with
   | None => Ret st
   | Some it =>
       let st1 := EditBudgetItem.setItem (Some (with_currency currencyCode it)) st in
       r <- call (update_budget_item
                    {| bp_title := None; bp_amount := None; bp_type := None;
                       bp_currency := Some currencyCode |} id) ;;
       match error r with
       | Some _ =>
           perform (console_error (lit "Error updating currency:")) ;;
           Ret (EditBudgetItem.setItem (Some (with_currency (item_currency it) it)) st1)
       | None =>
           ok <- storage_setItem (lit "currencyPreference") currencyCode ;;
           if ok : bool then Ret st1
           else perform (console_error (lit "Failed to update currency:")) ;; Ret st1
       end
   end)%prog.

End EditBudgetItemHandlers.

(** A world whose store refuses every write: the user is resolved and the
    reads answer with no rows, the inserts, updates and deletes answer with
    an error. *)
Module ReadOnly.

Definition denied (A : Type) : Reply A :=
  {| data := None; error := Some (lit "permission denied") |}.

Definition respond (X : Type) (r : request X) (w : unit) : X * unit :=
  match r in request X return X * unit with
  | auth_getUser => (Some Store.alice, w)
  | select_tasks => (Store.ok (Some []), w)
  | select_budget_items => (Store.ok (Some []), w)
  | select_task_single _ => (denied _, w)
  | select_budget_item_single _ => (denied _, w)
  | insert_task _ => (denied _, w)
  | insert_budget_item _ => (denied _, w)
  | update_task _ _ => (denied _, w)
  | update_budget_item _ _ => (denied _, w)
  | delete_task _ => (denied _, w)
  | delete_budget_item _ => (denied _, w)
  end.

Definition world : World :=
  {| wstate := unit;
     remote := respond;
     storage_set := fun _ _ w => (true, w) |}.

End ReadOnly.

(* ===================================================================== *)
(** * Part II: theorems                                                   *)
(* ===================================================================== *)

Section ListFacts.
Variable A : Type.

Lemma forallb_eq (f g : A -> bool) (l : list A) :
  (forall x, f x = g x) -> forallb f l = forallb g l.
Proof. intros E. induction l as [|x l IH]; simpl; [reflexivity|]. now rewrite E, IH. Qed.

Lemma existsb_eq (f g : A -> bool) (l : list A) :
  (forall x, f x = g x) -> existsb f l = existsb g l.
Proof. intros E. induction l as [|x l IH]; simpl; [reflexivity|]. now rewrite E, IH. Qed.

End ListFacts.

Section RegExpFacts.
Import RegExp.

Lemma star_spec c s : forall i k,
    star c i s k = true <->
    exists a b, s = a ++ b /\ forallb (cmatch c) a = true /\ k (i + length a)%nat b = true.
Proof.
    induction s as [|x s IH]; intros i k; simpl.
    - split.
      + intros H. exists [], []. simpl. rewrite Nat.add_0_r. auto.
      + intros (a & b & E & _ & H). symmetry in E. apply app_eq_nil in E as [-> ->].
        simpl in H. now rewrite Nat.add_0_r in H.
    - rewrite orb_true_iff, andb_true_iff, IH. split.
      + intros [[Hx (a & b & -> & Ha & Hk)] | Hk].
        * exists (x :: a), b. simpl. rewrite Hx, Ha.
          rewrite Nat.add_succ_r. auto.
        * exists [], (x :: s). simpl. rewrite Nat.add_0_r. auto.
      + intros (a & b & E & Ha & Hk). destruct a as [|y a]; simpl in *.
        * right. subst b. now rewrite Nat.add_0_r in Hk.
        * injection E as -> ->. apply andb_true_iff in Ha as [Hy Ha].
          left. split; [exact Hy|]. exists a, b. rewrite Nat.add_succ_r in Hk. auto.
Qed.

Lemma rep_spec c n : forall i s k,
    rep c n i s k = true <->
    exists a b, s = a ++ b /\ length a = n /\ forallb (cmatch c) a = true /\
                k (i + n)%nat b = true.
Proof.
    induction n as [|n IH]; intros i s k; simpl.
    - split.
      + intros H. exists [], s. simpl. rewrite Nat.add_0_r. auto.
      + intros (a & b & -> & L & _ & H). apply length_zero_iff_nil in L. subst a.
        simpl. now rewrite Nat.add_0_r in H.
    - destruct s as [|x s].
      + split; [discriminate|]. intros (a & b & E & L & _).
        symmetry in E. apply app_eq_nil in E as [-> _]. discriminate.
      + rewrite andb_true_iff, IH. split.
        * intros [Hx (a & b & -> & L & Ha & Hk)].
          exists (x :: a), b. simpl. rewrite Hx, Ha, L, Nat.add_succ_r. auto.
        * intros (a & b & E & L & Ha & Hk). destruct a as [|y a]; [discriminate|].
          simpl in *. injection E as -> ->. injection L as L.
          apply andb_true_iff in Ha as [Hy Ha]. split; [exact Hy|].
          exists a, b. rewrite Nat.add_succ_r in Hk. auto.
Qed.

  (** A lookahead [(?=.*[cs])] succeeds exactly when some code unit of the
      remaining input is in the class and no line terminator precedes it. *)
Lemma lookahead_spec cs i s :
    m (Seq (Star Any) (Chr (Class cs))) i s (fun _ _ => true) = true <->
    exists a x b, s = a ++ x :: b /\ forallb (cmatch Any) a = true /\
                  cmatch (Class cs) x = true.
Proof.
    cbn [m]. rewrite star_spec. split.
    - intros (a & b & -> & Ha & Hk). destruct b as [|x b]; [discriminate|].
      rewrite andb_true_r in Hk. exists a, x, b. auto.
    - intros (a & x & b & -> & Ha & Hx). exists a, (x :: b).
      rewrite Hx. auto.
Qed.

  (** A pattern anchored with [^] matches at the first index only. *)
Lemma exec_from_anchored r s : forall i,
    exec_from (Seq Bol r) (S i) s = false.
Proof.
    induction s as [|x s IH]; intros i; simpl; [reflexivity|].
    apply IH.
Qed.

End RegExpFacts.

Section PasswordFacts.
Import RegExp SignupScreen.

Lemma test_anchored r s :
  test (Seq Bol r) s = m r 0 s (fun _ _ => true).
Proof.
  unfold test. destruct s as [|x s]; simpl.
  - now rewrite orb_false_r.
  - now rewrite exec_from_anchored, orb_false_r.
Qed.

Lemma allowed_is_allowed x :
  cmatch (Class allowed) x = PasswordRule.is_allowed x.
Proof.
  unfold PasswordRule.is_allowed, PasswordRule.is_upper, PasswordRule.is_lower,
    PasswordRule.is_digit, PasswordRule.is_symbol. simpl.
  rewrite !orb_false_r, !orb_assoc. reflexivity.
Qed.

Lemma symbols_is_symbol x :
  cmatch (Class symbols) x = PasswordRule.is_symbol x.
Proof. reflexivity. Qed.

Lemma allowed_not_terminator x :
  PasswordRule.is_allowed x = true -> cmatch Any x = true.
Proof.
  unfold PasswordRule.is_allowed, PasswordRule.is_upper, PasswordRule.is_lower,
    PasswordRule.is_digit, PasswordRule.is_symbol, cmatch, line_terminator.
  simpl. unfold code_unit. simpl. intros H.
  assert (B : (33 <= x <= 122)%N).
  { repeat (apply orb_true_iff in H as [H|H]);
      repeat match goal with
             | H : (_ && _)%bool = true |- _ => apply andb_true_iff in H as [? ?]
             | H : N.leb _ _ = true |- _ => apply N.leb_le in H
             | H : N.eqb _ _ = true |- _ => apply N.eqb_eq in H
             end; try lia; discriminate. }
  destruct (N.eqb_spec x 10); [lia|]. destruct (N.eqb_spec x 13); [lia|].
  destruct (N.eqb_spec x 8232); [lia|]. destruct (N.eqb_spec x 8233); [lia|].
  reflexivity.
Qed.

(** On an input made of allowed code units only, a lookahead [(?=.*[cs])]
    is a plain membership test. *)
Lemma lookahead_allowed cs s i :
  forallb PasswordRule.is_allowed s = true ->
  m (Seq (Star Any) (Chr (Class cs))) i s (fun _ _ => true)
  = existsb (cmatch (Class cs)) s.
Proof.
  intros Hs. apply eq_true_iff_eq. rewrite lookahead_spec, existsb_exists. split.
  - intros (a & x & b & -> & _ & Hx). exists x. split; [|exact Hx].
    apply in_or_app. right. now left.
  - intros (x & Hin & Hx). apply in_split in Hin as (a & b & ->).
    exists a, x, b. repeat split; [|exact Hx].
    apply forallb_forall. intros y Hy. apply allowed_not_terminator.
    rewrite forallb_forall in Hs. apply Hs. apply in_or_app. now left.
Qed.

Lemma m_look_seq r rest i s k :
  m (Seq (Lookahead r) rest) i s k
  = (m r i s (fun _ _ => true) && m rest i s k)%bool.
Proof. reflexivity. Qed.

Lemma body_spec s :
  m (Seq (Repeat 10 (Class allowed)) (Seq Eol Empty)) 0 s (fun _ _ => true)
  = (Nat.eqb (length s) 10 && forallb PasswordRule.is_allowed s)%bool.
Proof.
  apply eq_true_iff_eq. cbn [m]. rewrite rep_spec, andb_true_iff, Nat.eqb_eq.
  rewrite <- (forallb_eq _ _ s allowed_is_allowed). split.
  - intros (a & b & -> & L & A & Hb). destruct b; [|discriminate].
    rewrite app_nil_r. auto.
  - intros [L A]. exists s, []. rewrite app_nil_r. auto.
Qed.

Lemma validatePassword_accepts s :
  validatePassword s = PasswordRule.accepts s.
Proof.
  unfold validatePassword, passwordRegex. cbn [seq]. rewrite test_anchored.
  rewrite !m_look_seq, body_spec. unfold PasswordRule.accepts.
  destruct (forallb PasswordRule.is_allowed s) eqn:A.
  - rewrite !(fun cs => @lookahead_allowed cs s 0%nat A).
    rewrite (existsb_eq _ _ s symbols_is_symbol).
    assert (U : forall x, cmatch (Class [CRange "A" "Z"]) x = PasswordRule.is_upper x)
      by (intros; simpl; now rewrite orb_false_r).
    assert (Lw : forall x, cmatch (Class [CRange "a" "z"]) x = PasswordRule.is_lower x)
      by (intros; simpl; now rewrite orb_false_r).
    assert (D : forall x, cmatch (Class [CDigit]) x = PasswordRule.is_digit x)
      by (intros; simpl; now rewrite orb_false_r).
    rewrite (existsb_eq _ _ s U), (existsb_eq _ _ s Lw), (existsb_eq _ _ s D).
    destruct (Nat.eqb (length s) 10),
      (existsb PasswordRule.is_upper s), (existsb PasswordRule.is_lower s),
      (existsb PasswordRule.is_digit s), (existsb PasswordRule.is_symbol s); reflexivity.
  - rewrite !andb_false_r. reflexivity.
Qed.

End PasswordFacts.

Example days_from_civil_epoch : days_from_civil 1970 1 1 = 0.
Proof. reflexivity. Qed.

Example Date_parse_2025 : Date_parse (lit "2025-01-01") = Some 1735689600000.
Proof. reflexivity. Qed.

Example Date_parse_leap : Date_parse (lit "2024-02-29") = Some 1709164800000.
Proof. reflexivity. Qed.

Example Date_parse_words : Date_parse (lit "tomorrow") = None.
Proof. reflexivity. Qed.

(** ** Filters *)

Section FilterFacts.
Variable A : Type.

Lemma filter_subseq (f : A -> bool) (l : list A) : subseq (filter f l) l.
Proof.
  induction l as [|x l IH]; simpl; [constructor|].
  destruct (f x); now constructor.
Qed.

Lemma subseq_in (l1 l2 : list A) : subseq l1 l2 -> forall x, In x l1 -> In x l2.
Proof.
  induction 1 as [|y l1 l2 _ IH|y l1 l2 _ IH]; intros z Hz; simpl in *; intuition.
Qed.

Lemma subseq_sorted (R : A -> A -> Prop) (l1 l2 : list A) :
  subseq l1 l2 -> StronglySorted R l2 -> StronglySorted R l1.
Proof.
  induction 1 as [|y l1 l2 Hs IH|y l1 l2 Hs IH]; intros S.
  - constructor.
  - inversion S; subst. auto.
  - inversion S as [|? ? S' F]; subst. constructor; [auto|].
    rewrite Forall_forall in *. intros z Hz. apply F. eapply subseq_in; eauto.
Qed.

(** Two filters with complementary predicates split a list. *)
Lemma filter_split_perm (f g : A -> bool) (l : list A) :
  (forall x, In x l -> g x = negb (f x)) ->
  Permutation (filter f l ++ filter g l) l.
Proof.
  induction l as [|x l IH]; intros E; simpl; [constructor|].
  rewrite (E x (or_introl eq_refl)).
  assert (IH' : Permutation (filter f l ++ filter g l) l)
    by (apply IH; intros y Hy; apply E; now right).
  destruct (f x); simpl.
  - now constructor.
  - rewrite <- Permutation_middle. now constructor.
Qed.

End FilterFacts.

(** ** The task sections *)

Section TaskSectionFacts.
Import TaskList.
Variable Date_getTime : jsstring -> option Z.
Variable now : Z.

Local Notation "'getDaysRemaining'" := (TaskList.getDaysRemaining Date_getTime now).
Local Notation "'taskSections'" := (TaskList.taskSections Date_getTime now).
Local Notation "'isUrgentDeadline'" := (TaskList.isUrgentDeadline Date_getTime now).
Local Notation "'isOngoingDeadline'" := (TaskList.isOngoingDeadline Date_getTime now).
Local Notation "'deadline_is_date'" := (TaskList.deadline_is_date Date_getTime).

Lemma ceil_div_spec x d n : 0 < d -> (ceil_div x d <= n <-> x <= n * d).
Proof.
  intros Hd. unfold ceil_div. split; intros H.
  - assert (- n <= - x / d) by lia.
    assert (- n * d <= - x).
    { apply Z.le_trans with (- x / d * d); [nia|].
      rewrite Z.mul_comm. apply Z.mul_div_le. lia. }
    lia.
  - assert (- n <= - x / d); [|lia]. apply Z.div_le_lower_bound; lia.
Qed.

(** [getDaysRemaining] is [ceil((deadline - now) / 1 day)], and [NaN]
    exactly when the deadline is not a date. *)
Lemma getDaysRemaining_spec d :
  getDaysRemaining d =
  option_map (fun due => ceil_div (due - now) msPerDay) (Date_getTime d).
Proof. unfold TaskList.getDaysRemaining. now destruct (Date_getTime d). Qed.

Lemma taskSections_titles tasks :
  map (@section_title Task) (taskSections tasks)
  = [lit "Urgent"; lit "Ongoing"; lit "Done"].
Proof. reflexivity. Qed.

Lemma in_urgent_iff tasks t :
  In t (filter isUrgentDeadline (ongoingTasks tasks)) <->
  In t tasks /\ task_completed t = false /\
  exists d, task_deadline t = Some d /\ d <> [] /\
            exists n, getDaysRemaining d = Some n /\ n <= 3.
Proof.
  unfold ongoingTasks. rewrite !filter_In, negb_true_iff.
  unfold TaskList.isUrgentDeadline. split.
  - intros [[Hin Hc] H]. repeat split; auto.
    destruct (task_deadline t) as [d|]; [|discriminate].
    apply andb_true_iff in H as [Ht Hn]. exists d. split; [reflexivity|].
    split; [now destruct d|].
    destruct (getDaysRemaining d) as [n|]; [|discriminate].
    exists n. split; [reflexivity|]. now apply Z.leb_le.
  - intros (Hin & Hc & d & -> & Hd & n & -> & Hn). repeat split; auto.
    apply andb_true_iff. split; [now destruct d|]. now apply Z.leb_le.
Qed.

Lemma in_ongoing_iff tasks t :
  In t (filter isOngoingDeadline (ongoingTasks tasks)) <->
  In t tasks /\ task_completed t = false /\
  (truthy_opt (task_deadline t) = false \/
   exists d, task_deadline t = Some d /\
             exists n, getDaysRemaining d = Some n /\ n > 3).
Proof.
  unfold ongoingTasks. rewrite !filter_In, negb_true_iff.
  unfold TaskList.isOngoingDeadline, truthy_opt. split.
  - intros [[Hin Hc] H]. repeat split; auto.
    destruct (task_deadline t) as [d|]; [|now left].
    apply orb_true_iff in H as [H|H]; [left; now apply negb_true_iff|].
    right. exists d. split; [reflexivity|].
    destruct (getDaysRemaining d) as [n|]; [|discriminate].
    exists n. split; [reflexivity|]. simpl in H. apply Z.gtb_lt in H. lia.
  - intros (Hin & Hc & H). repeat split; auto.
    destruct H as [H|(d & -> & n & -> & Hn)].
    + destruct (task_deadline t); [|reflexivity]. now rewrite H.
    + apply orb_true_iff. right. simpl. apply Z.gtb_lt. lia.
Qed.

Lemma in_done_iff tasks t :
  In t (completedTasks tasks) <-> In t tasks /\ task_completed t = true.
Proof. unfold completedTasks. now rewrite filter_In. Qed.

(** A deadline in the past is urgent. *)
Lemma past_deadline_urgent tasks t d due :
  In t tasks -> task_completed t = false ->
  task_deadline t = Some d -> d <> [] -> Date_getTime d = Some due -> due < now ->
  In t (filter isUrgentDeadline (ongoingTasks tasks)) /\
  exists n, getDaysRemaining d = Some n /\ n <= 0.
Proof.
  intros Hin Hc Hd Hne Hdue Hlt.
  assert (Hn : ceil_div (due - now) msPerDay <= 0)
    by (apply ceil_div_spec; [reflexivity|lia]).
  split.
  - apply in_urgent_iff. repeat split; auto. exists d. repeat split; auto.
    exists (ceil_div (due - now) msPerDay). unfold TaskList.getDaysRemaining.
    rewrite Hdue. split; [reflexivity|lia].
  - exists (ceil_div (due - now) msPerDay). unfold TaskList.getDaysRemaining.
    now rewrite Hdue.
Qed.

(** When every deadline text that is present is a date, the urgent and the
    ongoing filter are complementary on the tasks that are not completed,
    and the three sections hold every task once. *)

Lemma urgent_ongoing_complementary t :
  deadline_is_date t -> isOngoingDeadline t = negb (isUrgentDeadline t).
Proof.
  unfold TaskList.deadline_is_date, TaskList.isOngoingDeadline, TaskList.isUrgentDeadline.
  intros V. destruct (task_deadline t) as [d|]; [|reflexivity].
  destruct d as [|x d]; [reflexivity|]. simpl.
  specialize (V (x :: d) eq_refl ltac:(discriminate)).
  unfold TaskList.getDaysRemaining.
  destruct (Date_getTime (x :: d)) as [due|]; [|congruence]. simpl.
  rewrite Z.gtb_ltb, Z.ltb_antisym. reflexivity.
Qed.

Lemma taskSections_partition tasks :
  Forall deadline_is_date tasks ->
  Permutation (concat (map (@section_data Task) (taskSections tasks))) tasks.
Proof.
  intros V. simpl. rewrite app_nil_r.
  assert (P1 : Permutation (filter isUrgentDeadline (ongoingTasks tasks)
                            ++ filter isOngoingDeadline (ongoingTasks tasks))
                           (ongoingTasks tasks)).
  { apply filter_split_perm. intros x Hx. apply urgent_ongoing_complementary.
    rewrite Forall_forall in V. apply V. unfold ongoingTasks in Hx.
    now apply filter_In in Hx. }
  rewrite app_assoc, P1. unfold ongoingTasks, completedTasks.
  apply filter_split_perm. intros x _. symmetry. apply negb_involutive.
Qed.

(** A task that is not completed and whose deadline text is not a date is
    in none of the three sections. *)
Lemma unparsable_deadline_in_no_section tasks t d :
  task_completed t = false -> task_deadline t = Some d -> d <> [] ->
  Date_getTime d = None ->
  forall sec, In sec (taskSections tasks) -> ~ In t (section_data sec).
Proof.
  intros Hc Hd Hne Hnan sec Hsec Hin.
  assert (N : getDaysRemaining d = None)
    by (unfold TaskList.getDaysRemaining; now rewrite Hnan).
  simpl in Hsec. destruct Hsec as [<-|[<-|[<-|[]]]]; simpl in Hin.
  - apply in_urgent_iff in Hin as (_ & _ & d' & Hd' & _ & n & Hn & _). congruence.
  - apply in_ongoing_iff in Hin as (_ & _ & [H|(d' & Hd' & n & Hn & _)]).
    + rewrite Hd in H. simpl in H. destruct d; [congruence|discriminate].
    + congruence.
  - apply in_done_iff in Hin as [_ H]. congruence.
Qed.

End TaskSectionFacts.

(** ** Running the handlers of the list screens *)

Lemma jsstring_eqb_eq a b : jsstring_eqb a b = true <-> a = b.
Proof.
  unfold jsstring_eqb. destruct (list_eq_dec N.eq_dec a b); split; congruence.
Qed.

Lemma jsstring_eqb_neq a b : jsstring_eqb a b = false <-> a <> b.
Proof.
  unfold jsstring_eqb. destruct (list_eq_dec N.eq_dec a b); split; congruence.
Qed.

Lemma filter_removes_exactly (A : Type) (id_of : A -> jsstring) k (rows : list A) :
  removes_exactly id_of k rows
    (filter (fun r => negb (jsstring_eqb (id_of r) k)) rows).
Proof.
  repeat split.
  - apply filter_subseq.
  - apply Forall_forall. intros r Hr. apply filter_In in Hr as [_ Hr].
    apply negb_true_iff in Hr. now apply jsstring_eqb_neq.
  - exists (filter (fun r => jsstring_eqb (id_of r) k) rows). split.
    + apply Forall_forall. intros r Hr. apply filter_In in Hr as [_ Hr].
      now apply jsstring_eqb_eq.
    + symmetry. apply filter_split_perm. intros x _. symmetry. apply negb_involutive.
Qed.

(** One step of a run: name the answer of the world to the request at the
    head of the program. *)
Ltac answer :=
  match goal with
  | |- context [remote ?W ?r ?w] =>
      let rep := fresh "rep" in
      let w' := fresh "w" in
      let E := fresh "E" in
      destruct (remote W r w) as [rep w'] eqn:E; cbn [fst snd] in *
  end.

Section ListScreenFacts.
Variable W : World.
Variable w : wstate W.

Ltac delete_case :=
  intros; unfold local_delete, succeeds; cbn; answer;
  match goal with rep : Reply unit |- _ => destruct (error rep) eqn:? end; cbn;
  (split; [reflexivity|]);
  (split;
   [ intros E';
     first [ discriminate E'
           | split; [apply filter_removes_exactly | reflexivity] ]
   | intros E'; first [reflexivity | now elim E'] ]).

Ltac refetch :=
  answer;
  match goal with rep : Reply (list _) |- _ =>
    unfold data_or_empty; destruct (error rep) eqn:?; destruct (data rep) eqn:?
  end;
  cbn; repeat split; reflexivity.

Ltac toggle_case :=
  intros; try match goal with t : ItemType |- _ => destruct t end;
  unfold refetching_toggle, succeeds, completed_only, type_only, other_type;
  cbn; answer;
  match goal with rep : Reply unit |- _ => destruct (error rep) eqn:? end; cbn;
  (split;
   [ intros E'; first [discriminate E' | refetch]
   | intros E'; first [now elim E' | split; reflexivity] ]).

(** C3. On both list screens and for every row identifier: a Delete issues
    one delete request and no re-fetch; when it succeeds the local list of
    the screen is the one from before without the rows of that identifier,
    the other rows in their order, and every other field of the screen is as
    before; when it fails the state is as it was.  A Toggle issues one
    partial update of the single toggled field; when it succeeds one select
    of the whole collection follows and the local list of the screen is what
    that select returned, every other field as before; when it fails there
    is no further call and the state is as it was. *)
Theorem list_screens_delete_and_toggle :
  (forall k st,
     local_delete W w TaskList.tasks
       (fun s => (TaskList.activeTab s, TaskList.budgetItems s, TaskList.isDark s))
       task_id (delete_task k) k st (run W (TaskList.deleteTask k st) w)) /\
  (forall k st,
     local_delete W w TaskList.budgetItems
       (fun s => (TaskList.activeTab s, TaskList.tasks s, TaskList.isDark s))
       item_id (delete_budget_item k) k st (run W (TaskList.deleteBudgetItem k st) w)) /\
  (forall k st,
     local_delete W w BudgetScreen.items
       (fun s => (BudgetScreen.isDark s, BudgetScreen.userCurrency s))
       item_id (delete_budget_item k) k st (run W (BudgetScreen.deleteItem k st) w)) /\
  (forall k completed st,
     refetching_toggle W w TaskList.tasks
       (fun s => (TaskList.activeTab s, TaskList.budgetItems s, TaskList.isDark s))
       (update_task (completed_only (negb completed)) k) select_tasks st
       (run W (TaskList.toggleTaskCompletion k completed st) w)) /\
  (forall k currentType st,
     refetching_toggle W w TaskList.budgetItems
       (fun s => (TaskList.activeTab s, TaskList.tasks s, TaskList.isDark s))
       (update_budget_item (type_only (other_type currentType)) k)
       select_budget_items st
       (run W (TaskList.toggleBudgetItemType k currentType st) w)) /\
  (forall k currentType st,
     refetching_toggle W w BudgetScreen.items
       (fun s => (BudgetScreen.isDark s, BudgetScreen.userCurrency s))
       (update_budget_item (type_only (other_type currentType)) k)
       select_budget_items st
       (run W (BudgetScreen.toggleItemType k currentType st) w)).
Proof.
  split; [delete_case|]. split; [delete_case|]. split; [delete_case|].
  split; [toggle_case|]. split; toggle_case.
Qed.

End ListScreenFacts.

(** ** The signup password rule *)

Section PasswordClaim.
Import SignupScreen PasswordRule.

(** C2. The signup validator accepts a string exactly when it has ten code
    units, each an uppercase letter, a lowercase letter, a digit or one of
    [@$!%*?&], with at least one of each of the four classes; it rejects
    ["short1!"], and it rejects every string of nine or of eleven code units,
    such as ["Abcdef12!"] and ["Abcdef1234!"], which have all four classes. *)
Theorem validatePassword_rule :
  (forall s,
     validatePassword s = true <->
     length s = 10%nat /\
     Forall (fun x => is_allowed x = true) s /\
     Exists (fun x => is_upper x = true) s /\
     Exists (fun x => is_lower x = true) s /\
     Exists (fun x => is_digit x = true) s /\
     Exists (fun x => is_symbol x = true) s) /\
  validatePassword (lit "short1!") = false /\
  (forall s, length s = 9%nat \/ length s = 11%nat -> validatePassword s = false) /\
  validatePassword (lit "Abcdef12!") = false /\
  validatePassword (lit "Abcdef1234!") = false /\
  validatePassword (lit "Abcdef123!") = true.
Proof.
  assert (R : forall s,
     validatePassword s = true <->
     length s = 10%nat /\
     Forall (fun x => is_allowed x = true) s /\
     Exists (fun x => is_upper x = true) s /\
     Exists (fun x => is_lower x = true) s /\
     Exists (fun x => is_digit x = true) s /\
     Exists (fun x => is_symbol x = true) s).
  { intros s. rewrite validatePassword_accepts. unfold accepts.
    rewrite !andb_true_iff, Nat.eqb_eq, forallb_forall, !existsb_exists,
      Forall_forall, !Exists_exists.
    split; intros H; decompose [and] H; repeat split; assumption. }
  split; [exact R|]. split; [reflexivity|]. split.
  - intros s L. apply not_true_is_false. intros H. apply R in H as [H _]. lia.
  - repeat split; reflexivity.
Qed.

Lemma validatePassword_rule_witness :
  validatePassword (lit "Abcdef12345") = false.
Proof.
  destruct validatePassword_rule as (_ & _ & H & _). apply H. right. reflexivity.
Defined.

End PasswordClaim.

(** ** The sections of the list screens *)

(** C1, on the code. A task that is not completed and whose deadline text
    is not a date is put in none of the three sections: the days remaining
    are [NaN], and both [NaN <= 3] and [NaN > 3] are false. *)
Theorem taskSections_unparsable_deadline now :
  TaskList.taskSections Date_parse now [task_tomorrow] =
  [ {| section_title := lit "Urgent"; section_data := [] |};
    {| section_title := lit "Ongoing"; section_data := [] |};
    {| section_title := lit "Done"; section_data := [] |} ].
Proof. reflexivity. Qed.

Lemma unparsable_deadline_in_no_section_witness :
  forall sec, In sec (TaskList.taskSections Date_parse 0 [task_tomorrow]) ->
              ~ In task_tomorrow (section_data sec).
Proof.
  apply (@unparsable_deadline_in_no_section Date_parse 0 [task_tomorrow]
           task_tomorrow (lit "tomorrow")).
  - reflexivity.
  - reflexivity.
  - discriminate.
  - reflexivity.
Defined.

Section BudgetSectionFacts.
Variable items : list BudgetItem.

Lemma ItemType_eqb_eq a b : ItemType_eqb a b = true <-> a = b.
Proof. destruct a, b; simpl; split; congruence. Qed.

(** C4. The budget sections of both list screens are two, Income then
    Outcome; an item of the local list is in the section of its [type] and
    in no other, every item once; and each section keeps the order of the
    local list. *)
Theorem budget_sections_partition :
  exists inc out,
    BudgetScreen.sections items =
      [ {| section_title := lit "Income"; section_data := inc |};
        {| section_title := lit "Outcome"; section_data := out |} ] /\
    TaskList.budgetSections items = BudgetScreen.sections items /\
    (forall x, In x inc <-> In x items /\ item_type x = income) /\
    (forall x, In x out <-> In x items /\ item_type x = outcome) /\
    (forall x, ~ (In x inc /\ In x out)) /\
    Permutation (inc ++ out) items /\
    subseq inc items /\ subseq out items.
Proof.
  exists (BudgetScreen.incomeItems items), (BudgetScreen.outcomeItems items).
  assert (I : forall x, In x (BudgetScreen.incomeItems items) <->
                        In x items /\ item_type x = income).
  { intros x. unfold BudgetScreen.incomeItems. now rewrite filter_In, ItemType_eqb_eq. }
  assert (O : forall x, In x (BudgetScreen.outcomeItems items) <->
                        In x items /\ item_type x = outcome).
  { intros x. unfold BudgetScreen.outcomeItems. now rewrite filter_In, ItemType_eqb_eq. }
  split; [reflexivity|]. split; [reflexivity|].
  split; [exact I|]. split; [exact O|]. split; [|split; [|split]].
  - intros x [Hi Ho]. apply I in Hi as [_ Hi]. apply O in Ho as [_ Ho]. congruence.
  - apply filter_split_perm. intros x _. now destruct (item_type x).
  - apply filter_subseq.
  - apply filter_subseq.
Qed.

(** The remote read returns the rows by descending creation time; whatever
    order the local list is sorted by, the sections are sorted by it too. *)
Lemma budget_sections_sorted (R : BudgetItem -> BudgetItem -> Prop) :
  StronglySorted R items ->
  StronglySorted R (BudgetScreen.incomeItems items) /\
  StronglySorted R (BudgetScreen.outcomeItems items).
Proof.
  intros S. split; eapply subseq_sorted; eauto; apply filter_subseq.
Qed.

End BudgetSectionFacts.

(** ** The edit-budget-item screen *)

Section EditBudgetItemFacts.
Import EditBudgetItem.
Variable W : World.
Variable w : wstate W.

Lemma run_handleSave_loaded id st it :
  item st = Some it ->
  exists rest,
    trace (run W (handleSave id st) w)
    = Net (update_budget_item (save_patch it) id) :: rest /\
    network rest = [] /\
    result (run W (handleSave id st) w) = st.
Proof.
  intros E. unfold handleSave. rewrite E. cbn. answer.
  destruct (error rep); cbn.
  - eexists. repeat split.
  - destruct (storage_set W _ _ w0) as [[|] w1]; cbn; eexists; repeat split.
Qed.

(** C10. On the edit-budget-item screen every amount text [text] turns the
    amount in memory into [parseFloat(text)] when that is a truthy number
    and into 0 otherwise, so a text that is not numeric gives 0; and Save,
    whatever the store answers, begins with the update carrying that
    amount: nothing is checked before it. *)
Theorem edit_budget_item_amount_unvalidated id text st it :
  item st = Some it ->
  let amount :=
    if truthy_number (parseFloat text) then parseFloat text else pos_zero in
  let st' := onChangeAmount text st in
  item st' = Some (with_amount amount it) /\
  (isNaN (parseFloat text) = true -> amount = pos_zero) /\
  exists rest,
    trace (run W (handleSave id st') w)
    = Net (update_budget_item
             {| bp_title := Some (item_title it);
                bp_amount := Some amount;
                bp_type := Some (item_type it);
                bp_currency := Some (item_currency it) |} id) :: rest /\
    network rest = [].
Proof.
  intros E amount st'.
  assert (E' : item st' = Some (with_amount amount it)).
  { unfold st', onChangeAmount. rewrite E. reflexivity. }
  split; [exact E'|]. split.
  - unfold amount. destruct (parseFloat text); simpl; congruence.
  - destruct (run_handleSave_loaded id _ E') as (rest & T & N & _).
    exists rest. split; [exact T|exact N].
Qed.

End EditBudgetItemFacts.

Lemma edit_budget_item_amount_unvalidated_witness :
  EditBudgetItem.item (EditBudgetItem.onChangeAmount (lit "abc") Samples.edit_item_loaded)
  = Some (EditBudgetItem.with_amount pos_zero Samples.lunch).
Proof.
  apply (@edit_budget_item_amount_unvalidated Store.world Store.empty
           (lit "7") (lit "abc") Samples.edit_item_loaded Samples.lunch).
  reflexivity.
Defined.

(** ** The create screens *)

Section CreateScreenFacts.
Variable W : World.
Variable w : wstate W.

Lemma run_handleAddTask st :
  run W (AddTaskScreen.handleAddTask st) w =
  if negb (truthy_string (trim (AddTaskScreen.title st))) then
    (st, w, [Out (Alert_alert (lit "Error") (lit "Task title cannot be empty"))])
  else
    let '(user, w1) := remote W auth_getUser w in
    match user with
    | None =>
        (AddTaskScreen.setLoading false (AddTaskScreen.setLoading true st), w1,
         [Net auth_getUser; Out (Alert_alert (lit "Error") (lit "Not authenticated"))])
    | Some u =>
        let '(rep, w2) := remote W (insert_task (task_row st u)) w1 in
        match error rep with
        | Some message =>
            (AddTaskScreen.setLoading false (AddTaskScreen.setLoading true st), w2,
             [Net auth_getUser; Net (insert_task (task_row st u));
              Out (Alert_alert (lit "Error") message)])
        | None =>
            (AddTaskScreen.setLoading false
               (AddTaskScreen.resetForm (AddTaskScreen.setLoading true st)), w2,
             [Net auth_getUser; Net (insert_task (task_row st u)); Out router_back])
        end
    end.
Proof.
  unfold AddTaskScreen.handleAddTask, task_row.
  destruct (negb (truthy_string (trim (AddTaskScreen.title st)))); [reflexivity|].
  cbn. answer. destruct rep as [u|]; [|reflexivity].
  cbn. answer. destruct (error rep); reflexivity.
Qed.

Lemma run_handleAddBudgetItem st :
  run W (AddBudgetScreen.handleAddBudgetItem st) w =
  let st0 := AddBudgetScreen.setError [] st in
  if AddBudgetScreen.titleMissing st then
    (AddBudgetScreen.setError (lit "Please enter a title") st0, w, [])
  else if AddBudgetScreen.amountInvalid st then
    (AddBudgetScreen.setError (lit "Please enter a valid amount") st0, w, [])
  else
    let st1 := AddBudgetScreen.setLoading true st0 in
    let '(user, w1) := remote W auth_getUser w in
    match user with
    | None =>
        (AddBudgetScreen.setLoading false
           (AddBudgetScreen.setError (lit "Not authenticated") st1), w1,
         [Net auth_getUser])
    | Some u =>
        let '(rep, w2) := remote W (insert_budget_item (budget_row st u)) w1 in
        match error rep with
        | Some message =>
            (AddBudgetScreen.setLoading false (AddBudgetScreen.setError message st1), w2,
             [Net auth_getUser; Net (insert_budget_item (budget_row st u))])
        | None =>
            (AddBudgetScreen.setLoading false (AddBudgetScreen.resetForm st1), w2,
             [Net auth_getUser; Net (insert_budget_item (budget_row st u));
              Out (router_replace (lit "/(tabs)"))])
        end
    end.
Proof.
  unfold AddBudgetScreen.handleAddBudgetItem, budget_row.
  destruct (AddBudgetScreen.titleMissing st); [reflexivity|].
  destruct (AddBudgetScreen.amountInvalid st); [reflexivity|].
  cbn. answer. destruct rep as [u|]; [|reflexivity].
  cbn. answer. destruct (error rep); reflexivity.
Qed.

(** C6, as the code has it. On both create screens: when the local check
    fails (the title is empty or white space; on the budget screen also when
    the amount text is empty or [Number] reads no number from it) a message
    is raised and there is no network call; when it passes, the user is
    resolved with one call, and then, if a user is signed in, one insert
    carries the fields of the form and the user id, and if none is, the
    message is "Not authenticated" and nothing is inserted. *)
Theorem create_screens_validate_then_insert :
  (forall st,
     let out := run W (AddTaskScreen.handleAddTask st) w in
     if negb (truthy_string (trim (AddTaskScreen.title st))) then
       trace out = [Out (Alert_alert (lit "Error") (lit "Task title cannot be empty"))]
       /\ result out = st
     else
       match fst (remote W auth_getUser w) with
       | Some user =>
           network (trace out) = [Net auth_getUser; Net (insert_task (task_row st user))]
       | None =>
           network (trace out) = [Net auth_getUser] /\
           outputs (trace out) = [Alert_alert (lit "Error") (lit "Not authenticated")]
       end) /\
  (forall st,
     let out := run W (AddBudgetScreen.handleAddBudgetItem st) w in
     if AddBudgetScreen.titleMissing st then
       trace out = [] /\
       AddBudgetScreen.error_ (result out) = lit "Please enter a title"
     else if AddBudgetScreen.amountInvalid st then
       trace out = [] /\
       AddBudgetScreen.error_ (result out) = lit "Please enter a valid amount"
     else
       match fst (remote W auth_getUser w) with
       | Some user =>
           network (trace out)
           = [Net auth_getUser; Net (insert_budget_item (budget_row st user))]
       | None =>
           network (trace out) = [Net auth_getUser] /\
           AddBudgetScreen.error_ (result out) = lit "Not authenticated"
       end).
Proof.
  split; intros st out; subst out.
  - rewrite run_handleAddTask.
    destruct (negb (truthy_string (trim (AddTaskScreen.title st)))); [now split|].
    answer. destruct rep as [u|]; [|now split].
    answer. destruct (error rep); reflexivity.
  - rewrite run_handleAddBudgetItem. cbv zeta.
    destruct (AddBudgetScreen.titleMissing st); [now split|].
    destruct (AddBudgetScreen.amountInvalid st); [now split|].
    answer. destruct rep as [u|]; [|now split].
    answer. destruct (error rep); reflexivity.
Qed.

End CreateScreenFacts.

(** C6, as stated, fails: with nobody signed in, a form that passes the
    local check resolves no user and inserts nothing. *)
Lemma add_task_signed_out_inserts_nothing :
  let st := Samples.add_task_form "Buy milk" in
  let out := run Store.world (AddTaskScreen.handleAddTask st) Store.signed_out in
  negb (truthy_string (trim (AddTaskScreen.title st))) = false /\
  network (trace out) = [Net auth_getUser] /\
  task_inserts (trace out) = [].
Proof. repeat split. Qed.

(** ** The edit screens *)

Section EditScreenFacts.
Variable W : World.
Variable w : wstate W.
Variable Number_toString : number -> jsstring.

Lemma run_EditBudgetScreen_handleSave id st :
  run W (EditBudgetScreen.handleSave id st) w =
  if EditBudgetScreen.fieldMissing st then
    (EditBudgetScreen.setError (lit "Please fill in all fields") st, w,
     [Out (setTimeout cb_clear_error 3000)])
  else if EditBudgetScreen.amountInvalid st then
    (EditBudgetScreen.setError (lit "Please enter a valid amount") st, w,
     [Out (setTimeout cb_clear_error 3000)])
  else
    let st2 := EditBudgetScreen.setLoading false
                 (EditBudgetScreen.setLoading true (EditBudgetScreen.setError [] st)) in
    let '(rep, w1) := remote W (update_budget_item (form_patch st) id) w in
    match error rep with
    | Some _ =>
        (EditBudgetScreen.setError (lit "Failed to update item") st2, w1,
         [Net (update_budget_item (form_patch st) id);
          Out (console_error (lit "Error updating item:"));
          Out (setTimeout cb_clear_error 3000)])
    | None =>
        (EditBudgetScreen.setSuccess (lit "Changes saved successfully") st2, w1,
         [Net (update_budget_item (form_patch st) id);
          Out (setTimeout cb_router_back 1000)])
    end.
Proof.
  unfold EditBudgetScreen.handleSave, EditBudgetScreen.amountInvalid, form_patch.
  destruct (EditBudgetScreen.fieldMissing st); [reflexivity|].
  destruct (isNaN (parseFloat (EditBudgetScreen.amount st))); [reflexivity|].
  cbn. answer. destruct (error rep); reflexivity.
Qed.

Lemma run_EditBudgetScreen_fetchItem id st :
  run W (EditBudgetScreen.fetchItem Number_toString id st) w =
  let '(rep, w1) := remote W (select_budget_item_single id) w in
  match error rep with
  | Some _ =>
      (EditBudgetScreen.setError (lit "Failed to fetch item details") st, w1,
       [Net (select_budget_item_single id);
        Out (console_error (lit "Error fetching item:"));
        Out (setTimeout cb_router_back 1500)])
  | None =>
      (match data rep with
       | Some d =>
           EditBudgetScreen.setForm (item_title d) (Number_toString (item_amount d))
             (item_type d) st
       | None => st
       end, w1, [Net (select_budget_item_single id)])
  end.
Proof.
  unfold EditBudgetScreen.fetchItem. cbn. answer.
  destruct (error rep); [reflexivity|]. destruct (data rep); reflexivity.
Qed.

Lemma run_EditTask_fetchTask id st :
  run W (EditTask.fetchTask id st) w =
  let '(rep, w1) := remote W (select_task_single id) w in
  (match error rep, data rep with
   | None, Some d =>
       EditTask.setLoading false
         (EditTask.setCategory (EditTask.category_or_empty (task_category d))
            (EditTask.setTask (Some d) st))
   | _, _ => EditTask.setLoading false st
   end, w1, [Net (select_task_single id)]).
Proof.
  unfold EditTask.fetchTask. cbn. answer.
  destruct (error rep); [reflexivity|]. destruct (data rep); reflexivity.
Qed.

Lemma run_EditBudgetItem_fetchItem id st :
  run W (EditBudgetItem.fetchItem id st) w =
  let '(rep, w1) := remote W (select_budget_item_single id) w in
  (match error rep, data rep with
   | None, Some d => EditBudgetItem.setLoading false (EditBudgetItem.setItem (Some d) st)
   | _, _ => EditBudgetItem.setLoading false st
   end, w1, [Net (select_budget_item_single id)]).
Proof.
  unfold EditBudgetItem.fetchItem. cbn. answer.
  destruct (error rep); [reflexivity|]. destruct (data rep); reflexivity.
Qed.

Lemma run_EditTask_handleSave id st :
  run W (EditTask.handleSave id st) w =
  match EditTask.task st with
  | None => (st, w, [])
  | Some t =>
      let upd := update_task (task_patch t (EditTask.category st)) id in
      let '(rep, w1) := remote W upd w in
      match error rep with
      | Some _ => (st, w1, [Net upd])
      | None => (st, w1, [Net upd; Out router_back])
      end
  end.
Proof.
  unfold EditTask.handleSave, task_patch. destruct (EditTask.task st); [|reflexivity].
  cbn. answer. destruct (error rep); reflexivity.
Qed.

Lemma run_EditBudgetItem_handleSave id st :
  run W (EditBudgetItem.handleSave id st) w =
  match EditBudgetItem.item st with
  | None => (st, w, [])
  | Some it =>
      let upd := update_budget_item (save_patch it) id in
      let '(rep, w1) := remote W upd w in
      match error rep with
      | Some _ =>
          (st, w1, [Net upd; Out (console_error (lit "Error saving budget item:"))])
      | None =>
          let '(ok, w2) :=
            storage_set W (lit "currencyPreference") (item_currency it) w1 in
          (st, w2,
           [Net upd; Sto (lit "currencyPreference") (item_currency it);
            Out (if ok then router_replace (lit "/(tabs)")
                 else console_error (lit "Failed to save budget item:"))])
      end
  end.
Proof.
  unfold EditBudgetItem.handleSave, save_patch.
  destruct (EditBudgetItem.item st); [|reflexivity].
  cbn. answer. destruct (error rep); [reflexivity|].
  cbn. destruct (storage_set W _ _ w0) as [[|] w2]; reflexivity.
Qed.

End EditScreenFacts.

Section EditScreenClaims.
Variable W : World.
Variable w : wstate W.
Variable Number_toString : number -> jsstring.

(** C7, as the code has it. On each edit screen activation issues one
    single-row read by the identifier and no other network call.  When that
    read answers with an error (a missing row is one), the edit-budget screen
    with inline messages shows "Failed to fetch item details" and schedules
    the navigation back 1500 ms later; the edit-task and the edit-budget-item
    screen drop the loading flag, show their "not found" text in place of the
    form and schedule nothing. *)
Theorem edit_screens_activation id :
  (forall st,
     let out := run W (EditBudgetScreen.fetchItem Number_toString id st) w in
     network (trace out) = [Net (select_budget_item_single id)] /\
     (~ succeeds W w (select_budget_item_single id) ->
        EditBudgetScreen.error_ (result out) = lit "Failed to fetch item details" /\
        outputs (trace out)
        = [console_error (lit "Error fetching item:"); setTimeout cb_router_back 1500])) /\
  (forall st,
     let out := run W (EditTask.fetchTask id st) w in
     network (trace out) = [Net (select_task_single id)] /\
     (~ succeeds W w (select_task_single id) ->
        outputs (trace out) = [] /\
        result out = EditTask.setLoading false st /\
        (EditTask.task st = None ->
         EditTask.render (result out) = view_not_found (lit "Task not found")))) /\
  (forall st,
     let out := run W (EditBudgetItem.fetchItem id st) w in
     network (trace out) = [Net (select_budget_item_single id)] /\
     (~ succeeds W w (select_budget_item_single id) ->
        outputs (trace out) = [] /\
        result out = EditBudgetItem.setLoading false st /\
        (EditBudgetItem.item st = None ->
         EditBudgetItem.render (result out) = view_not_found (lit "Item not found")))).
Proof.
  unfold succeeds. repeat apply conj; intros st; cbv zeta.
  - rewrite run_EditBudgetScreen_fetchItem. answer.
    destruct (error rep); cbn; (split; [reflexivity|]); intros H;
      [now split | now elim H].
  - rewrite run_EditTask_fetchTask. answer. split; [reflexivity|]. intros H.
    destruct (error rep); [|now elim H]. cbn. repeat split.
    intros T. unfold EditTask.render. cbn. now rewrite T.
  - rewrite run_EditBudgetItem_fetchItem. answer. split; [reflexivity|]. intros H.
    destruct (error rep); [|now elim H]. cbn. repeat split.
    intros T. unfold EditBudgetItem.render. cbn. now rewrite T.
Qed.

(** C8, as the code has it. Save on the edit-budget screen with inline
    messages checks that title and amount are not blank and that
    [parseFloat] reads a number, then issues one partial update by the
    identifier; on success it shows "Changes saved successfully" and
    schedules the navigation back 1000 ms later; on failure it shows "Failed
    to update item", keeps the form and does not navigate.  Save on the
    edit-task and on the edit-budget-item screen checks nothing: with a row
    loaded it issues the update at once and shows no message.  When the
    update succeeds the edit-task screen navigates back without delay; the
    edit-budget-item screen writes the currency of the item as the currency
    preference and then replaces the route without delay when that write
    resolved, and logs and stays when it rejected.  When the update fails
    the edit-task screen does nothing more, and the edit-budget-item screen
    logs, writes no preference and stays. *)
Theorem edit_screens_save id :
  (forall st,
     let out := run W (EditBudgetScreen.handleSave id st) w in
     let upd := update_budget_item (form_patch st) id in
     if (EditBudgetScreen.fieldMissing st || EditBudgetScreen.amountInvalid st)%bool then
       network (trace out) = [] /\
       outputs (trace out) = [setTimeout cb_clear_error 3000] /\
       EditBudgetScreen.error_ (result out)
       = (if EditBudgetScreen.fieldMissing st
          then lit "Please fill in all fields"
          else lit "Please enter a valid amount")
     else
       network (trace out) = [Net upd] /\
       (succeeds W w upd ->
          EditBudgetScreen.success (result out) = lit "Changes saved successfully" /\
          outputs (trace out) = [setTimeout cb_router_back 1000]) /\
       (~ succeeds W w upd ->
          EditBudgetScreen.error_ (result out) = lit "Failed to update item" /\
          outputs (trace out)
          = [console_error (lit "Error updating item:"); setTimeout cb_clear_error 3000] /\
          EditBudgetScreen.title (result out) = EditBudgetScreen.title st /\
          EditBudgetScreen.amount (result out) = EditBudgetScreen.amount st /\
          EditBudgetScreen.type (result out) = EditBudgetScreen.type st)) /\
  (forall st t,
     EditTask.task st = Some t ->
     let out := run W (EditTask.handleSave id st) w in
     let upd := update_task (task_patch t (EditTask.category st)) id in
     network (trace out) = [Net upd] /\
     result out = st /\
     (succeeds W w upd -> outputs (trace out) = [router_back]) /\
     (~ succeeds W w upd -> outputs (trace out) = [])) /\
  (forall st it,
     EditBudgetItem.item st = Some it ->
     let out := run W (EditBudgetItem.handleSave id st) w in
     let upd := update_budget_item (save_patch it) id in
     let stored :=
       fst (storage_set W (lit "currencyPreference") (item_currency it)
              (snd (remote W upd w))) in
     network (trace out) = [Net upd] /\
     result out = st /\
     (succeeds W w upd ->
        trace out
        = [ Net upd;
            Sto (lit "currencyPreference") (item_currency it);
            Out (if stored then router_replace (lit "/(tabs)")
                 else console_error (lit "Failed to save budget item:")) ]) /\
     (~ succeeds W w upd ->
        trace out = [Net upd; Out (console_error (lit "Error saving budget item:"))])).
Proof.
  unfold succeeds. repeat apply conj.
  - intros st. cbv zeta. rewrite run_EditBudgetScreen_handleSave.
    destruct (EditBudgetScreen.fieldMissing st); [now repeat split|].
    destruct (EditBudgetScreen.amountInvalid st); [now repeat split|].
    cbn [orb]. cbv zeta. answer.
    destruct (error rep); cbn; (split; [reflexivity|]); split; intros H;
      try discriminate H; try (now elim H); now repeat split.
  - intros st t T. cbv zeta. rewrite run_EditTask_handleSave, T.
    cbv zeta. answer.
    destruct (error rep); cbn; repeat split; intros H;
      try discriminate H; try (now elim H); reflexivity.
  - intros st it T. cbv zeta. rewrite run_EditBudgetItem_handleSave, T.
    cbv zeta. answer. destruct (error rep); cbn.
    + repeat split; intros H; try discriminate H; reflexivity.
    + destruct (storage_set W _ _ w0) as [[|] w2]; cbn; repeat split; intros H;
        try (now elim H); reflexivity.
Qed.

(** C5, as the code has it. Every budget-item write carries the amount the
    form holds, with no check of its sign: the create screen inserts
    [parseFloat] of the amount text of a form that passed its check, the
    edit-budget screen with inline messages updates with [parseFloat] of the
    amount text, which is then not [NaN], and the edit-budget-item screen
    updates with the amount in memory; each write carries the [type] of the
    form next to it. *)
Theorem budget_writes_carry_the_form_amount :
  (forall st row,
     In row (budget_inserts (trace (run W (AddBudgetScreen.handleAddBudgetItem st) w))) ->
     AddBudgetScreen.titleMissing st = false /\
     AddBudgetScreen.amountInvalid st = false /\
     bi_amount row = parseFloat (AddBudgetScreen.amount st) /\
     bi_type row = AddBudgetScreen.type st) /\
  (forall id st p id',
     In (p, id') (budget_updates (trace (run W (EditBudgetScreen.handleSave id st) w))) ->
     id' = id /\
     bp_amount p = Some (parseFloat (EditBudgetScreen.amount st)) /\
     isNaN (parseFloat (EditBudgetScreen.amount st)) = false /\
     bp_type p = Some (EditBudgetScreen.type st)) /\
  (forall id st p id',
     In (p, id') (budget_updates (trace (run W (EditBudgetItem.handleSave id st) w))) ->
     exists it,
       EditBudgetItem.item st = Some it /\ id' = id /\
       bp_amount p = Some (item_amount it) /\
       bp_type p = Some (item_type it)).
Proof.
  repeat apply conj.
  - intros st row. rewrite run_handleAddBudgetItem. cbv zeta.
    destruct (AddBudgetScreen.titleMissing st); [intros []|].
    destruct (AddBudgetScreen.amountInvalid st); [intros []|].
    answer. destruct rep as [u|]; [|intros []].
    answer. destruct (error rep); cbn; intros [<-|[]]; now repeat split.
  - intros id st p id'. rewrite run_EditBudgetScreen_handleSave.
    destruct (EditBudgetScreen.fieldMissing st); [intros []|].
    unfold EditBudgetScreen.amountInvalid.
    destruct (isNaN (parseFloat (EditBudgetScreen.amount st))) eqn:N; [intros []|].
    cbv zeta. answer.
    destruct (error rep); cbn; intros [H|[]]; injection H as <- <-; now repeat split.
  - intros id st p id'. rewrite run_EditBudgetItem_handleSave.
    destruct (EditBudgetItem.item st) as [it|]; [|intros []].
    cbv zeta. answer. destruct (error rep); cbn.
    + intros [H|[]]. injection H as <- <-. exists it. now repeat split.
    + destruct (storage_set W _ _ w0) as [ok w2]. cbn.
      intros [H|[]]. injection H as <- <-. exists it. now repeat split.
Qed.

End EditScreenClaims.

(** ** Concrete runs against the store *)

Example forty_two_and_a_half_value :
  5981343255101440 = 85 * 2 ^ 46 /\
  SFdiv prec emax (number_of_Z 85) (number_of_Z 2) = forty_two_and_a_half /\
  parseFloat (lit "42.50") = forty_two_and_a_half.
Proof. repeat split. Qed.

Example minus_five_value :
  5629499534213120 = 5 * 2 ^ 50 /\
  SFopp (number_of_Z 5) = minus_five /\
  parseFloat (lit "-5") = minus_five.
Proof. repeat split. Qed.

(** C5, as stated, fails: the amount text ["-5"] passes the check of the
    create screen and is inserted as the number -5. *)
Lemma add_budget_negative_amount :
  let st := Samples.add_budget_form "Refund" "-5" income in
  let out := run Store.world (AddBudgetScreen.handleAddBudgetItem st) Store.empty in
  AddBudgetScreen.titleMissing st = false /\
  AddBudgetScreen.amountInvalid st = false /\
  budget_inserts (trace out)
  = [ {| bi_title := lit "Refund"; bi_amount := minus_five; bi_type := income;
         bi_currency := lit "USD"; bi_user_id := lit "alice" |} ] /\
  num_geb minus_five pos_zero = false /\
  num_ltb minus_five pos_zero = true.
Proof. repeat split. Qed.

(** C7, as stated, fails: on the edit-budget-item screen a read that
    answers with an error, be it for an identifier that is not in the store
    or because the network is down, ends with the "Item not found" text on
    screen; no message is raised and no navigation is scheduled. *)
Lemma edit_budget_item_missing_row_stays :
  let missing := run Store.world
                   (EditBudgetItem.fetchItem (lit "999") Samples.edit_item_mounting)
                   Store.empty in
  let offline := run Offline.world
                   (EditBudgetItem.fetchItem (lit "7") Samples.edit_item_mounting)
                   tt in
  ~ succeeds Store.world Store.empty (select_budget_item_single (lit "999")) /\
  trace missing = [Net (select_budget_item_single (lit "999"))] /\
  EditBudgetItem.render (result missing) = view_not_found (lit "Item not found") /\
  ~ succeeds Offline.world tt (select_budget_item_single (lit "7")) /\
  trace offline = [Net (select_budget_item_single (lit "7"))] /\
  EditBudgetItem.render (result offline) = view_not_found (lit "Item not found").
Proof. repeat split; discriminate. Qed.

(** C8, as stated, fails: on the edit-task screen Save sends the update of
    a task whose title is empty and, the update having succeeded, navigates
    back at once, with no message and no timer. *)
Lemma edit_task_save_unchecked_and_immediate :
  let out := run Store.world
               (EditTask.handleSave (lit "3") Samples.edit_task_cleared)
               Store.empty in
  trace out =
  [ Net (update_task {| tp_title := Some [];
                        tp_completed := Some false;
                        tp_category := Some (lit "Work") |} (lit "3"));
    Out router_back ].
Proof. reflexivity. Qed.

Lemma jsstring_eqb_refl a : jsstring_eqb a a = true.
Proof. now apply jsstring_eqb_eq. Qed.

(** C9. For a signed-in user, creating a budget item from the amount text
    ["42.50"] with type outcome inserts the amount 42.5 ([parseFloat] of the
    text) and the type outcome, and the next read of the collection returns
    that item first, with amount 42.5 and type outcome. *)
Theorem budget_item_round_trip (s : Store.state) (u : User)
  (st : AddBudgetScreen.State) (screen : BudgetScreen.State) :
  Store.session s = Some u ->
  AddBudgetScreen.titleMissing st = false ->
  AddBudgetScreen.amount st = lit "42.50" ->
  AddBudgetScreen.type st = outcome ->
  let created := run Store.world (AddBudgetScreen.handleAddBudgetItem st) s in
  let read := run Store.world (BudgetScreen.fetchBudgetItems screen)
                (world_after created) in
  (exists row, budget_inserts (trace created) = [row] /\
               bi_amount row = forty_two_and_a_half /\ bi_type row = outcome) /\
  (exists it rest,
     BudgetScreen.items (result read) = it :: rest /\
     item_title it = AddBudgetScreen.title st /\
     item_amount it = forty_two_and_a_half /\
     item_type it = outcome).
Proof.
  intros Hs Ht Ha Hty created read. subst created read.
  rewrite run_handleAddBudgetItem. cbv zeta. rewrite Ht.
  assert (V : AddBudgetScreen.amountInvalid st = false)
    by (unfold AddBudgetScreen.amountInvalid; now rewrite Ha).
  rewrite V. cbn [remote Store.world Store.respond]. rewrite Hs. cbn.
  split.
  - eexists. split; [reflexivity|]. unfold budget_row. cbn. rewrite Ha, Hty.
    now split.
  - unfold Store.visible. cbn. rewrite Hs. cbn.
    unfold Store.owned_by at 1. cbn. rewrite jsstring_eqb_refl. cbn.
    do 2 eexists. split; [reflexivity|]. cbn. rewrite Ha, Hty. now repeat split.
Qed.

Lemma budget_item_round_trip_witness :
  exists it rest,
    BudgetScreen.items
      (result
         (run Store.world (BudgetScreen.fetchBudgetItems Samples.budget_screen_empty)
            (world_after
               (run Store.world
                  (AddBudgetScreen.handleAddBudgetItem
                     (Samples.add_budget_form "Lunch" "42.50" outcome))
                  Store.empty)))) = it :: rest /\
    item_title it = lit "Lunch" /\
    item_amount it = forty_two_and_a_half /\
    item_type it = outcome.
Proof.
  apply (@budget_item_round_trip Store.empty Store.alice
           (Samples.add_budget_form "Lunch" "42.50" outcome)
           Samples.budget_screen_empty); reflexivity.
Defined.

(** ** The list screens against the store and off line *)

Example toggle_then_refetch :
  let out := run Store.world
               (TaskList.toggleTaskCompletion (lit "1") false Samples.task_list_two)
               Samples.store_two in
  network (trace out)
  = [Net (update_task (completed_only true) (lit "1")); Net select_tasks] /\
  map (fun t => (task_id t, task_completed t)) (TaskList.tasks (result out))
  = [(lit "1", true); (lit "2", true)].
Proof. split; reflexivity. Qed.

Example delete_then_read :
  let out := run Store.world (TaskList.deleteTask (lit "1") Samples.task_list_two)
               Samples.store_two in
  trace out = [Net (delete_task (lit "1"))] /\
  TaskList.tasks (result out) = [Samples.task_b] /\
  Store.visible (world_after out) (Store.task_rows (world_after out))
  = [Samples.task_b].
Proof. repeat split. Qed.

Example delete_off_line :
  let out := run Offline.world (TaskList.deleteTask (lit "1") Samples.task_list_two) tt in
  result out = Samples.task_list_two /\
  trace out = [Net (delete_task (lit "1"));
               Out (console_error (lit "Error deleting task:"))].
Proof. split; reflexivity. Qed.

Example toggle_off_line :
  let out := run Offline.world
               (BudgetScreen.toggleItemType (lit "7") outcome Samples.budget_screen_empty)
               tt in
  result out = Samples.budget_screen_empty /\
  trace out = [Net (update_budget_item (type_only income) (lit "7"))].
Proof. split; reflexivity. Qed.

(** ** The general statements at concrete runs *)

Lemma list_screens_delete_and_toggle_witness :
  let out := run Store.world (TaskList.deleteTask (lit "1") Samples.task_list_two)
               Samples.store_two in
  removes_exactly task_id (lit "1") (TaskList.tasks Samples.task_list_two)
    (TaskList.tasks (result out)) /\
  TaskList.tasks (result out) = [Samples.task_b].
Proof.
  destruct (list_screens_delete_and_toggle Store.world Samples.store_two) as [H _].
  destruct (H (lit "1") Samples.task_list_two) as (_ & Hs & _).
  split; [apply Hs|]; reflexivity.
Defined.

Lemma budget_writes_carry_the_form_amount_witness :
  bi_amount {| bi_title := lit "Refund"; bi_amount := minus_five; bi_type := income;
               bi_currency := lit "USD"; bi_user_id := lit "alice" |}
  = parseFloat (lit "-5").
Proof.
  destruct (budget_writes_carry_the_form_amount Store.world Store.empty) as [H _].
  apply (H (Samples.add_budget_form "Refund" "-5" income)).
  left. reflexivity.
Defined.

Lemma edit_screens_activation_witness :
  outputs (trace (run Store.world
                    (EditBudgetItem.fetchItem (lit "999") Samples.edit_item_mounting)
                    Store.empty)) = [].
Proof.
  destruct (edit_screens_activation Store.world Store.empty
              (fun _ => lit "0") (lit "999")) as (_ & _ & H).
  destruct (H Samples.edit_item_mounting) as [_ Hf].
  apply Hf. discriminate.
Defined.

Lemma edit_screens_save_witness :
  outputs (trace (run Store.world
                    (EditTask.handleSave (lit "3") Samples.edit_task_cleared)
                    Store.empty)) = [router_back] /\
  trace (run Store.world
           (EditBudgetItem.handleSave (lit "7") Samples.edit_item_loaded)
           Store.empty)
  = [ Net (update_budget_item (save_patch Samples.lunch) (lit "7"));
      Sto (lit "currencyPreference") (lit "USD");
      Out (router_replace (lit "/(tabs)")) ].
Proof.
  destruct (edit_screens_save Store.world Store.empty (lit "3")) as (_ & H & _).
  destruct (edit_screens_save Store.world Store.empty (lit "7")) as (_ & _ & H').
  split.
  - destruct (H Samples.edit_task_cleared Samples.untitled eq_refl) as (_ & _ & Hs & _).
    apply Hs. reflexivity.
  - destruct (H' Samples.edit_item_loaded Samples.lunch eq_refl) as (_ & _ & Hs & _).
    apply Hs. reflexivity.
Defined.

(* ===================================================================== *)
(** * Part II, continued: the rest of the screens                         *)
(* ===================================================================== *)

(** ** Days remaining *)

Section RenderFacts.
Variable Date_getTime : jsstring -> option Z.
Variable now : Z.

Lemma ceil_div_eq x d n : 0 < d -> (ceil_div x d = n <-> (n - 1) * d < x <= n * d).
Proof.
  intros Hd.
  pose proof (ceil_div_spec x n Hd) as A.
  pose proof (ceil_div_spec x (n - 1) Hd) as B.
  split; intros H.
  - split.
    + destruct (Z_lt_le_dec ((n - 1) * d) x) as [L|L]; [exact L|].
      apply B in L. lia.
    + apply A. lia.
  - destruct H as [L U]. apply A in U.
    assert (~ ceil_div x d <= n - 1) by (intros C; apply B in C; lia). lia.
Qed.

(** X2. The days remaining of a deadline are [n] exactly when the deadline
    is a date that lies more than [n - 1] and at most [n] whole days after
    the clock reading; they are [NaN] exactly when the text is not a date. *)
Theorem getDaysRemaining_window d :
  (forall n,
     TaskList.getDaysRemaining Date_getTime now d = Some n <->
     exists due, Date_getTime d = Some due /\
                 (n - 1) * msPerDay < due - now <= n * msPerDay) /\
  (TaskList.getDaysRemaining Date_getTime now d = None <-> Date_getTime d = None).
Proof.
  unfold TaskList.getDaysRemaining. destruct (Date_getTime d) as [due|]; split.
  - intros n. split.
    + intros H. injection H as H. exists due. split; [reflexivity|].
      now apply ceil_div_eq.
    + intros (due' & E & H). injection E as <-. f_equal.
      now apply ceil_div_eq.
  - split; discriminate.
  - intros n. split; [discriminate|]. intros (due & E & _). discriminate.
  - split; reflexivity.
Qed.

End RenderFacts.

(** ** The urgent mark against the clock *)

Lemma ceil_div_mono x y d : 0 < d -> x <= y -> ceil_div x d <= ceil_div y d.
Proof.
  intros Hd H. apply ceil_div_spec; [exact Hd|].
  assert (L : ceil_div y d <= ceil_div y d) by lia.
  apply ceil_div_spec in L; [lia | exact Hd].
Qed.

Lemma msPerDay_pos : 0 < msPerDay.
Proof. reflexivity. Qed.

Section ClockFacts.
Variable Date_getTime : jsstring -> option Z.
Variable clock : nat -> Z.

Local Notation "'urgentFilter'" := (TimedTaskList.urgentFilter Date_getTime clock).
Local Notation "'ongoingFilter'" := (TimedTaskList.ongoingFilter Date_getTime clock).

(** With a clock that stands still the sections are those of one reading. *)
Lemma filter_timed_steady (A : Type) (f : A -> TimedTaskList.timed bool) (g : A -> bool) :
  (forall x n, fst (f x n) = g x) ->
  forall l n, fst (TimedTaskList.filter_timed f l n) = filter g l.
Proof.
  intros H l. induction l as [|x l IH]; intros n; [reflexivity|].
  cbn. specialize (H x n). destruct (f x n) as [keep n1]. cbn in H. subst keep.
  specialize (IH n1). destruct (TimedTaskList.filter_timed f l n1) as [kept n2].
  cbn in *. now rewrite IH.
Qed.

Section Advancing.
Variable A : Type.
Variable f : A -> TimedTaskList.timed bool.
Hypothesis advancing : forall x n, (n <= snd (f x n))%nat.

Lemma filter_timed_advancing l : forall n,
  (n <= snd (TimedTaskList.filter_timed f l n))%nat.
Proof.
  induction l as [|x l IH]; intros n; [cbn; lia|].
  cbn. pose proof (advancing x n) as Hx. destruct (f x n) as [keep n1].
  specialize (IH n1). destruct (TimedTaskList.filter_timed f l n1) as [kept n2].
  cbn in *. lia.
Qed.

(** A kept element passed the test at one of the readings of the filter. *)
Lemma filter_timed_In l : forall n x,
  In x (fst (TimedTaskList.filter_timed f l n)) ->
  In x l /\
  exists k, (n <= k)%nat /\
            (k <= snd (TimedTaskList.filter_timed f l n))%nat /\
            fst (f x k) = true.
Proof.
  induction l as [|a l IH]; intros n x; [intros []|].
  cbn. pose proof (advancing a n) as Ha.
  destruct (f a n) as [keep n1] eqn:Ea.
  pose proof (filter_timed_advancing l n1) as Hl. specialize (IH n1 x).
  destruct (TimedTaskList.filter_timed f l n1) as [kept n2]. cbn in *.
  assert (R : In x kept ->
              (a = x \/ In x l) /\
              exists k, (n <= k)%nat /\ (k <= n2)%nat /\ fst (f x k) = true).
  { intros H. destruct (IH H) as (Hin & k & K1 & K2 & K3).
    split; [now right|]. exists k. repeat split; [lia | lia | exact K3]. }
  destruct keep; [|exact R].
  intros [<-|H]; [|now apply R].
  split; [now left|]. exists n. rewrite Ea. repeat split; cbn; lia.
Qed.

End Advancing.

Lemma urgentFilter_advancing x n : (n <= snd (urgentFilter x n))%nat.
Proof.
  unfold TimedTaskList.urgentFilter, TimedTaskList.getDaysRemaining.
  destruct (task_deadline x) as [d|]; [destruct (truthy_string d)|]; cbn; lia.
Qed.

Lemma ongoingFilter_advancing x n : (n <= snd (ongoingFilter x n))%nat.
Proof.
  unfold TimedTaskList.ongoingFilter, TimedTaskList.getDaysRemaining.
  destruct (task_deadline x) as [d|]; [destruct (truthy_string d)|]; cbn; lia.
Qed.

Lemma urgentFilter_true x k :
  fst (urgentFilter x k) = true ->
  exists d due,
    task_deadline x = Some d /\ truthy_string d = true /\
    Date_getTime d = Some due /\ ceil_div (due - clock k) msPerDay <= 3.
Proof.
  unfold TimedTaskList.urgentFilter, TimedTaskList.getDaysRemaining,
    TaskList.getDaysRemaining.
  destruct (task_deadline x) as [d|]; [|discriminate].
  destruct (truthy_string d) eqn:T; [|discriminate].
  destruct (Date_getTime d) as [due|] eqn:D; [|discriminate].
  cbn. intros H. apply Z.leb_le in H. exists d, due. now repeat split.
Qed.

Lemma ongoingFilter_true x k d :
  fst (ongoingFilter x k) = true ->
  task_deadline x = Some d -> truthy_string d = true ->
  exists due, Date_getTime d = Some due /\ 3 < ceil_div (due - clock k) msPerDay.
Proof.
  unfold TimedTaskList.ongoingFilter, TimedTaskList.getDaysRemaining,
    TaskList.getDaysRemaining.
  intros H E T. rewrite E, T in H. cbn in H.
  destruct (Date_getTime d) as [due|]; [|discriminate].
  cbn in H. exists due. split; [reflexivity|].
  rewrite Z.gtb_ltb in H. now apply Z.ltb_lt in H.
Qed.

Lemma taskSections_steady_clock now tasks n :
  (forall i, clock i = now) ->
  fst (TimedTaskList.taskSections Date_getTime clock tasks n)
  = TaskList.taskSections Date_getTime now tasks.
Proof.
  intros Hc. unfold TimedTaskList.taskSections, TaskList.taskSections.
  pose proof (@filter_timed_steady _ urgentFilter
                (TaskList.isUrgentDeadline Date_getTime now)) as U.
  pose proof (@filter_timed_steady _ ongoingFilter
                (TaskList.isOngoingDeadline Date_getTime now)) as O.
  assert (HU : forall x k, fst (urgentFilter x k)
                           = TaskList.isUrgentDeadline Date_getTime now x).
  { intros x k. unfold TimedTaskList.urgentFilter, TaskList.isUrgentDeadline,
      TimedTaskList.getDaysRemaining.
    destruct (task_deadline x) as [d|]; [|reflexivity].
    destruct (truthy_string d); cbn; [now rewrite Hc | reflexivity]. }
  assert (HO : forall x k, fst (ongoingFilter x k)
                           = TaskList.isOngoingDeadline Date_getTime now x).
  { intros x k. unfold TimedTaskList.ongoingFilter, TaskList.isOngoingDeadline,
      TimedTaskList.getDaysRemaining.
    destruct (task_deadline x) as [d|]; [|reflexivity].
    destruct (truthy_string d); cbn; [now rewrite Hc | reflexivity]. }
  specialize (U HU (TaskList.ongoingTasks tasks) n).
  destruct (TimedTaskList.filter_timed urgentFilter (TaskList.ongoingTasks tasks) n)
    as [urgent n1].
  specialize (O HO (TaskList.ongoingTasks tasks) n1).
  destruct (TimedTaskList.filter_timed ongoingFilter (TaskList.ongoingTasks tasks) n1)
    as [ongoing n2].
  cbn in *. now rewrite U, O.
Qed.

(** X1. Every call of [getDaysRemaining] reads the clock anew.  With a clock
    that never runs backwards: a task listed under Urgent is one of the
    incomplete tasks in memory and carries the urgent mark of
    [renderTaskItem] at every reading made after the sections were derived;
    no task is listed under both Urgent and Ongoing; and a task listed under
    Done never carries the mark. *)
Theorem urgent_rows_carry_the_urgent_mark tasks n :
  (forall i j, (i <= j)%nat -> clock i <= clock j) ->
  let derived := TimedTaskList.taskSections Date_getTime clock tasks n in
  exists urgent ongoing done,
    fst derived
    = [ {| section_title := lit "Urgent"; section_data := urgent |};
        {| section_title := lit "Ongoing"; section_data := ongoing |};
        {| section_title := lit "Done"; section_data := done |} ] /\
    (forall item,
       In item urgent ->
       In item tasks /\ task_completed item = false /\
       forall m, (snd derived <= m)%nat ->
                 fst (TimedTaskList.isUrgent Date_getTime clock item m) = true) /\
    (forall item, In item urgent -> ~ In item ongoing) /\
    (forall item m,
       In item done ->
       fst (TimedTaskList.isUrgent Date_getTime clock item m) = false).
Proof.
  intros mono. cbv zeta. unfold TimedTaskList.taskSections.
  pose proof (@filter_timed_In _ urgentFilter urgentFilter_advancing
                (TaskList.ongoingTasks tasks) n) as U.
  pose proof (filter_timed_advancing ongoingFilter ongoingFilter_advancing
                (TaskList.ongoingTasks tasks)) as A.
  destruct (TimedTaskList.filter_timed urgentFilter (TaskList.ongoingTasks tasks) n)
    as [urgent n1].
  pose proof (@filter_timed_In _ ongoingFilter ongoingFilter_advancing
                (TaskList.ongoingTasks tasks) n1) as O.
  specialize (A n1).
  destruct (TimedTaskList.filter_timed ongoingFilter (TaskList.ongoingTasks tasks) n1)
    as [ongoing n2].
  cbn [fst snd] in *.
  exists urgent, ongoing, (TaskList.completedTasks tasks).
  split; [reflexivity|]. split; [|split].
  - intros item H. destruct (U item H) as (Hin & k & K1 & K2 & K3).
    apply filter_In in Hin as [Hin Hc]. apply negb_true_iff in Hc.
    split; [exact Hin|]. split; [exact Hc|]. intros m Hm.
    destruct (urgentFilter_true _ _ K3) as (d & due & E & T & D & L).
    unfold TimedTaskList.isUrgent, TimedTaskList.getDaysRemaining,
      TaskList.getDaysRemaining.
    rewrite E, T, D, Hc. cbn -[msPerDay ceil_div]. rewrite andb_true_r.
    apply Z.leb_le.
    assert (clock k <= clock m) by (apply mono; lia).
    pose proof (@ceil_div_mono (due - clock m) (due - clock k) msPerDay msPerDay_pos).
    lia.
  - intros item H H'.
    destruct (U item H) as (_ & k & K1 & K2 & K3).
    destruct (O item H') as (_ & k' & K1' & K2' & K3').
    destruct (urgentFilter_true _ _ K3) as (d & due & E & T & D & L).
    destruct (ongoingFilter_true _ _ K3' E T) as (due' & D' & L').
    rewrite D in D'. injection D' as <-.
    assert (clock k <= clock k') by (apply mono; lia).
    pose proof (@ceil_div_mono (due - clock k') (due - clock k) msPerDay msPerDay_pos).
    lia.
  - intros item m H. apply filter_In in H as [_ Hc].
    unfold TimedTaskList.isUrgent, TimedTaskList.getDaysRemaining.
    destruct (task_deadline item) as [d|]; [|reflexivity].
    destruct (truthy_string d); [|reflexivity].
    cbn. rewrite Hc. apply andb_false_r.
Qed.

End ClockFacts.

(** A task due on 6 January 2025, and a clock that starts on 4 January and
    advances by a millisecond at each reading. *)
Lemma urgent_rows_carry_the_urgent_mark_witness :
  let task := {| task_id := lit "5"; task_title := lit "File taxes";
                 task_description := None; task_completed := false;
                 task_category := None; task_deadline := Some (lit "2025-01-06");
                 task_created_at := lit "1" |} in
  let clock := fun n => 1736000000000 + Z.of_nat n in
  fst (TimedTaskList.isUrgent Date_parse clock task 7%nat) = true.
Proof.
  intros task clock.
  destruct (@urgent_rows_carry_the_urgent_mark Date_parse clock [task] 0%nat)
    as (urgent & ongoing & done & E & H & _).
  - intros i j L. unfold clock. lia.
  - vm_compute in E. injection E as <- <- <-.
    destruct (H task) as (_ & _ & Hm); [left; reflexivity|].
    apply Hm. vm_compute. lia.
Defined.

(** The mark does not imply the section: a task whose deadline comes within
    three days between the derivation of the sections and the drawing of its
    row is listed under Ongoing and drawn as urgent; one whose deadline
    comes within three days between the two filters is listed nowhere. *)
Example urgent_mark_under_ongoing :
  let task := {| task_id := lit "5"; task_title := lit "File taxes";
                 task_description := None; task_completed := false;
                 task_category := None; task_deadline := Some (lit "2025-01-06");
                 task_created_at := lit "1" |} in
  let boundary := 1736121600000 - 3 * msPerDay in
  let clock := fun n => match n with
                        | 0%nat | 1%nat => boundary - 1
                        | _ => boundary
                        end in
  TimedTaskList.taskSections Date_parse clock [task] 0%nat
  = ([ {| section_title := lit "Urgent"; section_data := [] |};
       {| section_title := lit "Ongoing"; section_data := [task] |};
       {| section_title := lit "Done"; section_data := [] |} ], 2%nat) /\
  fst (TimedTaskList.isUrgent Date_parse clock task 2%nat) = true.
Proof. split; vm_compute; reflexivity. Qed.

Example task_between_the_filters :
  let task := {| task_id := lit "5"; task_title := lit "File taxes";
                 task_description := None; task_completed := false;
                 task_category := None; task_deadline := Some (lit "2025-01-06");
                 task_created_at := lit "1" |} in
  let boundary := 1736121600000 - 3 * msPerDay in
  let clock := fun n => match n with
                        | 0%nat => boundary - 1
                        | _ => boundary
                        end in
  fst (TimedTaskList.taskSections Date_parse clock [task] 0%nat)
  = [ {| section_title := lit "Urgent"; section_data := [] |};
      {| section_title := lit "Ongoing"; section_data := [] |};
      {| section_title := lit "Done"; section_data := [] |} ].
Proof. vm_compute. reflexivity. Qed.

(** ** The currency table *)

Lemma find_currency_some code c :
  find_currency code = Some c ->
  In c CURRENCIES /\ AddBudgetScreen.code c = code /\
  truthy_string (AddBudgetScreen.symbol c) = true.
Proof.
  unfold find_currency. intros H. apply find_some in H as [Hin Hc].
  apply jsstring_eqb_eq in Hc. repeat split; auto.
  simpl in Hin. repeat (destruct Hin as [<-|Hin]; [reflexivity|]). destruct Hin.
Qed.


(** ** Navigation to the edit screens *)

(** X4. [navigateToEdit] makes no network call: it pushes one route, whose
    pathname is ["/(tabs)//" ++ id] for a task and
    ["/(tabs)/edit-budget/" ++ id] for a budget item, with the theme of the
    screen as parameter; two pushes have the same pathname only for the same
    identifier and the same kind of row. *)
Theorem navigateToEdit_routes (W : XWorld) (w : xstate W) id kind st :
  xrun W (TaskListHandlers.navigateToEdit id kind st) w
  = (st, w,
     [Push (TaskListHandlers.editPathname id kind)
           [("theme"%string, theme_name (TaskList.isDark st))]]) /\
  TaskListHandlers.editPathname id TaskListHandlers.kind_task = lit "/(tabs)//" ++ id /\
  TaskListHandlers.editPathname id TaskListHandlers.kind_budget
  = lit "/(tabs)/edit-budget/" ++ id /\
  (forall id' kind',
     TaskListHandlers.editPathname id kind = TaskListHandlers.editPathname id' kind'
     <-> id = id' /\ kind = kind').
Proof.
  split; [reflexivity|]. split; [reflexivity|]. split; [reflexivity|].
  intros id' kind'. split.
  - destruct kind, kind'; cbn; intros H; injection H as H;
      try discriminate; auto.
  - intros [-> ->]. reflexivity.
Qed.

(** ** The type switch of the edit screens *)

(** X5. [toggleType] on either edit-budget screen changes the type and
    nothing else: on the screen with inline messages the type becomes the
    other one and the theme, the title, the amount, the loading flag and the
    two messages are as before; on the edit-budget-item screen the item in
    memory takes the other type with its identifier, title, amount, currency
    and creation time as before, the other fields of the screen are as
    before, and without an item nothing changes.  A second press restores
    the state, and Save after one press on the edit-budget-item screen
    writes the other type. *)
Theorem toggleType_flips_and_restores (W : World) (w : wstate W) :
  (forall st,
     let st' := EditBudgetScreenHandlers.toggleType st in
     EditBudgetScreen.type st' = other_type (EditBudgetScreen.type st) /\
     EditBudgetScreen.isDark st' = EditBudgetScreen.isDark st /\
     EditBudgetScreen.title st' = EditBudgetScreen.title st /\
     EditBudgetScreen.amount st' = EditBudgetScreen.amount st /\
     EditBudgetScreen.loading st' = EditBudgetScreen.loading st /\
     EditBudgetScreen.error_ st' = EditBudgetScreen.error_ st /\
     EditBudgetScreen.success st' = EditBudgetScreen.success st /\
     EditBudgetScreenHandlers.toggleType st' = st) /\
  (forall st,
     let st' := EditBudgetItemHandlers.toggleType st in
     EditBudgetItem.item st'
     = match EditBudgetItem.item st with
       | Some it =>
           Some {| item_id := item_id it; item_title := item_title it;
                   item_amount := item_amount it;
                   item_type := other_type (item_type it);
                   item_currency := item_currency it;
                   item_created_at := item_created_at it |}
       | None => None
       end /\
     EditBudgetItem.loading st' = EditBudgetItem.loading st /\
     EditBudgetItem.isDark st' = EditBudgetItem.isDark st /\
     EditBudgetItem.showCurrencyPicker st' = EditBudgetItem.showCurrencyPicker st /\
     EditBudgetItemHandlers.toggleType st' = st) /\
  (forall id st it,
     EditBudgetItem.item st = Some it ->
     budget_updates
       (trace (run W (EditBudgetItem.handleSave id (EditBudgetItemHandlers.toggleType st)) w))
     = [ ({| bp_title := Some (item_title it);
             bp_amount := Some (item_amount it);
             bp_type := Some (other_type (item_type it));
             bp_currency := Some (item_currency it) |}, id) ]).
Proof.
  repeat apply conj.
  - intros [d t a ty l e s]. cbv zeta. destruct ty; now repeat split.
  - intros [[[i t a ty c ca]|] l d s]; cbv zeta; [destruct ty|]; now repeat split.
  - intros id st it E. rewrite run_EditBudgetItem_handleSave.
    unfold EditBudgetItemHandlers.toggleType. rewrite E. cbn.
    destruct (remote W _ w) as [rep w1]; cbn;
      destruct (error rep); cbn;
      [ destruct (item_type it); reflexivity
      | destruct (storage_set W _ _ w1) as [ok w2]; cbn;
        destruct (item_type it); reflexivity ].
Qed.

Lemma toggleType_flips_and_restores_witness :
  budget_updates
    (trace (run Store.world
              (EditBudgetItem.handleSave (lit "7")
                 (EditBudgetItemHandlers.toggleType Samples.edit_item_loaded))
              Store.empty))
  = [ ({| bp_title := Some (lit "Lunch");
          bp_amount := Some forty_two_and_a_half;
          bp_type := Some income;
          bp_currency := Some (lit "USD") |}, lit "7") ].
Proof.
  destruct (toggleType_flips_and_restores Store.world Store.empty) as (_ & _ & H).
  apply (H (lit "7") Samples.edit_item_loaded Samples.lunch). reflexivity.
Defined.

(** ** Delete on the edit-budget screen with inline messages *)

Section MoreEditFacts.
Variable W : World.
Variable w : wstate W.

(** X6. Delete on the edit-budget screen with inline messages sends one
    delete by the identifier whatever the form holds, with no check and no
    confirmation.  When it succeeds the screen shows "Item deleted
    successfully" and schedules the navigation back 1000 ms later; when it
    fails it shows "Failed to delete item", schedules only the clearing of
    that message and does not navigate.  Either way the fields of the form
    are kept and the loading flag is down again. *)
Theorem handleDelete_contract id st :
  let out := run W (EditBudgetScreenHandlers.handleDelete id st) w in
  network (trace out) = [Net (delete_budget_item id)] /\
  EditBudgetScreen.title (result out) = EditBudgetScreen.title st /\
  EditBudgetScreen.amount (result out) = EditBudgetScreen.amount st /\
  EditBudgetScreen.type (result out) = EditBudgetScreen.type st /\
  EditBudgetScreen.loading (result out) = false /\
  (succeeds W w (delete_budget_item id) ->
     EditBudgetScreen.success (result out) = lit "Item deleted successfully" /\
     EditBudgetScreen.error_ (result out) = EditBudgetScreen.error_ st /\
     outputs (trace out) = [setTimeout cb_router_back 1000]) /\
  (~ succeeds W w (delete_budget_item id) ->
     EditBudgetScreen.error_ (result out) = lit "Failed to delete item" /\
     EditBudgetScreen.success (result out) = EditBudgetScreen.success st /\
     outputs (trace out)
     = [console_error (lit "Error deleting item:"); setTimeout cb_clear_error 3000]).
Proof.
  unfold succeeds, EditBudgetScreenHandlers.handleDelete. cbn. answer.
  destruct (error rep); cbn; repeat apply conj; try reflexivity; intros H;
    try discriminate H; try (now elim H); now repeat split.
Qed.

Lemma revert_currency st it :
  EditBudgetItem.item st = Some it ->
  EditBudgetItem.setItem
    (Some (EditBudgetItemHandlers.with_currency (item_currency it) it)) st = st.
Proof.
  destruct st as [i l d s], it. cbn. intros ->. reflexivity.
Qed.

(** X7. A currency change on the edit-budget-item screen sends one partial
    update that names the currency alone.  When the update fails the state
    is the one from before the change, an error is logged and the preference
    is not written.  When it succeeds the item in memory carries the new
    code, its other fields and the other fields of the screen as before, and
    the code is written as the currency preference; nothing more happens
    when that write resolved, and its rejection is logged. *)
Theorem handleCurrencyChange_reverts_on_failure id currencyCode st it :
  EditBudgetItem.item st = Some it ->
  let upd := update_budget_item
               {| bp_title := None; bp_amount := None; bp_type := None;
                  bp_currency := Some currencyCode |} id in
  let out := run W (EditBudgetItemHandlers.handleCurrencyChange id currencyCode st) w in
  let stored :=
    fst (storage_set W (lit "currencyPreference") currencyCode (snd (remote W upd w))) in
  network (trace out) = [Net upd] /\
  (~ succeeds W w upd ->
     result out = st /\
     trace out = [Net upd; Out (console_error (lit "Error updating currency:"))]) /\
  (succeeds W w upd ->
     EditBudgetItem.item (result out)
     = Some {| item_id := item_id it; item_title := item_title it;
               item_amount := item_amount it; item_type := item_type it;
               item_currency := currencyCode;
               item_created_at := item_created_at it |} /\
     EditBudgetItem.loading (result out) = EditBudgetItem.loading st /\
     EditBudgetItem.isDark (result out) = EditBudgetItem.isDark st /\
     EditBudgetItem.showCurrencyPicker (result out)
     = EditBudgetItem.showCurrencyPicker st /\
     trace out
     = Net upd :: Sto (lit "currencyPreference") currencyCode
       :: (if stored then []
           else [Out (console_error (lit "Failed to update currency:"))])).
Proof.
  intros E. unfold succeeds, EditBudgetItemHandlers.handleCurrencyChange.
  rewrite E. cbn. answer. destruct (error rep); cbn.
  - split; [reflexivity|]. split; intros H; [|discriminate H].
    split; [|reflexivity].
    assert (R := revert_currency st E). destruct st; cbn in *. exact R.
  - destruct (storage_set W _ _ w0) as [[|] w1]; cbn;
      (split; [reflexivity|]); (split; intros H; [now elim H|]);
      now repeat split.
Qed.

(** X8. A theme switch on the task list, the add-task or the budget screen
    makes no network call: the theme in memory becomes the opposite one,
    every other field of the screen is as before, and the new theme,
    ["dark"] or ["light"], is written under the key ["themePreference"].
    When the write rejects the theme in memory stays inverted; the task list
    and the add-task screen then log the failure, and log nothing when the
    write resolved; the budget screen logs nothing either way. *)
Theorem toggleTheme_inverts_and_persists :
  (forall st,
     let out := run W (TaskListHandlers.toggleTheme st) w in
     let written := if TaskList.isDark st then lit "light" else lit "dark" in
     let stored := fst (storage_set W (lit "themePreference") written w) in
     TaskList.isDark (result out) = negb (TaskList.isDark st) /\
     TaskList.activeTab (result out) = TaskList.activeTab st /\
     TaskList.tasks (result out) = TaskList.tasks st /\
     TaskList.budgetItems (result out) = TaskList.budgetItems st /\
     trace out
     = Sto (lit "themePreference") written
       :: (if stored then []
           else [Out (console_error (lit "Failed to save theme preference"))])) /\
  (forall st,
     let out := run W (AddTaskHandlers.toggleTheme st) w in
     let written := if AddTaskScreen.isDark st then lit "light" else lit "dark" in
     let stored := fst (storage_set W (lit "themePreference") written w) in
     AddTaskScreen.isDark (result out) = negb (AddTaskScreen.isDark st) /\
     AddTaskScreen.title (result out) = AddTaskScreen.title st /\
     AddTaskScreen.category (result out) = AddTaskScreen.category st /\
     AddTaskScreen.optional (result out) = AddTaskScreen.optional st /\
     AddTaskScreen.deadline (result out) = AddTaskScreen.deadline st /\
     AddTaskScreen.loading (result out) = AddTaskScreen.loading st /\
     trace out
     = Sto (lit "themePreference") written
       :: (if stored then []
           else [Out (console_error (lit "Failed to save theme preference"))])) /\
  (forall st,
     let out := run W (BudgetScreenHandlers.toggleTheme st) w in
     let written := if BudgetScreen.isDark st then lit "light" else lit "dark" in
     BudgetScreen.isDark (result out) = negb (BudgetScreen.isDark st) /\
     BudgetScreen.items (result out) = BudgetScreen.items st /\
     BudgetScreen.userCurrency (result out) = BudgetScreen.userCurrency st /\
     trace out = [Sto (lit "themePreference") written]).
Proof.
  repeat apply conj; intros st; cbv zeta.
  - unfold TaskListHandlers.toggleTheme, theme_name. cbn.
    destruct (TaskList.isDark st); cbn;
      destruct (storage_set W _ _ w) as [[|] w1]; cbn; now repeat split.
  - unfold AddTaskHandlers.toggleTheme, theme_name. cbn.
    destruct (AddTaskScreen.isDark st); cbn;
      destruct (storage_set W _ _ w) as [[|] w1]; cbn; now repeat split.
  - unfold BudgetScreenHandlers.toggleTheme, theme_name. cbn.
    destruct (BudgetScreen.isDark st); cbn;
      destruct (storage_set W _ _ w) as [ok w1]; cbn; now repeat split.
Qed.

(** X9. A change of the display currency on the budget screen keeps the
    chosen code in memory and writes it under ["currencyPreference"]; the
    items are fetched again, by one select, only after the write resolved,
    and they then become what the select returned, or stay when it failed. *)
Theorem updateCurrency_writes_then_refetches currency st :
  let out := run W (BudgetScreenHandlers.updateCurrency currency st) w in
  let '(ok, w1) := storage_set W (lit "currencyPreference") currency w in
  BudgetScreen.userCurrency (result out) = currency /\
  BudgetScreen.isDark (result out) = BudgetScreen.isDark st /\
  if ok then
    trace out = Sto (lit "currencyPreference") currency
                :: trace (run W (BudgetScreen.fetchBudgetItems st) w1) /\
    network (trace out) = [Net select_budget_items] /\
    BudgetScreen.items (result out)
    = (let fetched := fst (remote W select_budget_items w1) in
       match error fetched with
       | None => data_or_empty fetched
       | Some _ => BudgetScreen.items st
       end)
  else
    trace out = [Sto (lit "currencyPreference") currency] /\
    BudgetScreen.items (result out) = BudgetScreen.items st.
Proof.
  unfold BudgetScreenHandlers.updateCurrency, BudgetScreen.fetchBudgetItems. cbn.
  destruct (storage_set W _ _ w) as [[|] w1]; cbn; [|now repeat split].
  destruct (remote W select_budget_items w1) as [rep w2]; cbn.
  destruct (error rep); cbn; now repeat split.
Qed.

(** X10. On the task list screen a press on the tab that is already active
    does nothing; a press on the other tab makes it the active one and
    fetches the collection of that tab alone, by one select, the rows of the
    other collection staying as they were. *)
Theorem pressTab_fetches_the_active_collection st :
  run W (TaskListHandlers.pressTab (TaskList.activeTab st) st) w = (st, w, []) /\
  (TaskList.activeTab st = TaskList.tab_tasks ->
   let out := run W (TaskListHandlers.pressTab TaskList.tab_budget st) w in
   network (trace out) = [Net select_budget_items] /\
   TaskList.activeTab (result out) = TaskList.tab_budget /\
   TaskList.tasks (result out) = TaskList.tasks st) /\
  (TaskList.activeTab st = TaskList.tab_budget ->
   let out := run W (TaskListHandlers.pressTab TaskList.tab_tasks st) w in
   network (trace out) = [Net select_tasks] /\
   TaskList.activeTab (result out) = TaskList.tab_tasks /\
   TaskList.budgetItems (result out) = TaskList.budgetItems st).
Proof.
  unfold TaskListHandlers.pressTab. repeat apply conj.
  - destruct (TaskList.activeTab st); reflexivity.
  - intros E. rewrite E. cbn. answer. destruct (error rep); cbn; now repeat split.
  - intros E. rewrite E. cbn. answer. destruct (error rep); cbn; now repeat split.
Qed.

End MoreEditFacts.

Lemma handleCurrencyChange_reverts_on_failure_witness :
  result (run Offline.world
            (EditBudgetItemHandlers.handleCurrencyChange (lit "7") (lit "EUR")
               Samples.edit_item_loaded) tt)
  = Samples.edit_item_loaded /\
  trace (run Store.world
           (EditBudgetItemHandlers.handleCurrencyChange (lit "7") (lit "EUR")
              Samples.edit_item_loaded) Store.empty)
  = [ Net (update_budget_item
             {| bp_title := None; bp_amount := None; bp_type := None;
                bp_currency := Some (lit "EUR") |} (lit "7"));
      Sto (lit "currencyPreference") (lit "EUR") ].
Proof.
  split.
  - destruct (@handleCurrencyChange_reverts_on_failure Offline.world tt
                (lit "7") (lit "EUR") Samples.edit_item_loaded Samples.lunch eq_refl)
      as (_ & H & _).
    apply H. discriminate.
  - destruct (@handleCurrencyChange_reverts_on_failure Store.world Store.empty
                (lit "7") (lit "EUR") Samples.edit_item_loaded Samples.lunch eq_refl)
      as (_ & _ & H).
    apply H. reflexivity.
Defined.

Lemma pressTab_fetches_the_active_collection_witness :
  network (trace (run Store.world
                    (TaskListHandlers.pressTab TaskList.tab_budget Samples.task_list_two)
                    Samples.store_two))
  = [Net select_budget_items].
Proof.
  destruct (pressTab_fetches_the_active_collection Store.world Samples.store_two
              Samples.task_list_two) as (_ & H & _).
  apply H. reflexivity.
Defined.

(** ** Extended programs *)

Lemma xrun_lift (W : XWorld) (A : Type) (p : prog A) : forall w,
  xrun W (lift p) w
  = let '(a, w', tr) := run (base_of W) p w in (a, w', map Ev tr).
Proof.
  induction p as [a|X e k IH]; intros w; [reflexivity|].
  destruct e; cbn.
  - destruct (xremote W r w) as [x w1]. rewrite IH.
    destruct (run (base_of W) (k x) w1) as [[a w2] tr]. reflexivity.
  - destruct (xstorage_set W key value w) as [ok w1]. rewrite IH.
    destruct (run (base_of W) (k ok) w1) as [[a w2] tr]. reflexivity.
  - rewrite IH. destruct (run (base_of W) (k tt) w) as [[a w2] tr]. reflexivity.
Qed.

Lemma run_fetchBudgetItems_budget (W : World) (w : wstate W) st :
  run W (BudgetScreen.fetchBudgetItems st) w =
  let '(rep, w1) := remote W select_budget_items w in
  match error rep with
  | Some _ =>
      (st, w1, [Net select_budget_items; Out (console_error (lit "Error fetching items:"))])
  | None => (BudgetScreen.setItems (data_or_empty rep) st, w1, [Net select_budget_items])
  end.
Proof.
  unfold BudgetScreen.fetchBudgetItems. cbn. answer. destruct (error rep); reflexivity.
Qed.

Section AuthFacts.
Variable W : XWorld.
Variable w : xstate W.

(** X11. Signup sends a password to the backend only when
    [validatePassword] accepts it: otherwise there is no call at all, the
    hint is shown and the fields stay; in particular a password that is not
    ten code units long is never sent.  An accepted password is sent once,
    with the email as typed; the error message of the backend is shown
    verbatim and the screen stays, and without an error the screen is
    replaced by the login screen. *)
Theorem handleSignup_sends_only_accepted_passwords st :
  let out := xrun W (Signup.handleSignup st) w in
  (if SignupScreen.validatePassword (Signup.password st) then
     xnetwork (xtrace out) = [SignUp (Signup.email st) (Signup.password st)] /\
     Signup.loading (xresult out) = false /\
     match fst (xsign_up W (Signup.email st) (Signup.password st) w) with
     | Some message =>
         Signup.passwordError (xresult out) = message /\
         xtrace out = [SignUp (Signup.email st) (Signup.password st)]
     | None =>
         Signup.passwordError (xresult out) = [] /\
         xtrace out = [SignUp (Signup.email st) (Signup.password st);
                       Ev (Out (router_replace (lit "/(auth)/login")))]
     end
   else
     xtrace out = [] /\
     xresult out = Signup.setPasswordError Signup.passwordHint st) /\
  (length (Signup.password st) <> 10%nat -> xtrace out = []).
Proof.
  cbv zeta. unfold Signup.handleSignup.
  assert (L : length (Signup.password st) <> 10%nat ->
              SignupScreen.validatePassword (Signup.password st) = false).
  { intros H. rewrite validatePassword_accepts. unfold PasswordRule.accepts.
    apply Nat.eqb_neq in H. now rewrite H. }
  destruct (SignupScreen.validatePassword (Signup.password st)) eqn:V; cbn.
  - split; [|intros H; apply L in H; discriminate].
    destruct (xsign_up W _ _ w) as [[message|] w1]; cbn; now repeat split.
  - now repeat split.
Qed.

(** X12. Login checks nothing locally: whatever the two fields hold, empty
    ones included, they are sent in one sign-in call.  On an error its
    message is shown in an alert and the screen stays; without an error the
    screen is replaced by the tabs.  The fields are kept and the loading flag
    is down at the end. *)
Theorem handleLogin_always_calls st :
  let out := xrun W (LoginScreen.handleLogin st) w in
  xnetwork (xtrace out) = [SignIn (LoginScreen.email st) (LoginScreen.password st)] /\
  xresult out = LoginScreen.setLoading false st /\
  xtrace out
  = SignIn (LoginScreen.email st) (LoginScreen.password st)
    :: match fst (xsign_in W (LoginScreen.email st) (LoginScreen.password st) w) with
       | Some message => [Alert message]
       | None => [Ev (Out (router_replace (lit "/(tabs)")))]
       end.
Proof.
  cbv zeta. unfold LoginScreen.handleLogin. cbn.
  destruct (xsign_in W _ _ w) as [[message|] w1]; cbn; now repeat split.
Qed.

(** X13. Loading the theme preference makes one read of
    ["themePreference"] and no other call.  A value that is [null] or empty
    leaves the theme of the screen as it is, the value ["dark"] makes it
    dark, every other value makes it light, and a read that rejects is
    logged and leaves it as it is. *)
Theorem loadThemePreference_cases (S : Type) (setIsDark : bool -> S -> S) (st : S) :
  let out := xrun W (loadThemePreference setIsDark st) w in
  match fst (xstorage_get W (lit "themePreference") w) with
  | None =>
      xresult out = st /\
      xtrace out = [Get (lit "themePreference");
                    Ev (Out (console_error (lit "Failed to load theme preference")))]
  | Some None | Some (Some []) =>
      xresult out = st /\ xtrace out = [Get (lit "themePreference")]
  | Some (Some t) =>
      xresult out = setIsDark (jsstring_eqb t (lit "dark")) st /\
      xtrace out = [Get (lit "themePreference")]
  end.
Proof.
  cbv zeta. unfold loadThemePreference. cbn.
  destruct (xstorage_get W _ w) as [[[[|x t]|]|] w1]; cbn; now split.
Qed.

(** X14. What a theme switch writes, the theme loader reads back: on a
    device whose read of ["themePreference"] resolves to the value that
    [toggleTheme] writes for a theme, loading sets the theme of the screen
    to that theme. *)
Theorem theme_round_trip (S : Type) (setIsDark : bool -> S -> S) (st : S) (dark : bool) :
  fst (xstorage_get W (lit "themePreference") w) = Some (Some (theme_name dark)) ->
  xresult (xrun W (loadThemePreference setIsDark st) w) = setIsDark dark st.
Proof.
  intros H. pose proof (loadThemePreference_cases setIsDark st) as C.
  cbv zeta in C. rewrite H in C. destruct dark; cbn in C; apply C.
Qed.

(** X15. The budget screen fetches its items at mount only when both
    preference reads resolved: it starts the two reads, applies the values
    that are not empty, and then makes one select; when either read rejects
    it logs "Error loading data:", keeps its state and fetches nothing. *)
Theorem loadData_needs_both_preferences st :
  let out := xrun W (BudgetScreenHandlers.loadData st) w in
  let '(themePref, w1) := xstorage_get W (lit "themePreference") w in
  let '(currencyPref, w2) := xstorage_get W (lit "currencyPreference") w1 in
  match themePref, currencyPref with
  | Some themePref, Some currencyPref =>
      let st1 := BudgetScreenHandlers.applyCurrencyPref currencyPref
                   (BudgetScreenHandlers.applyThemePref themePref st) in
      xnetwork (xtrace out) = [Ev (Net select_budget_items)] /\
      xtrace out
      = Get (lit "themePreference") :: Get (lit "currencyPreference")
        :: map Ev (trace (run (base_of W) (BudgetScreen.fetchBudgetItems st1) w2)) /\
      xresult out = result (run (base_of W) (BudgetScreen.fetchBudgetItems st1) w2)
  | _, _ =>
      xresult out = st /\
      xtrace out = [Get (lit "themePreference"); Get (lit "currencyPreference");
                    Ev (Out (console_error (lit "Error loading data:")))]
  end.
Proof.
  cbv zeta. unfold BudgetScreenHandlers.loadData.
  cbn -[lift BudgetScreen.fetchBudgetItems].
  destruct (xstorage_get W _ w) as [themePref w1].
  destruct (xstorage_get W _ w1) as [currencyPref w2].
  destruct themePref as [themePref|], currencyPref as [currencyPref|];
    try (cbn; now split).
  cbn -[lift BudgetScreen.fetchBudgetItems].
  rewrite xrun_lift, run_fetchBudgetItems_budget.
  change (remote (base_of W)) with (xremote W).
  destruct (xremote W select_budget_items w2) as [rep w3].
  destruct (error rep); cbn; now repeat split.
Qed.

End AuthFacts.

Lemma theme_round_trip_witness :
  xresult
    (xrun Device.world
       (loadThemePreference AddTaskHandlers.setIsDark (Samples.add_task_form "Buy milk"))
       (xworld_after
          (xrun Device.world (lift (TaskListHandlers.toggleTheme Samples.task_list_two))
             Device.fresh)))
  = AddTaskHandlers.setIsDark true (Samples.add_task_form "Buy milk").
Proof.
  apply (@theme_round_trip Device.world _ _ AddTaskHandlers.setIsDark
           (Samples.add_task_form "Buy milk") true).
  reflexivity.
Defined.

(** ** The currency of the add-budget form *)

Lemma find_currency_empty : find_currency [] = None.
Proof. reflexivity. Qed.

Section CurrencyFacts.
Variable W : World.
Variable w : wstate W.
Variable XW : XWorld.
Variable xw : xstate XW.

(** X16. The currency of the add-budget form is always an entry of the
    table: it is one at mount, a currency change leaves one there whatever
    code it is given, and loading the preferences and submitting the form
    keep it one; so every insert from the screen carries one of the eight
    codes of the table. *)
Theorem add_budget_currency_is_supported :
  In (AddBudgetScreen.currency AddBudgetHandlers.initial) CURRENCIES /\
  (forall code st,
     In (AddBudgetScreen.currency
           (result (run W (AddBudgetHandlers.handleCurrencyChange code st) w)))
        CURRENCIES) /\
  (forall st,
     In (AddBudgetScreen.currency st) CURRENCIES ->
     In (AddBudgetScreen.currency
           (xresult (xrun XW (AddBudgetHandlers.loadPreferences st) xw)))
        CURRENCIES) /\
  (forall st,
     In (AddBudgetScreen.currency st) CURRENCIES ->
     let out := run W (AddBudgetScreen.handleAddBudgetItem st) w in
     AddBudgetScreen.currency (result out) = AddBudgetScreen.currency st /\
     forall row, In row (budget_inserts (trace out)) ->
                 In (bi_currency row) (map AddBudgetScreen.code CURRENCIES)).
Proof.
  repeat apply conj.
  - left. reflexivity.
  - intros code st. unfold AddBudgetHandlers.handleCurrencyChange.
    cbn -[find_currency CURRENCIES In].
    destruct (storage_set W _ _ w) as [ok w1]. cbn -[find_currency CURRENCIES In].
    destruct (find_currency code) as [c|] eqn:E.
    + apply find_currency_some in E as (H & _ & _). exact H.
    + left. reflexivity.
  - intros st Hst. unfold AddBudgetHandlers.loadPreferences.
    cbn -[find_currency CURRENCIES In AddBudgetHandlers.applySavedCurrency
          AddBudgetHandlers.applySavedTheme].
    destruct (xstorage_get XW _ xw) as [[savedTheme|] w1];
      cbn -[find_currency CURRENCIES In AddBudgetHandlers.applySavedCurrency
            AddBudgetHandlers.applySavedTheme]; [|exact Hst].
    assert (T : AddBudgetScreen.currency (AddBudgetHandlers.applySavedTheme savedTheme st)
                = AddBudgetScreen.currency st).
    { unfold AddBudgetHandlers.applySavedTheme.
      destruct savedTheme as [t|]; [destruct (truthy_string t)|]; reflexivity. }
    destruct (xstorage_get XW _ w1) as [[savedCurrency|] w2];
      cbn -[find_currency CURRENCIES In AddBudgetHandlers.applySavedCurrency
            AddBudgetHandlers.applySavedTheme]; [|now rewrite T].
    unfold AddBudgetHandlers.applySavedCurrency.
    destruct (truthy_opt savedCurrency); [|now rewrite T].
    destruct savedCurrency as [code|]; [|now rewrite T].
    destruct (find_currency code) as [c|] eqn:E; [|now rewrite T].
    apply find_currency_some in E as (H & _ & _). exact H.
  - intros st Hst. cbv zeta. rewrite run_handleAddBudgetItem. cbv zeta.
    destruct (AddBudgetScreen.titleMissing st); [split; [reflexivity|intros ? []]|].
    destruct (AddBudgetScreen.amountInvalid st); [split; [reflexivity|intros ? []]|].
    answer. destruct rep as [u|]; [|split; [reflexivity|intros ? []]].
    answer.
    assert (R : forall row, In row [budget_row st u] ->
                            In (bi_currency row) (map AddBudgetScreen.code CURRENCIES)).
    { intros row [<-|[]]. unfold budget_row. cbn [bi_currency]. now apply in_map. }
    destruct (error rep); cbn; split; try reflexivity; exact R.
Qed.

(** X17. A currency change on the add-budget form writes the code it was
    given under ["currencyPreference"], closes the picker, keeps title,
    amount and type, and selects the entry of the table with that code, or
    the first entry when the table has none.  A form mounted afterwards on a
    device that reads that code back shows the same currency. *)
Theorem currency_choice_survives_reload code st savedTheme xw1 :
  xstorage_get XW (lit "themePreference") xw = (Some savedTheme, xw1) ->
  fst (xstorage_get XW (lit "currencyPreference") xw1) = Some (Some code) ->
  let changed := run W (AddBudgetHandlers.handleCurrencyChange code st) w in
  let mounted := xrun XW (AddBudgetHandlers.loadPreferences AddBudgetHandlers.initial) xw in
  trace changed = [Sto (lit "currencyPreference") code] /\
  AddBudgetScreen.showCurrencyPicker (result changed) = false /\
  AddBudgetScreen.title (result changed) = AddBudgetScreen.title st /\
  AddBudgetScreen.amount (result changed) = AddBudgetScreen.amount st /\
  AddBudgetScreen.type (result changed) = AddBudgetScreen.type st /\
  AddBudgetScreen.currency (result changed)
  = match find_currency code with Some c => c | None => CURRENCIES_0 end /\
  AddBudgetScreen.currency (xresult mounted) = AddBudgetScreen.currency (result changed).
Proof.
  intros Ht Hc. cbv zeta.
  unfold AddBudgetHandlers.handleCurrencyChange, AddBudgetHandlers.loadPreferences.
  cbn -[find_currency CURRENCIES AddBudgetHandlers.applySavedCurrency
        AddBudgetHandlers.applySavedTheme AddBudgetHandlers.initial].
  destruct (storage_set W _ _ w) as [ok w1].
  cbn in Ht. rewrite Ht.
  cbn -[find_currency CURRENCIES AddBudgetHandlers.applySavedCurrency
        AddBudgetHandlers.applySavedTheme AddBudgetHandlers.initial].
  destruct (xstorage_get XW _ xw1) as [saved xw2]. cbn in Hc. subst saved.
  cbn -[find_currency CURRENCIES AddBudgetHandlers.applySavedCurrency
        AddBudgetHandlers.applySavedTheme AddBudgetHandlers.initial].
  repeat split.
  unfold AddBudgetHandlers.applySavedCurrency, truthy_opt.
  assert (T : forall s, AddBudgetScreen.currency
                          (AddBudgetHandlers.applySavedTheme savedTheme s)
                        = AddBudgetScreen.currency s).
  { intros s. unfold AddBudgetHandlers.applySavedTheme.
    destruct savedTheme as [t|]; [destruct (truthy_string t)|]; reflexivity. }
  destruct code as [|x code].
  - rewrite find_currency_empty. cbn [truthy_string]. rewrite T. reflexivity.
  - cbn [truthy_string]. destruct (find_currency (x :: code)); [reflexivity|].
    rewrite T. reflexivity.
Qed.

End CurrencyFacts.

Lemma add_budget_currency_is_supported_witness :
  In (bi_currency
        (budget_row (Samples.add_budget_form "Lunch" "42.50" outcome) Store.alice))
     (map AddBudgetScreen.code CURRENCIES).
Proof.
  destruct (add_budget_currency_is_supported Store.world Store.empty
              Device.world Device.fresh) as (_ & _ & _ & H).
  destruct (H (Samples.add_budget_form "Lunch" "42.50" outcome)) as [_ R].
  - left. reflexivity.
  - apply R. left. reflexivity.
Defined.

Lemma currency_choice_survives_reload_witness :
  AddBudgetScreen.currency
    (xresult
       (xrun Device.world (AddBudgetHandlers.loadPreferences AddBudgetHandlers.initial)
          (xworld_after
             (xrun Device.world
                (lift (AddBudgetHandlers.handleCurrencyChange (lit "EUR")
                         AddBudgetHandlers.initial))
                Device.fresh))))
  = currency_entry (lit "EUR") [8364%N] "Euro".
Proof.
  set (d := xworld_after
              (xrun Device.world
                 (lift (AddBudgetHandlers.handleCurrencyChange (lit "EUR")
                          AddBudgetHandlers.initial))
                 Device.fresh)).
  destruct (@currency_choice_survives_reload Store.world Store.empty
              Device.world d (lit "EUR") AddBudgetHandlers.initial None d
              eq_refl eq_refl) as (_ & _ & _ & _ & _ & _ & H).
  exact H.
Defined.

(** ** The amount of the add-budget form *)

Lemma trimStart_white s : forallb is_white_space s = true -> trimStart s = [].
Proof.
  induction s as [|x s IH]; [reflexivity|]. cbn [forallb trimStart].
  intros H. apply andb_true_iff in H as [Hx Hs]. rewrite Hx. auto.
Qed.

Lemma trim_white s : forallb is_white_space s = true -> trim s = [].
Proof. intros H. unfold trim. now rewrite (trimStart_white s H). Qed.

Section AmountFacts.
Variable W : World.
Variable w : wstate W.

(** X18. On the add-budget form an amount text that is not empty and holds
    white space only passes the local check, because [Number] reads it as 0,
    while [parseFloat] reads no number from it: with a title and a signed-in
    user the form inserts one row whose amount is [NaN].  The edit-budget
    screen with inline messages rejects the same amount text. *)
Theorem blank_amount_is_inserted_as_NaN st user w1 :
  AddBudgetScreen.titleMissing st = false ->
  AddBudgetScreen.amount st <> [] ->
  forallb is_white_space (AddBudgetScreen.amount st) = true ->
  remote W auth_getUser w = (Some user, w1) ->
  let out := run W (AddBudgetScreen.handleAddBudgetItem st) w in
  AddBudgetScreen.amountInvalid st = false /\
  (exists row, budget_inserts (trace out) = [row] /\ bi_amount row = NaN) /\
  (forall est,
     EditBudgetScreen.amount est = AddBudgetScreen.amount st ->
     EditBudgetScreen.fieldMissing est = true /\
     forall id w', trace (run W (EditBudgetScreen.handleSave id est) w')
                   = [Out (setTimeout cb_clear_error 3000)]).
Proof.
  intros Ht Hne Hws Hu. cbv zeta.
  assert (V : AddBudgetScreen.amountInvalid st = false).
  { unfold AddBudgetScreen.amountInvalid, Number. rewrite (trim_white _ Hws).
    destruct (AddBudgetScreen.amount st); [congruence|reflexivity]. }
  assert (P : parseFloat (AddBudgetScreen.amount st) = NaN).
  { unfold parseFloat. now rewrite (trimStart_white _ Hws). }
  split; [exact V|]. split.
  - rewrite run_handleAddBudgetItem. cbv zeta. rewrite Ht, V, Hu.
    answer. exists (budget_row st user).
    destruct (error rep); cbn; split; try reflexivity; exact P.
  - intros est E.
    assert (F : EditBudgetScreen.fieldMissing est = true).
    { unfold EditBudgetScreen.fieldMissing. rewrite E, (trim_white _ Hws).
      cbn. apply orb_true_r. }
    split; [exact F|]. intros id w'.
    rewrite run_EditBudgetScreen_handleSave, F. reflexivity.
Qed.

(** X19. When the insert of a create screen fails, the message of the
    backend is shown verbatim, the screen stays, and the form keeps what the
    user typed, so the submission can be repeated; when it succeeds the
    add-task form is emptied and the screen goes back, and the add-budget
    form loses title and amount, keeps type and currency, and is replaced by
    the tabs. *)
Theorem create_screens_keep_the_form_on_failure :
  (forall st user w1 rep w2,
     negb (truthy_string (trim (AddTaskScreen.title st))) = false ->
     remote W auth_getUser w = (Some user, w1) ->
     remote W (insert_task (task_row st user)) w1 = (rep, w2) ->
     let out := run W (AddTaskScreen.handleAddTask st) w in
     match error rep with
     | Some message =>
         outputs (trace out) = [Alert_alert (lit "Error") message] /\
         AddTaskScreen.title (result out) = AddTaskScreen.title st /\
         AddTaskScreen.category (result out) = AddTaskScreen.category st /\
         AddTaskScreen.optional (result out) = AddTaskScreen.optional st /\
         AddTaskScreen.deadline (result out) = AddTaskScreen.deadline st /\
         AddTaskScreen.loading (result out) = false
     | None =>
         outputs (trace out) = [router_back] /\
         AddTaskScreen.title (result out) = [] /\
         AddTaskScreen.category (result out) = [] /\
         AddTaskScreen.optional (result out) = false /\
         AddTaskScreen.deadline (result out) = [] /\
         AddTaskScreen.loading (result out) = false
     end) /\
  (forall st user w1 rep w2,
     AddBudgetScreen.titleMissing st = false ->
     AddBudgetScreen.amountInvalid st = false ->
     remote W auth_getUser w = (Some user, w1) ->
     remote W (insert_budget_item (budget_row st user)) w1 = (rep, w2) ->
     let out := run W (AddBudgetScreen.handleAddBudgetItem st) w in
     AddBudgetScreen.type (result out) = AddBudgetScreen.type st /\
     AddBudgetScreen.currency (result out) = AddBudgetScreen.currency st /\
     AddBudgetScreen.loading (result out) = false /\
     match error rep with
     | Some message =>
         outputs (trace out) = [] /\
         AddBudgetScreen.error_ (result out) = message /\
         AddBudgetScreen.title (result out) = AddBudgetScreen.title st /\
         AddBudgetScreen.amount (result out) = AddBudgetScreen.amount st
     | None =>
         outputs (trace out) = [router_replace (lit "/(tabs)")] /\
         AddBudgetScreen.error_ (result out) = [] /\
         AddBudgetScreen.title (result out) = [] /\
         AddBudgetScreen.amount (result out) = []
     end).
Proof.
  split.
  - intros st user w1 rep w2 Ht Hu Hi. cbv zeta.
    rewrite run_handleAddTask, Ht, Hu, Hi.
    destruct (error rep); cbn; now repeat split.
  - intros st user w1 rep w2 Ht Ha Hu Hi. cbv zeta.
    rewrite run_handleAddBudgetItem. cbv zeta. rewrite Ht, Ha, Hu, Hi.
    destruct (error rep); cbn; now repeat split.
Qed.

(** X20. Save on the edit-task screen sends what the form holds.  After the
    task was fetched and nothing was edited, the update carries the title
    and the completed flag of the fetched task, and as category the category
    of the fetched task, with the empty string where the task had none.
    After edits it carries the title as typed, the flag as switched and the
    category as picked.  It never names another field of the task. *)
Theorem edit_task_saves_what_the_form_holds id st d w1 :
  remote W (select_task_single id) w = ({| data := Some d; error := None |}, w1) ->
  let loaded := result (run W (EditTask.fetchTask id st) w) in
  (forall w',
     task_updates (trace (run W (EditTask.handleSave id loaded) w'))
     = [ ({| tp_title := Some (task_title d);
             tp_completed := Some (task_completed d);
             tp_category := Some (EditTask.category_or_empty (task_category d)) |},
          id) ]) /\
  (forall text value category w',
     task_updates
       (trace (run W (EditTask.handleSave id
                        (EditTaskHandlers.onCategoryChange category
                           (EditTaskHandlers.onCompletedChange value
                              (EditTaskHandlers.onChangeTitle text loaded)))) w'))
     = [ ({| tp_title := Some text;
             tp_completed := Some value;
             tp_category := Some category |}, id) ]).
Proof.
  intros Hf. cbv zeta. rewrite run_EditTask_fetchTask, Hf.
  cbn -[EditTask.handleSave run].
  split.
  - intros w'. rewrite run_EditTask_handleSave. cbn.
    destruct (remote W _ w') as [rep w2]. destruct (error rep); reflexivity.
  - intros text value category w'. rewrite run_EditTask_handleSave. cbn.
    destruct (remote W _ w') as [rep w2]. destruct (error rep); reflexivity.
Qed.

End AmountFacts.

Lemma blank_amount_is_inserted_as_NaN_witness :
  exists row,
    budget_inserts
      (trace (run Store.world
                (AddBudgetScreen.handleAddBudgetItem
                   (Samples.add_budget_form "Lunch" " " outcome))
                Store.empty)) = [row] /\
    bi_amount row = NaN.
Proof.
  apply (@blank_amount_is_inserted_as_NaN Store.world Store.empty
           (Samples.add_budget_form "Lunch" " " outcome) Store.alice Store.empty);
    try reflexivity.
  discriminate.
Defined.

Lemma create_screens_keep_the_form_on_failure_witness :
  let out := run ReadOnly.world
               (AddTaskScreen.handleAddTask (Samples.add_task_form "Buy milk")) tt in
  outputs (trace out) = [Alert_alert (lit "Error") (lit "permission denied")] /\
  AddTaskScreen.title (result out) = lit "Buy milk".
Proof.
  destruct (create_screens_keep_the_form_on_failure ReadOnly.world tt) as [H _].
  specialize (H (Samples.add_task_form "Buy milk") Store.alice tt
                (ReadOnly.denied unit) tt eq_refl eq_refl eq_refl).
  cbn in H. destruct H as (O & T & _). split; [exact O|exact T].
Defined.

Lemma edit_task_saves_what_the_form_holds_witness :
  task_updates
    (trace (run Store.world
              (EditTask.handleSave (lit "1")
                 (result (run Store.world
                            (EditTask.fetchTask (lit "1") Samples.edit_task_mounting)
                            Samples.store_two)))
              Samples.store_two))
  = [ ({| tp_title := Some (lit "Pay rent");
          tp_completed := Some false;
          tp_category := Some [] |}, lit "1") ].
Proof.
  destruct (@edit_task_saves_what_the_form_holds Store.world Samples.store_two
              (lit "1") Samples.edit_task_mounting Samples.task_a Samples.store_two
              eq_refl) as [H _].
  apply H.
Defined.

(** ** Fetch, edit and save on the edit-budget-item screen *)

Section EditItemRoundTrip.
Variable W : World.
Variable w : wstate W.

(** X21. On the edit-budget-item screen, Save after the item was fetched and
    nothing was edited sends an update that carries title, amount, type and
    currency of the fetched row as they were read; after the title was
    edited it carries the title as typed, the empty text included, with the
    three other fields of the fetched row. *)
Theorem edit_budget_item_saves_the_fetched_row id st d w1 :
  remote W (select_budget_item_single id) w = ({| data := Some d; error := None |}, w1) ->
  let loaded := result (run W (EditBudgetItem.fetchItem id st) w) in
  EditBudgetItem.render loaded = view_form /\
  (forall w',
     budget_updates (trace (run W (EditBudgetItem.handleSave id loaded) w'))
     = [ ({| bp_title := Some (item_title d);
             bp_amount := Some (item_amount d);
             bp_type := Some (item_type d);
             bp_currency := Some (item_currency d) |}, id) ]) /\
  (forall text w',
     budget_updates
       (trace (run W (EditBudgetItem.handleSave id
                        (EditBudgetItemHandlers.onChangeTitle text loaded)) w'))
     = [ ({| bp_title := Some text;
             bp_amount := Some (item_amount d);
             bp_type := Some (item_type d);
             bp_currency := Some (item_currency d) |}, id) ]).
Proof.
  intros Hf. cbv zeta. rewrite run_EditBudgetItem_fetchItem, Hf.
  cbn -[EditBudgetItem.handleSave run].
  split; [reflexivity|]. split.
  - intros w'. rewrite run_EditBudgetItem_handleSave. cbn.
    destruct (remote W _ w') as [rep w2]. destruct (error rep); cbn; [reflexivity|].
    destruct (storage_set W _ _ w2) as [ok w3]. reflexivity.
  - intros text w'. rewrite run_EditBudgetItem_handleSave. cbn.
    destruct (remote W _ w') as [rep w2]. destruct (error rep); cbn; [reflexivity|].
    destruct (storage_set W _ _ w2) as [ok w3]. reflexivity.
Qed.

End EditItemRoundTrip.

Lemma edit_budget_item_saves_the_fetched_row_witness :
  let s := world_after
             (run Store.world
                (AddBudgetScreen.handleAddBudgetItem
                   (Samples.add_budget_form "Lunch" "42.50" outcome))
                Store.empty) in
  budget_updates
    (trace (run Store.world
              (EditBudgetItem.handleSave (lit "1")
                 (EditBudgetItemHandlers.onChangeTitle []
                    (result (run Store.world
                               (EditBudgetItem.fetchItem (lit "1")
                                  Samples.edit_item_mounting) s))))
              s))
  = [ ({| bp_title := Some [];
          bp_amount := Some forty_two_and_a_half;
          bp_type := Some outcome;
          bp_currency := Some (lit "USD") |}, lit "1") ].
Proof.
  intros s.
  destruct (@edit_budget_item_saves_the_fetched_row Store.world s (lit "1")
              Samples.edit_item_mounting
              (Store.new_item Store.empty
                 (budget_row (Samples.add_budget_form "Lunch" "42.50" outcome)
                    Store.alice))
              s eq_refl) as (_ & _ & H).
  apply (H [] s).
Defined.
